(** * The DNS resolution layer of probe-cli: model and verification

    Part I embeds the Go sources in Gallina:
    - [oonet] follows [internal/engine/internal/oonet/dns.go]: the miekg-based
      codec, the generic (A then AAAA) resolver, the DNS-over-HTTPS round trip,
      the DNS-over-TCP/TLS resolver with its persistent connection and the
      DNS-over-TLS resolver that creates one on its first lookup;
    - [netxlite] follows the two revisions of the netxlite resolver file: the
      [Resolver] interface, the system resolver and the four decorators that
      [WrapResolver] and [NewResolverSystem] stack, with their HTTPS lookups.

    Conventions of the embedding.
    - A Go function with side effects becomes a function that takes the state
      it may touch and returns the new one next to its results.
    - A Go interface becomes a record of functions (a struct field holding a
      function stays a function).
    - A [[]byte] that the code compares with [nil] is an [option (list byte)];
      a [[]string] is a list ([nil] and the empty slice are not told apart by
      the code).
    - Code of third-party packages (miekg/dns, x/net/idna, net, time, context)
      is not part of the repository: what the sources need from it is a field
      of a class ([dns.Lib], [netxlite.Lib], [oonet.NetEnv], [oonet.HTTPEnv],
      [netxlite.Env]) and never assumed
      to behave in any way unless a hypothesis says so.
    - A goroutine whose result the caller waits for on a channel is run in
      place; the [select] between that channel and [ctx.Done()] is decided by
      an oracle of the environment.
    - The [DNSMonitor] callbacks only observe; they are left out.

    Part II states and proves the properties. *)

From Stdlib Require Import String Ascii.
From Stdlib Require Import ZArith List Bool Lia.
Import ListNotations.
#[local] Open Scope string_scope.
#[local] Open Scope Z_scope.
#[local] Open Scope list_scope.

(* ################################################################# *)
(** * Part I: the model *)

(** ** Go values *)

(** An octet, kept as an integer in [0, 256). *)
Definition byte := Z.

(** [[]byte], where [None] is the [nil] slice. *)
Definition bytes := option (list byte).

Definition bytesOf (b : bytes) : list byte :=
  match b with Some l => l | None => [] end.

(** Go's [len] of a byte slice. *)
Definition len (b : bytes) : Z := Z.of_nat (length (bytesOf b)).

(** Conversion of an integer to [byte], [uint16], [int32] and [uint]
    (64 bits): the value modulo the size of the type. *)
Definition toByte (v : Z) : byte := Z.land v 255.
Definition toUint16 (v : Z) : Z := Z.land v 65535.
Definition toUint (v : Z) : Z := v mod 2 ^ 64.
Definition toInt32 (v : Z) : Z := (v + 2 ^ 31) mod 2 ^ 32 - 2 ^ 31.

Definition MaxUint16 : Z := 65535.

(** The error values of the two packages.  Errors made by code outside them
    (I/O, context, libraries) are [ErrForeign]: such code cannot build the
    unexported values below. *)
Inductive error : Type :=
| ErrDNSNoSuchHost
| ErrDNSNoAsnwerFromDNSServer
| ErrDNSServerTemporarilyMisbehaving
| ErrDNSServerMisbehaving
| errDNSOverTCPTLSQueryTooLong
| errDNSOverTCPTLSRedial (e : error)
| ErrLookupHost (e : error)
| ErrNoResolver
| ErrNoDNSTransport
| ErrWrapper (Failure Operation : string) (WrappedErr : error)
| ErrForeign (msg : string).

(** The [Error()] method. *)
Fixpoint Error (e : error) : string :=
  match e with
  | ErrDNSNoSuchHost => "no such host"
  | ErrDNSNoAsnwerFromDNSServer => "no answer from DNS server"
  | ErrDNSServerTemporarilyMisbehaving => "server misbehaving"
  | ErrDNSServerMisbehaving => "server misbehaving"
  | errDNSOverTCPTLSQueryTooLong => "query too long"
  | errDNSOverTCPTLSRedial e => Error e
  | ErrLookupHost e => Error e
  | ErrNoResolver => "no configured resolver"
  | ErrNoDNSTransport => "operation requires a DNS transport"
  | ErrWrapper f _ _ => f
  | ErrForeign msg => msg
  end.

(** [errors.As(err, &redial)] for [redial *errDNSOverTCPTLSRedial]: the chain
    of [Unwrap] is followed; [errDNSOverTCPTLSRedial] itself embeds the error
    interface and so has no [Unwrap]. *)
Fixpoint errorsAsRedial (e : error) : bool :=
  match e with
  | errDNSOverTCPTLSRedial _ => true
  | ErrLookupHost e' => errorsAsRedial e'
  | ErrWrapper _ _ e' => errorsAsRedial e'
  | _ => false
  end.

(** What a [LookupHost] returns: [([]string, error)]. *)
Definition lookupResult : Type := list string * option error.

(** A [context.Context], as far as the sources build one. *)
Inductive Context : Type :=
| Background
| CallerContext (id : nat)
| WithTimeout (parent : Context) (timeout : Z).

(** ** The part of miekg/dns the codec uses *)

Module dns.

Definition TypeA : Z := 1.
Definition TypeAAAA : Z := 28.
Definition TypeOPT : Z := 41.
Definition ClassINET : Z := 1.
Definition RcodeSuccess : Z := 0.
Definition RcodeServerFailure : Z := 2.
Definition RcodeNameError : Z := 3.
Definition EDNS0PADDING : Z := 12.
Definition _DO : Z := 32768.

Record Question : Type := mkQuestion {
    Name : string;
    Qtype : Z;
    Qclass : Z
  }.

Record RR_Header : Type := mkHeader {
    hName : string;
    Rrtype : Z;
    Class : Z;
    Ttl : Z
  }.

  (** The one EDNS0 option the sources build. *)
Inductive EDNS0 : Type :=
  | EDNS0_PADDING (Padding : list byte).

  (** Resource records: the two address records the decoder looks for, the
      OPT pseudo record, and any other record with its data as found on the
      wire. *)
Inductive RR : Type :=
  | A (Hdr : RR_Header) (ip : list byte)
  | AAAA (Hdr : RR_Header) (ip : list byte)
  | OPT (Hdr : RR_Header) (Option : list EDNS0)
  | RFC3597 (Hdr : RR_Header) (Rdata : list byte).

Definition Header (rr : RR) : RR_Header :=
    match rr with
    | A h _ | AAAA h _ | OPT h _ | RFC3597 h _ => h
    end.

Record Msg : Type := mkMsg {
    Id : Z;
    Response : bool;
    Opcode : Z;
    Authoritative : bool;
    Truncated : bool;
    RecursionDesired : bool;
    RecursionAvailable : bool;
    Zero : bool;
    AuthenticatedData : bool;
    CheckingDisabled : bool;
    Rcode : Z;
    Question_ : list Question;
    Answer : list RR;
    Ns : list RR;
    Extra : list RR
  }.

  (** [new(dns.Msg)] *)
Definition newMsg : Msg :=
    mkMsg 0 false 0 false false false false false false false 0 [] [] [] [].

  (** What the library does with names, with the wire, with addresses and
      with its random source.  [domainNameLen] is the size [Len] counts for a
      name and [packDomainName] its wire form ([None]: the name is refused). *)
Class Lib : Type := {
    Fqdn : string -> string;
    packDomainName : string -> option (list byte);
    domainNameLen : string -> nat;
    Unpack : list byte -> Msg + string;
    IPString : list byte -> string;
    randomId : string -> Z -> Z
  }.

  (** The library's promise about [Len]: it is the size of what [Pack]
      writes. For names this reads as follows. *)
Definition LenIsExact (lib : Lib) : Prop :=
    forall s b, packDomainName s = Some b -> length b = domainNameLen s.

  Section WithLib.
    Context {lib : Lib}.

    (** [SetUDPSize], [SetDo], [UDPSize], [Do] of an OPT header. *)
Definition SetUDPSize (h : RR_Header) (size : Z) : RR_Header :=
      mkHeader (hName h) (Rrtype h) (toUint16 size) (Ttl h).
Definition SetDo (h : RR_Header) : RR_Header :=
      mkHeader (hName h) (Rrtype h) (Class h) (Z.lor (Ttl h) _DO).
Definition UDPSize (h : RR_Header) : Z := Class h.
Definition Do (h : RR_Header) : bool := Z.testbit (Ttl h) 15.

    (** [SetEdns0]: appends a fresh OPT record to the additional section. *)
Definition SetEdns0 (m : Msg) (udpsize : Z) (do : bool) : Msg :=
      let e := mkHeader "." TypeOPT 0 0 in
      let e := SetUDPSize e udpsize in
      let e := if do then SetDo e else e in
      mkMsg (Id m) (Response m) (Opcode m) (Authoritative m) (Truncated m)
        (RecursionDesired m) (RecursionAvailable m) (Zero m)
        (AuthenticatedData m) (CheckingDisabled m) (Rcode m)
        (Question_ m) (Answer m) (Ns m) (Extra m ++ [OPT e []]).

    (** [IsEdns0]: the OPT record of the additional section, searched from
        the end. *)
Fixpoint lastOPT (l : list RR) : option (RR_Header * list EDNS0) :=
      match l with
      | [] => None
      | rr :: tl =>
          match lastOPT tl with
          | Some o => Some o
          | None =>
              match rr with
              | OPT h o => if Rrtype h =? TypeOPT then Some (h, o) else None
              | _ => None
              end
          end
      end.

Definition IsEdns0 (m : Msg) : option (RR_Header * list EDNS0) :=
      lastOPT (Extra m).

    (** Assignment through the pointer that [IsEdns0] returns:
        [m.IsEdns0().Option = f(m.IsEdns0().Option)]. *)
Fixpoint setLastOPT (f : list EDNS0 -> list EDNS0) (l : list RR) : list RR :=
      match l with
      | [] => []
      | rr :: tl =>
          match lastOPT tl with
          | Some _ => rr :: setLastOPT f tl
          | None =>
              match rr with
              | OPT h o => if Rrtype h =? TypeOPT then OPT h (f o) :: tl else rr :: tl
              | _ => rr :: tl
              end
          end
      end.

Definition updateEdns0Option (f : list EDNS0 -> list EDNS0) (m : Msg) : Msg :=
      mkMsg (Id m) (Response m) (Opcode m) (Authoritative m) (Truncated m)
        (RecursionDesired m) (RecursionAvailable m) (Zero m)
        (AuthenticatedData m) (CheckingDisabled m) (Rcode m)
        (Question_ m) (Answer m) (Ns m) (setLastOPT f (Extra m)).

    (** *** The wire format (RFC 1035, RFC 6891), without compression *)

Definition packUint16 (v : Z) : list byte :=
      [toByte (Z.shiftr v 8); toByte v].

Definition packUint32 (v : Z) : list byte :=
      [toByte (Z.shiftr v 24); toByte (Z.shiftr v 16); toByte (Z.shiftr v 8); toByte v].

Definition bit (b : bool) (n : Z) : Z := if b then Z.shiftl 1 n else 0.

Definition headerBits (m : Msg) : Z :=
      Z.lor (bit (Response m) 15)
      (Z.lor (Z.shiftl (Z.land (Opcode m) 15) 11)
      (Z.lor (bit (Authoritative m) 10)
      (Z.lor (bit (Truncated m) 9)
      (Z.lor (bit (RecursionDesired m) 8)
      (Z.lor (bit (RecursionAvailable m) 7)
      (Z.lor (bit (Zero m) 6)
      (Z.lor (bit (AuthenticatedData m) 5)
      (Z.lor (bit (CheckingDisabled m) 4)
             (Z.land (Rcode m) 15))))))))).

Definition packMsgHdr (m : Msg) : list byte :=
      packUint16 (Id m) ++ packUint16 (headerBits m)
      ++ packUint16 (Z.of_nat (length (Question_ m)))
      ++ packUint16 (Z.of_nat (length (Answer m)))
      ++ packUint16 (Z.of_nat (length (Ns m)))
      ++ packUint16 (Z.of_nat (length (Extra m))).

Definition packOption (o : EDNS0) : list byte :=
      match o with
      | EDNS0_PADDING p =>
          packUint16 EDNS0PADDING ++ packUint16 (Z.of_nat (length p)) ++ p
      end.

Definition optionLen (o : EDNS0) : nat :=
      match o with EDNS0_PADDING p => 4 + length p end.

Definition rdata (rr : RR) : list byte :=
      match rr with
      | A _ ip | AAAA _ ip => ip
      | OPT _ o => flat_map packOption o
      | RFC3597 _ d => d
      end.

Definition rdataLen (rr : RR) : nat :=
      match rr with
      | A _ ip | AAAA _ ip => length ip
      | OPT _ o => list_sum (map optionLen o)
      | RFC3597 _ d => length d
      end.

Definition packQuestion (q : Question) : option (list byte) :=
      match packDomainName (Name q) with
      | Some n => Some (n ++ packUint16 (Qtype q) ++ packUint16 (Qclass q))
      | None => None
      end.

Definition packRR (rr : RR) : option (list byte) :=
      let h := Header rr in
      match packDomainName (hName h) with
      | Some n =>
          Some (n ++ packUint16 (Rrtype h) ++ packUint16 (Class h)
                  ++ packUint32 (Ttl h)
                  ++ packUint16 (Z.of_nat (length (rdata rr))) ++ rdata rr)
      | None => None
      end.

Fixpoint packAll {X : Type} (f : X -> option (list byte)) (l : list X)
      : option (list byte) :=
      match l with
      | [] => Some []
      | x :: tl =>
          match f x, packAll f tl with
          | Some b, Some bs => Some (b ++ bs)
          | _, _ => None
          end
      end.

    (** [Len]: the size of the packed message. *)
Definition questionLen (q : Question) : nat := domainNameLen (Name q) + 4.
Definition rrLen (rr : RR) : nat :=
      domainNameLen (hName (Header rr)) + 10 + rdataLen rr.

Definition Len (m : Msg) : nat :=
      12 + list_sum (map questionLen (Question_ m))
         + list_sum (map rrLen (Answer m))
         + list_sum (map rrLen (Ns m))
         + list_sum (map rrLen (Extra m)).

    (** [Pack], for the response codes that fit the header (the sources pack
        queries only, whose code is zero): [ErrRcode] otherwise. *)
Definition Pack (m : Msg) : bytes * option error :=
      if (Rcode m <? 0) || (15 <? Rcode m) then
        (None, Some (ErrForeign "dns: bad rcode"))
      else
        match packAll packQuestion (Question_ m), packAll packRR (Answer m),
              packAll packRR (Ns m), packAll packRR (Extra m) with
        | Some q, Some an, Some ns, Some ex =>
            (Some (packMsgHdr m ++ q ++ an ++ ns ++ ex), None)
        | _, _, _, _ => (None, Some (ErrForeign "dns: bad rdata"))
        end.

  End WithLib.

End dns.

(** ** Package oonet: [internal/engine/internal/oonet/dns.go] *)

Module oonet.

  (** [DNSCodec] *)
Record DNSCodec : Type := {
    EncodeLookupHostRequest : Context -> string -> Z -> bool -> bytes * option error;
    DecodeLookupHostResponse : Context -> Z -> bytes -> lookupResult
  }.

  (** *** [dnsMiekgCodec] *)
  Module dnsMiekgCodec.
    Section WithLib.
      Context {lib : dns.Lib}.

Definition desiredBlockSize : Z := 128.
Definition EDNS0MaxResponseSize : Z := 4096.
Definition DNSSECEnabled : bool := true.

      (** The [if padding] block of [EncodeLookupHostRequest]. *)
Definition pad (query : dns.Msg) : dns.Msg :=
        let query := dns.SetEdns0 query EDNS0MaxResponseSize DNSSECEnabled in
        let remainder :=
          toUint (desiredBlockSize - toUint (Z.of_nat (dns.Len query) + 4))
            mod desiredBlockSize in
        let opt := dns.EDNS0_PADDING (repeat 0 (Z.to_nat remainder)) in
        dns.updateEdns0Option (fun o => o ++ [opt]) query.

      (** The message [EncodeLookupHostRequest] builds, up to [query.Pack()]. *)
Definition query (domain : string) (qtype : Z) (padding : bool) : dns.Msg :=
        let question := dns.mkQuestion (dns.Fqdn domain) qtype dns.ClassINET in
        let query :=
          dns.mkMsg (toUint16 (dns.randomId domain qtype))
            false 0 false false true false false false false 0
            [question] [] [] [] in
        if padding then pad query else query.

Definition EncodeLookupHostRequest
        (ctx : Context) (domain : string) (qtype : Z) (padding : bool)
        : bytes * option error :=
        dns.Pack (query domain qtype padding).

      (** The body of the loop over [reply.Answer]. *)
Definition collect (qtype : Z) (addrs : list string) (answer : dns.RR)
        : list string :=
        if qtype =? dns.TypeA then
          match answer with
          | dns.A _ ip => addrs ++ [dns.IPString ip]
          | _ => addrs
          end
        else if qtype =? dns.TypeAAAA then
          match answer with
          | dns.AAAA _ ip => addrs ++ [dns.IPString ip]
          | _ => addrs
          end
        else addrs.

Definition DecodeLookupHostResponse
        (ctx : Context) (qtype : Z) (data : bytes) : lookupResult :=
        match dns.Unpack (bytesOf data) with
        | inr err => ([], Some (ErrForeign err))
        | inl reply =>
            if dns.Rcode reply =? dns.RcodeNameError then
              ([], Some ErrDNSNoSuchHost)
            else if dns.Rcode reply =? dns.RcodeServerFailure then
              ([], Some ErrDNSServerTemporarilyMisbehaving)
            else if dns.Rcode reply =? dns.RcodeSuccess then
              let addrs := fold_left (collect qtype) (dns.Answer reply) [] in
              if Z.of_nat (length addrs) <=? 0 then
                ([], Some ErrDNSNoAsnwerFromDNSServer)
              else (addrs, None)
            else ([], Some ErrDNSServerMisbehaving)
        end.

      (** [&dnsMiekgCodec{}] as a [DNSCodec]. *)
Definition new : DNSCodec :=
        Build_DNSCodec EncodeLookupHostRequest DecodeLookupHostResponse.
    End WithLib.
  End dnsMiekgCodec.

  (** [dnsTransport]: a round trip uses, and may change, a state [S] (the
      network, the transport's own fields). *)
Definition dnsTransport (S : Type) : Type :=
    Context -> bytes -> S -> (bytes * option error) * S.

  (** [dnsLookupHostResult] *)
Record dnsLookupHostResult : Type := mkResult {
    addrs : list string;
    err : option error
  }.

Definition isNil {X : Type} (o : option X) : bool :=
    match o with Some _ => false | None => true end.

  (** *** [dnsGenericResolver] *)
  Module dnsGenericResolver.
    Section WithState.
      Context {S : Type}.

Record T : Type := {
        codec : DNSCodec;
        padding : bool;
        t : dnsTransport S
      }.

Definition doLookupHost (r : T) (ctx : Context) (hostname : string)
        (qtype : Z) (padding : bool) (s : S) : dnsLookupHostResult * S :=
        match EncodeLookupHostRequest (codec r) ctx hostname qtype padding with
        | (_, Some e) => (mkResult [] (Some e), s)
        | (query, None) =>
            match t r ctx query s with
            | ((_, Some e), s) => (mkResult [] (Some e), s)
            | ((reply, None), s) =>
                let (a, e) := DecodeLookupHostResponse (codec r) ctx qtype reply in
                (mkResult a e, s)
            end
        end.

      (** [asyncLookupHost] sends the result of [doLookupHost] on its channel
          and [LookupHost] receives it before it goes on: the A lookup is over
          when the AAAA lookup starts. *)
Definition LookupHost (r : T) (ctx : Context) (hostname : string) (s : S)
        : lookupResult * S :=
        let (replyA, s) := doLookupHost r ctx hostname dns.TypeA (padding r) s in
        let (replyAAAA, s) := doLookupHost r ctx hostname dns.TypeAAAA (padding r) s in
        if negb (isNil (err replyA)) && negb (isNil (err replyAAAA)) then
          (([], err replyA), s)
        else
          let addrs := [] ++ addrs replyA in
          let addrs := addrs ++ oonet.addrs replyAAAA in
          if Z.of_nat (length addrs) <? 1 then
            (([], Some ErrDNSNoAsnwerFromDNSServer), s)
          else ((addrs, None), s).
    End WithState.
    Arguments T : clear implicits.
  End dnsGenericResolver.

  (** *** [DNSOverHTTPSResolver] *)

Record Request : Type := {
    Method : string;
    URL : string;
    Body : bytes;
    Header : list (string * string);
    reqCtx : Context
  }.

  (** An [http.Response]: reading its body to the end, and closing it, act on
      the state. *)
Record Response (S : Type) : Type := {
    StatusCode : Z;
    RespHeader : list (string * string);
    ReadAll : S -> (bytes * option error) * S;
    CloseBody : S -> S
  }.
  Arguments StatusCode {S}. Arguments RespHeader {S}.
  Arguments ReadAll {S}. Arguments CloseBody {S}.

  (** [DNSOverHTTPSHTTPClient] *)
  (** with [CloseIdleConnections] when the client is also a
      [dnsIdleConnectionsCloser] *)
Record DNSOverHTTPSHTTPClient (S : Type) : Type := {
    Do : Request -> S -> (Response S + error) * S;
    CloseIdle : option (S -> S)
  }.
  Arguments Do {S}. Arguments CloseIdle {S}.

  (** What the round trip takes from [net/http] and [log]. *)
Class HTTPEnv (S : Type) : Type := {
    NewRequestWithContext : Context -> string -> string -> bytes -> Request + string;
    HTTPXDefaultClient : DNSOverHTTPSHTTPClient S;
    logPrintf : string -> S -> S
  }.

(** [textproto.CanonicalMIMEHeaderKey]: a key made of token characters gets
      an upper-case letter first and after each dash, lower-case letters
      elsewhere; any other key is left as it is. *)
Definition isLower (c : ascii) : bool :=
    let n := nat_of_ascii c in (97 <=? n)%nat && (n <=? 122)%nat.

Definition isUpper (c : ascii) : bool :=
    let n := nat_of_ascii c in (65 <=? n)%nat && (n <=? 90)%nat.

Definition validHeaderFieldByte (c : ascii) : bool :=
    let n := nat_of_ascii c in
    isLower c || isUpper c || ((48 <=? n)%nat && (n <=? 57)%nat)
    || existsb (Ascii.eqb c)
         ["!"; "#"; "$"; "%"; "&"; "'"; "*"; "+"; "-"; "."; "^"; "_"; "`"; "|"; "~"]%char.

Fixpoint canonicalize (upper : bool) (s : string) : string :=
    match s with
    | EmptyString => EmptyString
    | String c rest =>
        let c :=
          if upper && isLower c then ascii_of_nat (nat_of_ascii c - 32)
          else if negb upper && isUpper c then ascii_of_nat (nat_of_ascii c + 32)
          else c in
        String c (canonicalize (Ascii.eqb c "-") rest)
    end.

Definition CanonicalMIMEHeaderKey (s : string) : string :=
    if forallb validHeaderFieldByte (list_ascii_of_string s)
    then canonicalize true s else s.

  (** An [http.Header] with one value per key, the keys in canonical form:
      [Get] and [Set]. *)
Fixpoint headerLookup (h : list (string * string)) (key : string) : string :=
    match h with
    | [] => ""
    | (k, v) :: tl => if String.eqb k key then v else headerLookup tl key
    end.

Definition headerGet (h : list (string * string)) (key : string) : string :=
    headerLookup h (CanonicalMIMEHeaderKey key).

Definition headerSet (h : list (string * string)) (key value : string)
    : list (string * string) :=
    let key := CanonicalMIMEHeaderKey key in
    (key, value) :: filter (fun kv => negb (String.eqb (fst kv) key)) h.

Definition setHeader (req : Request) (key value : string) : Request := {|
    Method := Method req; URL := URL req; Body := Body req;
    Header := headerSet (Header req) key value; reqCtx := reqCtx req
  |}.

  Module DNSOverHTTPSResolver.
    Section WithState.
      Context {S : Type} {env : HTTPEnv S}.

Record T : Type := {
        Client : option (DNSOverHTTPSHTTPClient S);
        Codec : option DNSCodec;
        OwnsClient : bool;
        URL : string;
        UserAgent : string
      }.

Definition client (r : T) : DNSOverHTTPSHTTPClient S :=
        match Client r with
        | Some c => c
        | None => HTTPXDefaultClient
        end.

Definition codec {lib : dns.Lib} (r : T) : DNSCodec :=
        match Codec r with
        | Some c => c
        | None => dnsMiekgCodec.new
        end.

Definition roundTrip (r : T) : dnsTransport S := fun ctx query s =>
        match NewRequestWithContext ctx "POST" (URL r) query with
        | inr e => ((None, Some (ErrForeign e)), s)
        | inl req =>
            let req :=
              if negb (String.eqb (UserAgent r) "") then
                setHeader req "user-agent" (UserAgent r)
              else req in
            let req := setHeader req "content-type" "application/dns-message" in
            match Do (client r) req s with
            | (inr e, s) => ((None, Some e), s)
            | (inl resp, s) =>
                if negb (StatusCode resp =? 200) then
                  ((None, Some ErrDNSServerTemporarilyMisbehaving), CloseBody resp s)
                else
                  let s :=
                    if negb (String.eqb (headerGet (RespHeader resp) "content-type")
                                        "application/dns-message") then
                      logPrintf "dns: the server did not set the right content type" s
                    else s in
                  let (out, s) := ReadAll resp s in
                  (out, CloseBody resp s)
            end
        end.

Definition LookupHost {lib : dns.Lib} (r : T) (ctx : Context)
        (hostname : string) (s : S) : lookupResult * S :=
        dnsGenericResolver.LookupHost
          {| dnsGenericResolver.codec := codec r;
             dnsGenericResolver.padding := true;
             dnsGenericResolver.t := roundTrip r |} ctx hostname s.

Definition CloseIdleConnection (r : T) (s : S) : S :=
        if OwnsClient r then
          match CloseIdle (client r) with
          | Some close => close s
          | None => s
          end
        else s.
    End WithState.
    Arguments T : clear implicits.
  End DNSOverHTTPSResolver.

  (** *** [dnsOverTCPTLSResolver] *)

  (** A [net.Conn] is known by a handle; what happens on the network is kept
      as the list of the calls made so far, each with its outcome. *)
Definition Conn : Type := nat.

Inductive Event : Type :=
  | EvDial (network address : string) (res : Conn + string)
  | EvClose (c : Conn)
  | EvSetDeadline (c : Conn) (t : option Z)
  | EvWrite (c : Conn) (buf : list byte) (res : option string)
  | EvReadFull (c : Conn) (n : nat) (res : list byte + string).

Definition World : Type := list Event.

  (** The environment decides, from what happened so far, how a write and a
      read end, whether [ctx.Done()] is chosen by a [select], and what time it
      is (in nanoseconds). Failures come as the foreign error's message. *)
Class NetEnv : Type := {
    writeOutcome : World -> Conn -> list byte -> option string;
    readOutcome : World -> Conn -> nat -> list byte + string;
    ctxDone : Context -> World -> option string;
    now : World -> Z
  }.

Definition Second : Z := 1000000000.

  Module dnsOverTCPTLSResolver.
    Section WithEnv.
      Context {env : NetEnv}.

Record T : Type := mk {
        address : string;
        conn : option Conn;
        codec : DNSCodec;
        dial : Context -> string -> string -> World -> Conn + string;
        padding : bool;
        users : Z
      }.

Definition setConn (r : T) (c : option Conn) : T :=
        mk (address r) c (codec r) (dial r) (padding r) (users r).

Definition setUsers (r : T) (u : Z) : T :=
        mk (address r) (conn r) (codec r) (dial r) (padding r) u.

      (** The methods of [net.Conn] and [io.ReadFull]. *)
Definition Close (c : Conn) (w : World) : World := w ++ [EvClose c].

Definition SetDeadline (c : Conn) (t : option Z) (w : World) : World :=
        w ++ [EvSetDeadline c t].

Definition Write (c : Conn) (buf : list byte) (w : World)
        : option string * World :=
        let res := writeOutcome w c buf in
        (res, w ++ [EvWrite c buf res]).

Definition ReadFull (c : Conn) (n : nat) (w : World)
        : (list byte + string) * World :=
        let res :=
          match readOutcome w c n with
          | inl b => if Nat.eqb (length b) n then inl b else inr "unexpected EOF"
          | inr e => inr e
          end in
        (res, w ++ [EvReadFull c n res]).

      (** [ctx.Err()] when the [select] takes [ctx.Done()]; the background
          context is never done. *)
Definition ctxErr (ctx : Context) (w : World) : option string :=
        match ctx with
        | Background => None
        | _ => ctxDone ctx w
        end.

Definition forceDial (dl : T) (ctx : Context) (w : World)
        : option error * T * World :=
        let (dl, w) :=
          match conn dl with
          | Some c => (setConn dl None, Close c w)
          | None => (dl, w)
          end in
        let res := dial dl ctx "tcp" (address dl) w in
        let w := w ++ [EvDial "tcp" (address dl) res] in
        match res with
        | inr e => (Some (ErrForeign e), dl, w)
        | inl c => (None, setConn dl (Some c), w)
        end.

Definition maybeDial (dl : T) (ctx : Context) (w : World)
        : option error * T * World :=
        match conn dl with
        | Some _ => (None, dl, w)
        | None => forceDial dl ctx w
        end.

      (** The request as written: two octets of length, then the query. *)
Definition frame (query : bytes) : list byte :=
        let buf := [toByte (Z.shiftr (len query) 8)] in
        let buf := buf ++ [toByte (len query)] in
        buf ++ bytesOf query.

      (** [trySync]. The deferred [SetDeadline(time.Time{})] runs at each
          return that follows the [defer]. With no connection the call of a
          method of the nil [dl.conn] panics: [do] never gets there, and the
          model ends the attempt with a foreign error. *)
Definition trySync (dl : T) (ctx : Context) (query : bytes) (w : World)
        : (bytes * option error) * World :=
        if MaxUint16 <? len query then
          ((None, Some errDNSOverTCPTLSQueryTooLong), w)
        else
          match conn dl with
          | None => ((None, Some (ErrForeign "panic: nil pointer dereference")), w)
          | Some c =>
              let w := SetDeadline c (Some (now w + 10 * Second)) w in
              let (werr, w) := Write c (frame query) w in
              match werr with
              | Some e =>
                  ((None, Some (errDNSOverTCPTLSRedial (ErrForeign e))),
                   SetDeadline c None w)
              | None =>
                  let (header, w) := ReadFull c 2 w in
                  match header with
                  | inr e => ((None, Some (ErrForeign e)), SetDeadline c None w)
                  | inl header =>
                      let length :=
                        Z.lor (Z.shiftl (nth 0 header 0) 8) (nth 1 header 0) in
                      let (reply, w) := ReadFull c (Z.to_nat length) w in
                      match reply with
                      | inr e => ((None, Some (ErrForeign e)), SetDeadline c None w)
                      | inl reply => ((Some reply, None), SetDeadline c None w)
                      end
                  end
              end
          end.

      (** [try] with [asyncTry]: the I/O runs in its goroutine; the [select]
          returns its result unless the context wins. When the context wins
          the source returns at once and the goroutine goes on with its I/O
          on the connection; the model has that I/O in the world at the
          return. It neither dials nor closes, and the properties that
          describe the network after [do] beyond dials and closes are stated
          for the case in which the [select] takes the result of the
          attempt. *)
Definition try (dl : T) (ctx : Context) (query : bytes) (w : World)
        : (bytes * option error) * World :=
        let (out, w) := trySync dl ctx query w in
        match ctxErr ctx w with
        | Some e => ((None, Some (ErrForeign e)), w)
        | None => (out, w)
        end.

Definition do (dl : T) (ctx : Context) (query : bytes) (w : World)
        : (bytes * option error) * T * World :=
        match maybeDial dl ctx w with
        | (Some e, dl, w) => ((None, Some e), dl, w)
        | (None, dl, w) =>
            let '((reply, err), w) := try dl ctx query w in
            match err with
            | None => ((reply, None), dl, w)
            | Some e =>
                if negb (errorsAsRedial e) then ((None, Some e), dl, w)
                else
                  match forceDial dl ctx w with
                  | (Some e, dl, w) => ((None, Some e), dl, w)
                  | (None, dl, w) =>
                      let (out, w) := try dl ctx query w in (out, dl, w)
                  end
            end
        end.

Definition rtriplocked (r : T) (ctx : Context) (query : bytes) (w : World)
        : (bytes * option error) * T * World :=
        match query with
        | None =>
            match conn r with
            | Some c =>
                if users r =? 0 then ((None, None), setConn r None, Close c w)
                else ((None, None), r, w)
            | None => ((None, None), r, w)
            end
        | Some _ => do r ctx query w
        end.

      (** [roundTrip]. One caller runs at a time: [users] counts the other
          callers that have announced themselves and wait for the lock. *)
Definition roundTrip (r : T) (ctx : Context) (query : bytes) (w : World)
        : (bytes * option error) * T * World :=
        let r := setUsers r (toInt32 (users r + 1)) in
        let r := setUsers r (toInt32 (users r + -1)) in
        rtriplocked r ctx query w.

Definition CloseIdleConnections (r : T) (w : World) : T * World :=
        let '(_, r, w) := roundTrip r Background None w in (r, w).

      (** The resolver as the [dnsTransport] of the generic resolver: its
          state is the resolver's fields and the network. *)
Definition transport : dnsTransport (T * World) := fun ctx query s =>
        let '(out, r, w) := roundTrip (fst s) ctx query (snd s) in (out, (r, w)).

Definition LookupHost (r : T) (ctx : Context) (hostname : string) (w : World)
        : lookupResult * (T * World) :=
        dnsGenericResolver.LookupHost
          {| dnsGenericResolver.codec := codec r;
             dnsGenericResolver.padding := true;
             dnsGenericResolver.t := transport |} ctx hostname (r, w).
    End WithEnv.
  End dnsOverTCPTLSResolver.

  (** *** [DNSOverTLSResolver] *)

  Module DNSOverTLSResolver.
    Section WithEnv.
      Context {lib : dns.Lib} {env : NetEnv}.
      (** [(&Dialer{ALPN: alpn}).DialTLSContext]: the package's [Dialer] is
          not among the sources. *)
      Variable dialTLSContext :
        list string -> Context -> string -> string -> World -> Conn + string.

Record T : Type := mk {
        Address : string;
        Codec : option DNSCodec;
        Dialer : option (Context -> string -> string -> World -> Conn + string);
        reso : option dnsOverTCPTLSResolver.T
      }.

Definition codec (r : T) : DNSCodec :=
        match Codec r with
        | Some c => c
        | None => dnsMiekgCodec.new
        end.

Definition dialer (r : T)
        : Context -> string -> string -> World -> Conn + string :=
        match Dialer r with
        | Some d => d
        | None => dialTLSContext ["dot"]
        end.

      (** The resolver made on the first lookup and kept from then on. *)
Definition inner (r : T) : dnsOverTCPTLSResolver.T :=
        match reso r with
        | Some x => x
        | None =>
            dnsOverTCPTLSResolver.mk (Address r) None (codec r) (dialer r) true 0
        end.

Definition LookupHost (r : T) (ctx : Context) (hostname : string) (w : World)
        : lookupResult * (T * World) :=
        let '(out, (x, w)) :=
          dnsOverTCPTLSResolver.LookupHost (inner r) ctx hostname w in
        (out, (mk (Address r) (Codec r) (Dialer r) (Some x), w)).

Definition CloseIdleConnections (r : T) (w : World) : T * World :=
        match reso r with
        | Some x =>
            let (x, w) := dnsOverTCPTLSResolver.CloseIdleConnections x w in
            (mk (Address r) (Codec r) (Dialer r) (Some x), w)
        | None => (r, w)
        end.
    End WithEnv.
  End DNSOverTLSResolver.

  (** *** [DNSResolver] *)

  (** [DNSUnderlyingResolver] *)
Definition DNSUnderlyingResolver (S : Type) : Type :=
    Context -> string -> S -> lookupResult * S.

  Module DNSResolver.
    Section WithState.
      Context {S : Type}.
      (** [(&net.Resolver{}).LookupHost], the default. *)
      Variable netResolver : DNSUnderlyingResolver S.

Record T : Type := {
        UnderlyingResolver : option (DNSUnderlyingResolver S)
      }.

Definition underlyingResolver (r : T) : DNSUnderlyingResolver S :=
        match UnderlyingResolver r with
        | Some u => u
        | None => netResolver
        end.

Definition LookupHost (r : T) (ctx : Context) (hostname : string) (s : S)
        : lookupResult * S :=
        let ures := underlyingResolver r in
        let '((addrs, err), s) := ures ctx hostname s in
        let err :=
          match err with
          | Some e => Some (ErrLookupHost e)
          | None => None
          end in
        ((addrs, err), s).
    End WithState.
    Arguments T : clear implicits.
  End DNSResolver.

End oonet.

(** ** Package netxlite: the resolver decorators *)

Module netxlite.

  (** What the decorators take from [idna], [net] and the package's own
      error classifier (not among the sources). [ToASCII] gives the ASCII
      form or the message of its error; [ParseIP] tells whether the result of
      [net.ParseIP] is non-nil. *)
Class Lib : Type := {
    ToASCII : string -> string + string;
    ParseIP : string -> bool;
    classifyResolverError : error -> string
  }.

  (** Modelled from the spec: the constant [ResolveOperation] is declared in a
      file that is not among the sources; the spec gives its value
      (operation = "resolve"). *)
Definition ResolveOperation : string := "resolve".

  (** Modelled from the spec: [newErrWrapper] is declared in a file that is
      not among the sources. It classifies the error and tags it with the
      operation, as the older revision writes out in place. *)
Definition newErrWrapper (classifier : error -> string) (operation : string)
    (err : error) : error :=
    ErrWrapper (classifier err) operation err.

  (** The arguments that the decorators hand to [Debugf]. *)
Inductive Arg : Type :=
  | ArgString (s : string)
  | ArgError (e : error)
  | ArgAddrs (l : list string)
  | ArgDuration (d : Z).

  (** [fmt.Sprintf] for a format whose verbs are [%s] and whose arguments are
      strings. *)
Fixpoint Sprintf (format : string) (args : list string) : string :=
    match format with
    | EmptyString => ""
    | String c rest =>
        match rest with
        | String d rest' =>
            if Ascii.eqb c "%" && Ascii.eqb d "s" then
              match args with
              | a :: tl => String.append a (Sprintf rest' tl)
              | [] => String.append "%!s(MISSING)" (Sprintf rest' [])
              end
            else String c (Sprintf rest args)
        | EmptyString => String c (Sprintf rest args)
        end
    end.

  Section WithState.
    Context {S : Type}.

    (** The logger interface ([Logger], [model.DebugLogger]). *)
Record Logger : Type := {
      Debugf : string -> list Arg -> S -> S
    }.

    (** [Resolver] ([model.Resolver]), without [LookupHTTPS] and [LookupNS]. *)
Record Resolver : Type := {
      LookupHost : Context -> string -> S -> lookupResult * S;
      Network : string;
      Address : string;
      CloseIdleConnections : S -> S
    }.

    (** The clock, the [select] on [ctx.Done()] and the lookup of the
        standard library ([TProxy.LookupHost], [net.DefaultResolver]). *)
Class Env : Type := {
      now : S -> Z;
      ctxDone : Context -> S -> option string;
      stdlibLookupHost : Context -> string -> S -> lookupResult * S
    }.

    Context {lib : Lib} {env : Env}.

    (** *** [resolverSystem] *)
Record resolverSystemT : Type := {
      testableTimeout : Z;
      testableLookupHost : option (Context -> string -> S -> lookupResult * S)
    }.

Definition timeout (r : resolverSystemT) : Z :=
      if 0 <? testableTimeout r then testableTimeout r else 15 * oonet.Second.

Definition lookupHost (r : resolverSystemT)
      : Context -> string -> S -> lookupResult * S :=
      match testableLookupHost r with
      | Some f => f
      | None => stdlibLookupHost
      end.

    (** The goroutine sends the addresses or the error, never both; the
        [select] prefers nothing, so the oracle says whether the context
        wins. *)
Definition resolverSystem (r : resolverSystemT) : Resolver := {|
      LookupHost := fun ctx hostname s =>
        let ctx := WithTimeout ctx (timeout r) in
        let '((addrs, err), s) := lookupHost r ctx hostname s in
        match ctxDone ctx s with
        | Some e => (([], Some (ErrForeign e)), s)
        | None =>
            match err with
            | Some e => (([], Some e), s)
            | None => ((addrs, None), s)
            end
        end;
      Network := "system";
      Address := "";
      CloseIdleConnections := fun s => s
    |}.

    (** *** [resolverLogger] (current revision) *)
Definition resolverLogger (inner : Resolver) (logger : Logger) : Resolver := {|
      LookupHost := fun ctx hostname s =>
        let prefix :=
          Sprintf "resolve[A,AAAA] %s with %s (%s)"
            [hostname; Network inner; Address inner] in
        let s := Debugf logger "%s..." [ArgString prefix] s in
        let start := now s in
        let '((addrs, err), s) := LookupHost inner ctx hostname s in
        let elapsed := now s - start in
        match err with
        | Some e =>
            let s := Debugf logger "%s... %s in %s"
                       [ArgString prefix; ArgError e; ArgDuration elapsed] s in
            (([], Some e), s)
        | None =>
            let s := Debugf logger "%s... %+v in %s"
                       [ArgString prefix; ArgAddrs addrs; ArgDuration elapsed] s in
            ((addrs, None), s)
        end;
      Network := Network inner;
      Address := Address inner;
      CloseIdleConnections := CloseIdleConnections inner
    |}.

    (** *** [resolverIDNA] *)
Definition resolverIDNA (inner : Resolver) : Resolver := {|
      LookupHost := fun ctx hostname s =>
        match ToASCII hostname with
        | inr e => (([], Some (ErrForeign e)), s)
        | inl host => LookupHost inner ctx host s
        end;
      Network := Network inner;
      Address := Address inner;
      CloseIdleConnections := CloseIdleConnections inner
    |}.

    (** *** [resolverShortCircuitIPAddr] *)
Definition resolverShortCircuitIPAddr (inner : Resolver) : Resolver := {|
      LookupHost := fun ctx hostname s =>
        if ParseIP hostname then (([hostname], None), s)
        else LookupHost inner ctx hostname s;
      Network := Network inner;
      Address := Address inner;
      CloseIdleConnections := CloseIdleConnections inner
    |}.

    (** *** [nullResolver] *)
Definition nullResolver : Resolver := {|
      LookupHost := fun ctx hostname s => (([], Some ErrNoResolver), s);
      Network := "null";
      Address := "";
      CloseIdleConnections := fun s => s
    |}.

    (** *** [resolverErrWrapper] *)
Definition resolverErrWrapper (inner : Resolver) : Resolver := {|
      LookupHost := fun ctx hostname s =>
        let '((addrs, err), s) := LookupHost inner ctx hostname s in
        match err with
        | Some e =>
            (([], Some (newErrWrapper classifyResolverError ResolveOperation e)), s)
        | None => ((addrs, None), s)
        end;
      Network := Network inner;
      Address := Address inner;
      CloseIdleConnections := CloseIdleConnections inner
    |}.

    (** *** [WrapResolver] and [NewResolverStdlib] *)
Definition WrapResolver (logger : Logger) (resolver : Resolver) : Resolver :=
      resolverIDNA
        (resolverLogger
           (resolverShortCircuitIPAddr
              (resolverErrWrapper resolver))
           logger).

Definition NewResolverStdlib (logger : Logger) : Resolver :=
      WrapResolver logger (resolverSystem {| testableTimeout := 0;
                                             testableLookupHost := None |}).
  End WithState.
  Arguments Logger : clear implicits.
  Arguments Resolver : clear implicits.
  Arguments Env : clear implicits.
  Arguments resolverSystemT : clear implicits.

  (** *** [LookupHTTPS]

      [model.HTTPSSvc] is declared in a package that is not among the
      sources; the decorators read and write its three fields. A
      [LookupHTTPS] returns a pointer to one and an error. *)
Record HTTPSSvc : Type := {
    ALPN : list string;
    IPv4 : list string;
    IPv6 : list string
  }.

Definition httpsResult : Type := option HTTPSSvc * option error.

Definition LookupHTTPSFn (S : Type) : Type :=
    Context -> string -> S -> httpsResult * S.

  (** [isIPv6]: [strings.Contains(candidate, ":")] *)
Definition isIPv6 (candidate : string) : bool :=
    match index 0 ":" candidate with
    | Some _ => true
    | None => false
    end.

  Section LookupHTTPS.
    Context {S : Type} {lib : Lib} {env : Env S}.

Definition resolverSystem_LookupHTTPS : LookupHTTPSFn S :=
      fun ctx domain s => ((None, Some ErrNoDNSTransport), s).

Definition nullResolver_LookupHTTPS : LookupHTTPSFn S :=
      fun ctx domain s => ((None, Some ErrNoResolver), s).

Definition resolverErrWrapper_LookupHTTPS (inner : LookupHTTPSFn S)
      : LookupHTTPSFn S := fun ctx domain s =>
      let '((out, err), s) := inner ctx domain s in
      match err with
      | Some e =>
          ((None, Some (newErrWrapper classifyResolverError ResolveOperation e)), s)
      | None => ((out, None), s)
      end.

Definition resolverShortCircuitIPAddr_LookupHTTPS (inner : LookupHTTPSFn S)
      : LookupHTTPSFn S := fun ctx hostname s =>
      if ParseIP hostname then
        let https := {| ALPN := []; IPv4 := []; IPv6 := [] |} in
        let https :=
          if isIPv6 hostname then
            {| ALPN := ALPN https; IPv4 := IPv4 https;
               IPv6 := IPv6 https ++ [hostname] |}
          else
            {| ALPN := ALPN https; IPv4 := IPv4 https ++ [hostname];
               IPv6 := IPv6 https |} in
        ((Some https, None), s)
      else inner ctx hostname s.

    (** The logger reads the fields of the result when there is no error: a
        nil result with a nil error makes the source panic. The model has no
        crash: it ends that call with a foreign error, and no property is
        stated for that case. *)
Definition resolverLogger_LookupHTTPS (named : Resolver S) (logger : Logger S)
      (inner : LookupHTTPSFn S) : LookupHTTPSFn S := fun ctx domain s =>
      let prefix :=
        Sprintf "resolve[HTTPS] %s with %s (%s)"
          [domain; Network named; Address named] in
      let s := Debugf logger "%s..." [ArgString prefix] s in
      let start := now s in
      let '((https, err), s) := inner ctx domain s in
      let elapsed := now s - start in
      match err with
      | Some e =>
          let s := Debugf logger "%s... %s in %s"
                     [ArgString prefix; ArgError e; ArgDuration elapsed] s in
          ((None, Some e), s)
      | None =>
          match https with
          | None =>
              ((None, Some (ErrForeign "panic: nil pointer dereference")), s)
          | Some svc =>
              let s := Debugf logger "%s... %+v %+v %+v in %s"
                         [ArgString prefix; ArgAddrs (ALPN svc);
                          ArgAddrs (IPv4 svc); ArgAddrs (IPv6 svc);
                          ArgDuration elapsed] s in
              ((Some svc, None), s)
          end
      end.

Definition resolverIDNA_LookupHTTPS (inner : LookupHTTPSFn S)
      : LookupHTTPSFn S := fun ctx domain s =>
      match ToASCII domain with
      | inr e => ((None, Some (ErrForeign e)), s)
      | inl host => inner ctx host s
      end.

    (** [LookupHTTPS] of the resolver that [WrapResolver] builds around a
        resolver whose [LookupHTTPS] is [inner]. *)
Definition WrapResolver_LookupHTTPS (logger : Logger S) (resolver : Resolver S)
      (inner : LookupHTTPSFn S) : LookupHTTPSFn S :=
      resolverIDNA_LookupHTTPS
        (resolverLogger_LookupHTTPS
           (resolverShortCircuitIPAddr (resolverErrWrapper resolver)) logger
           (resolverShortCircuitIPAddr_LookupHTTPS
              (resolverErrWrapper_LookupHTTPS inner))).
  End LookupHTTPS.

  (** *** The older revision

      Its decorators embed the inner [Resolver], so [Network], [Address] and
      [CloseIdleConnections] are those of the inner resolver; the IDNA, the
      short-circuit and the error-wrapping decorators read as above (the
      wrapper is built in place, with the same three fields). The system
      resolver differs in its default lookup only, which is a field of [Env]
      here. Its logger prints the host name alone. *)
  Module legacy.
    Section WithState.
      Context {S : Type} {lib : Lib} {env : Env S}.

Definition resolverLogger (inner : Resolver S) (logger : Logger S)
        : Resolver S := {|
        LookupHost := fun ctx hostname s =>
          let s := Debugf logger "resolve %s..." [ArgString hostname] s in
          let start := now s in
          let '((addrs, err), s) := LookupHost inner ctx hostname s in
          let elapsed := now s - start in
          match err with
          | Some e =>
              let s := Debugf logger "resolve %s... %s in %s"
                         [ArgString hostname; ArgError e; ArgDuration elapsed] s in
              (([], Some e), s)
          | None =>
              let s := Debugf logger "resolve %s... %+v in %s"
                         [ArgString hostname; ArgAddrs addrs; ArgDuration elapsed] s in
              ((addrs, None), s)
          end;
        Network := Network inner;
        Address := Address inner;
        CloseIdleConnections := CloseIdleConnections inner
      |}.

Definition NewResolverSystem (logger : Logger S) : Resolver S :=
        resolverIDNA
          (resolverLogger
             (resolverShortCircuitIPAddr
                (resolverErrWrapper
                   (resolverSystem {| testableTimeout := 0;
                                      testableLookupHost := None |})))
             logger).
    End WithState.
  End legacy.

End netxlite.

(** ** A reference environment

    An instance of each class, to run the model on concrete inputs: names
    without escapes, messages without compression, dotted IPv4 literals. *)

Module reference.

Definition endsWithDot (s : string) : bool :=
    match String.length s with
    | O => false
    | Datatypes.S n => String.eqb (String.substring n 1 s) "."
    end.

Definition Fqdn (s : string) : string :=
    if endsWithDot s then s else String.append s ".".

Definition byteOfAscii (c : ascii) : byte := Z.of_nat (nat_of_ascii c).
Definition asciiOfByte (b : byte) : ascii := ascii_of_nat (Z.to_nat b).

  (** Labels of 1 to 63 octets, each closed by a dot; [cur] is the label
      being read. *)
Fixpoint packLabels (s : string) (cur : list byte) : option (list byte) :=
    match s with
    | EmptyString => match cur with [] => Some [0] | _ => None end
    | String c rest =>
        if Ascii.eqb c "." then
          if (Nat.eqb (length cur) 0) || (63 <? length cur)%nat then None
          else
            match packLabels rest [] with
            | Some tl => Some (Z.of_nat (length cur) :: cur ++ tl)
            | None => None
            end
        else packLabels rest (cur ++ [byteOfAscii c])
    end.

Definition packDomainName (s : string) : option (list byte) :=
    if String.eqb s "." then Some [0]
    else if String.eqb s "" then None
    else packLabels s [].

Definition domainNameLen (s : string) : nat :=
    if String.eqb s "." then 1%nat else (String.length s + 1)%nat.

Definition take (n : nat) (b : list byte) : option (list byte * list byte) :=
    if (n <=? length b)%nat then Some (firstn n b, skipn n b) else None.

Definition uint16 (b : list byte) : Z := nth 0 b 0 * 256 + nth 1 b 0.
Definition uint32 (b : list byte) : Z :=
    ((nth 0 b 0 * 256 + nth 1 b 0) * 256 + nth 2 b 0) * 256 + nth 3 b 0.

Fixpoint unpackName (fuel : nat) (b : list byte) (acc : string)
    : option (string * list byte) :=
    match fuel with
    | O => None
    | Datatypes.S fuel =>
        match b with
        | [] => None
        | l :: rest =>
            if l =? 0 then Some (if String.eqb acc "" then "." else acc, rest)
            else if 63 <? l then None
            else
              match take (Z.to_nat l) rest with
              | Some (label, rest) =>
                  unpackName fuel rest
                    (String.append acc
                       (String.append (string_of_list_ascii (map asciiOfByte label)) "."))
              | None => None
              end
        end
    end.

Fixpoint unpackOptions (fuel : nat) (b : list byte) : option (list dns.EDNS0) :=
    match fuel with
    | O => None
    | Datatypes.S fuel =>
        match b with
        | [] => Some []
        | _ =>
            match take 4 b with
            | Some (h, rest) =>
                match take (Z.to_nat (uint16 (skipn 2 h))) rest with
                | Some (d, rest) =>
                    if uint16 h =? dns.EDNS0PADDING then
                      match unpackOptions fuel rest with
                      | Some tl => Some (dns.EDNS0_PADDING d :: tl)
                      | None => None
                      end
                    else None
                | None => None
                end
            | None => None
            end
        end
    end.

Definition unpackRR (b : list byte) : option (dns.RR * list byte) :=
    match unpackName (Datatypes.S (length b)) b "" with
    | Some (name, rest) =>
        match take 10 rest with
        | Some (f, rest) =>
            let h := dns.mkHeader name (uint16 f) (uint16 (skipn 2 f))
                       (uint32 (skipn 4 f)) in
            match take (Z.to_nat (uint16 (skipn 8 f))) rest with
            | Some (d, rest) =>
                let rr :=
                  if dns.Rrtype h =? dns.TypeA then dns.A h d
                  else if dns.Rrtype h =? dns.TypeAAAA then dns.AAAA h d
                  else if dns.Rrtype h =? dns.TypeOPT then
                    match unpackOptions (Datatypes.S (length d)) d with
                    | Some o => dns.OPT h o
                    | None => dns.RFC3597 h d
                    end
                  else dns.RFC3597 h d in
                Some (rr, rest)
            | None => None
            end
        | None => None
        end
    | None => None
    end.

Definition unpackQuestion (b : list byte) : option (dns.Question * list byte) :=
    match unpackName (Datatypes.S (length b)) b "" with
    | Some (name, rest) =>
        match take 4 rest with
        | Some (f, rest) =>
            Some (dns.mkQuestion name (uint16 f) (uint16 (skipn 2 f)), rest)
        | None => None
        end
    | None => None
    end.

Fixpoint unpackMany {X : Type} (one : list byte -> option (X * list byte))
    (n : nat) (b : list byte) : option (list X * list byte) :=
    match n with
    | O => Some ([], b)
    | Datatypes.S n =>
        match one b with
        | Some (x, rest) =>
            match unpackMany one n rest with
            | Some (xs, rest) => Some (x :: xs, rest)
            | None => None
            end
        | None => None
        end
    end.

Definition Unpack (b : list byte) : dns.Msg + string :=
    match take 12 b with
    | None => inr "dns: overflow unpacking uint16"
    | Some (h, rest) =>
        let bits := uint16 (skipn 2 h) in
        match unpackMany unpackQuestion (Z.to_nat (uint16 (skipn 4 h))) rest with
        | Some (qd, rest) =>
            match unpackMany unpackRR (Z.to_nat (uint16 (skipn 6 h))) rest with
            | Some (an, rest) =>
                match unpackMany unpackRR (Z.to_nat (uint16 (skipn 8 h))) rest with
                | Some (ns, rest) =>
                    match unpackMany unpackRR (Z.to_nat (uint16 (skipn 10 h))) rest with
                    | Some (ar, _) =>
                        inl (dns.mkMsg (uint16 h)
                               (Z.testbit bits 15) (Z.land (Z.shiftr bits 11) 15)
                               (Z.testbit bits 10) (Z.testbit bits 9)
                               (Z.testbit bits 8) (Z.testbit bits 7)
                               (Z.testbit bits 6) (Z.testbit bits 5)
                               (Z.testbit bits 4) (Z.land bits 15)
                               qd an ns ar)
                    | None => inr "dns: overflow unpacking rr"
                    end
                | None => inr "dns: overflow unpacking rr"
                end
            | None => inr "dns: overflow unpacking rr"
            end
        | None => inr "dns: overflow unpacking question"
        end
    end.

Definition digit (n : nat) : string :=
    String (ascii_of_nat (48 + n)) EmptyString.

Definition decimal (v : Z) : string :=
    let n := Z.to_nat v in
    if (n <? 10)%nat then digit n
    else if (n <? 100)%nat then String.append (digit (n / 10)) (digit (n mod 10))
    else String.append (digit (n / 100))
           (String.append (digit (n / 10 mod 10)) (digit (n mod 10))).

Definition hexDigit (n : nat) : ascii :=
    if (n <? 10)%nat then ascii_of_nat (48 + n) else ascii_of_nat (87 + n).

  (** A group of sixteen bits in hexadecimal, without leading zeros. *)
Definition hexGroup (hi lo : byte) : string :=
    let v := Z.to_nat (hi * 256 + lo) in
    let d := [v / 4096; v / 256 mod 16; v / 16 mod 16; v mod 16]%nat in
    let fix strip (l : list nat) : list nat :=
      match l with
      | O :: (_ :: _) as tl => strip tl
      | _ => l
      end in
    string_of_list_ascii (map hexDigit (strip d)).

Fixpoint hexGroups (ip : list byte) : list string :=
    match ip with
    | hi :: lo :: tl => hexGroup hi lo :: hexGroups tl
    | _ => []
    end.

  (** Dotted decimal for four octets, eight groups in hexadecimal for
      sixteen (runs of zero groups are not shortened); any other length
      prints as ["?"]. *)
Definition IPString (ip : list byte) : string :=
    match ip with
    | [a; b; c; d] =>
        String.concat "." [decimal a; decimal b; decimal c; decimal d]
    | _ =>
        if Nat.eqb (length ip) 16 then String.concat ":" (hexGroups ip)
        else "?"
    end.

#[export] Instance dnsLib : dns.Lib := {|
    dns.Fqdn := Fqdn;
    dns.packDomainName := packDomainName;
    dns.domainNameLen := domainNameLen;
    dns.Unpack := Unpack;
    dns.IPString := IPString;
    dns.randomId := fun _ qtype => 4660 + qtype
  |}.

  (** Dotted IPv4 literals: four fields of one to three digits, each at most
      255. *)
Definition isDigit (c : ascii) : bool :=
    let n := nat_of_ascii c in (48 <=? n)%nat && (n <=? 57)%nat.

Fixpoint fields (s : string) (cur : list ascii) : list (list ascii) :=
    match s with
    | EmptyString => [cur]
    | String c rest =>
        if Ascii.eqb c "." then cur :: fields rest []
        else fields rest (cur ++ [c])
    end.

Definition fieldValue (f : list ascii) : Z :=
    fold_left (fun acc c => 10 * acc + (Z.of_nat (nat_of_ascii c) - 48)) f 0.

Definition okField (f : list ascii) : bool :=
    if (1 <=? length f)%nat && (length f <=? 3)%nat then
      if forallb isDigit f then fieldValue f <=? 255 else false
    else false.

Definition ParseIP (s : string) : bool :=
    let fs := fields s [] in
    Nat.eqb (length fs) 4 && forallb okField fs.

Definition hasSubstring (needle : string) (e : error) : bool :=
    match index 0 needle (Error e) with Some _ => true | None => false end.

  (** Host names in ASCII pass [ToASCII] unchanged; others are refused. The
      classifier knows two failures and a catch-all. *)
#[export] Instance netxliteLib : netxlite.Lib := {|
    netxlite.ToASCII := fun s =>
      if forallb (fun c => (nat_of_ascii c <? 128)%nat) (list_ascii_of_string s)
      then inl s else inr "idna: invalid label";
    netxlite.ParseIP := ParseIP;
    netxlite.classifyResolverError := fun e =>
      if hasSubstring "no such host" e then "dns_nxdomain_error"
      else if hasSubstring "no answer from DNS server" e then "dns_no_answer"
      else String.append "unknown_failure: " (Error e)
  |}.

  (** A network on which every write and read succeeds and no context is
      ever done: a read of [n] octets yields zeros. *)
#[export] Instance quietNet : oonet.NetEnv := {|
    oonet.writeOutcome := fun _ _ _ => None;
    oonet.readOutcome := fun _ _ n => inl (repeat 0 n);
    oonet.ctxDone := fun _ _ => None;
    oonet.now := fun w => Z.of_nat (length w)
  |}.

  (** A network on which the first write fails and the later ones succeed. *)
Definition isWrite (e : oonet.Event) : bool :=
    match e with oonet.EvWrite _ _ _ => true | _ => false end.

Definition flakyNet : oonet.NetEnv := {|
    oonet.writeOutcome := fun w _ _ =>
      if existsb isWrite w then None else Some "write: broken pipe";
    oonet.readOutcome := fun _ _ n => inl (repeat 0 n);
    oonet.ctxDone := fun _ _ => None;
    oonet.now := fun w => Z.of_nat (length w)
  |}.

  (** A dial function that hands out the number of events so far as the
      handle of the new connection. *)
Definition dialFresh : Context -> string -> string -> oonet.World -> oonet.Conn + string :=
    fun _ _ _ w => inl (length w).

  (** The state of the decorators' runs below: the lines logged and the
      host names that reached the innermost resolver. *)
Record Journal : Type := mkJournal {
    logged : list (string * list netxlite.Arg);
    asked : list string
  }.

Definition journalLogger : netxlite.Logger Journal := {|
    netxlite.Debugf := fun format args j =>
      mkJournal (logged j ++ [(format, args)]) (asked j)
  |}.

#[export] Instance journalEnv : netxlite.Env Journal := {|
    netxlite.now := fun j => Z.of_nat (length (logged j) + length (asked j));
    netxlite.ctxDone := fun _ _ => None;
    netxlite.stdlibLookupHost := fun _ hostname j =>
      (([], Some (ErrForeign "lookup: no such host")),
       mkJournal (logged j) (asked j ++ [hostname]))
  |}.

  (** A resolver that answers every name with one address, and one that
      breaks the contract: addresses next to an error. *)
Definition fixedResolver : netxlite.Resolver Journal := {|
    netxlite.LookupHost := fun _ hostname j =>
      ((["93.184.216.34"], None), mkJournal (logged j) (asked j ++ [hostname]));
    netxlite.Network := "fixed";
    netxlite.Address := "";
    netxlite.CloseIdleConnections := fun j => j
  |}.

  (** A reply to the query for [example.com]: one A record, one AAAA record,
      one TXT record. *)
Definition sampleReply (rcode : Z) : dns.Msg :=
    dns.mkMsg 4661 true 0 false false true true false false false rcode
      [dns.mkQuestion "example.com." dns.TypeA dns.ClassINET]
      [dns.RFC3597 (dns.mkHeader "example.com." 16 1 300) [2; 104; 105];
       dns.A (dns.mkHeader "example.com." dns.TypeA 1 300) [93; 184; 216; 34];
       dns.AAAA (dns.mkHeader "example.com." dns.TypeAAAA 1 300)
         [38; 6; 40; 0; 2; 32; 0; 1; 2; 72; 24; 147; 37; 200; 25; 70];
       dns.A (dns.mkHeader "example.com." dns.TypeA 1 300) [93; 184; 216; 35]]
      [] [].

  (** A transport that times out on its first round trip and then answers
      every query with [sampleReply]; its state counts the round trips. *)
Definition warmingUp : oonet.dnsTransport nat := fun _ _ n =>
    if Nat.eqb n 0 then ((None, Some (ErrForeign "i/o timeout")), 1%nat)
    else (dns.Pack (sampleReply dns.RcodeSuccess), Datatypes.S n).

  (** A DNS-over-TLS resolver with an established connection (handle 7) and
      no waiting caller, and a query of four octets. *)
Definition dotResolver : oonet.dnsOverTCPTLSResolver.T :=
    oonet.dnsOverTCPTLSResolver.mk "dns.google:853" (Some 7%nat)
      oonet.dnsMiekgCodec.new dialFresh true 0.

Definition shortQuery : bytes := Some [222; 173; 190; 239].

Definition longQuery : bytes := Some (repeat 0 (Z.to_nat 65536)).

Definition emptyJournal : Journal := mkJournal [] [].

  (** A host name with a character outside ASCII. *)
Definition accentedName : string := String (ascii_of_nat 233) "cole.example".

  (** A codec whose decoder finds no address in any reply and reports no
      error: what the resolver's own "no answer" check is there for. Its
      queries are empty. *)
Definition muteCodec : oonet.DNSCodec :=
    oonet.Build_DNSCodec
      (fun _ _ _ _ => (Some [], None))
      (fun _ _ _ => ([], None)).

  (** A dial function that fails, a resolver without a connection that uses
      it, and a DNS-over-TLS resolver that has not been used yet. *)
Definition dialRefused : Context -> string -> string -> oonet.World -> oonet.Conn + string :=
    fun _ _ _ _ => inr "connection refused".

Definition coldResolver : oonet.dnsOverTCPTLSResolver.T :=
    oonet.dnsOverTCPTLSResolver.mk "dns.google:853" None
      oonet.dnsMiekgCodec.new dialRefused true 0.

Definition freshDoT : oonet.DNSOverTLSResolver.T :=
    oonet.DNSOverTLSResolver.mk "dns.google:853" None (Some dialFresh) None.

  (** An HTTP exchange as the state of the DNS-over-HTTPS runs: the requests
      made, the lines logged, and how often a body was read and closed. Its
      client answers every request with the same status, content type and
      body. *)
Record Exchange : Type := mkExchange {
    requests : list oonet.Request;
    lines : list string;
    bodiesRead : nat;
    bodiesClosed : nat
  }.

Definition cannedResponse (status : Z) (contentType : string) (body : list byte)
    : oonet.Response Exchange := {|
    oonet.StatusCode := status;
    oonet.RespHeader := [("Content-Type", contentType)];
    oonet.ReadAll := fun x =>
      ((Some body, None),
       mkExchange (requests x) (lines x) (Datatypes.S (bodiesRead x)) (bodiesClosed x));
    oonet.CloseBody := fun x =>
      mkExchange (requests x) (lines x) (bodiesRead x) (Datatypes.S (bodiesClosed x))
  |}.

Definition cannedClient (status : Z) (contentType : string) (body : list byte)
    : oonet.DNSOverHTTPSHTTPClient Exchange := {|
    oonet.Do := fun req x =>
      (inl (cannedResponse status contentType body),
       mkExchange (requests x ++ [req]) (lines x) (bodiesRead x) (bodiesClosed x));
    oonet.CloseIdle := None
  |}.

#[export] Instance exchangeEnv : oonet.HTTPEnv Exchange := {|
    oonet.NewRequestWithContext := fun ctx method url body =>
      inl {| oonet.Method := method; oonet.URL := url; oonet.Body := body;
             oonet.Header := []; oonet.reqCtx := ctx |};
    oonet.HTTPXDefaultClient := cannedClient 200 "application/dns-message" [];
    oonet.logPrintf := fun line x =>
      mkExchange (requests x) (lines x ++ [line]) (bodiesRead x) (bodiesClosed x)
  |}.

Definition dohResolver (status : Z) : oonet.DNSOverHTTPSResolver.T Exchange := {|
    oonet.DNSOverHTTPSResolver.Client :=
      Some (cannedClient status "text/html" [60; 104; 49; 62]);
    oonet.DNSOverHTTPSResolver.Codec := None;
    oonet.DNSOverHTTPSResolver.OwnsClient := false;
    oonet.DNSOverHTTPSResolver.URL := "https://dns.google/dns-query";
    oonet.DNSOverHTTPSResolver.UserAgent := "miniooni/0.1.0"
  |}.

Definition noExchange : Exchange := mkExchange [] [] 0 0.

End reference.

(** ** Notions used in the statements *)

(** The octets of a padded query: header, question, then the OPT record with
    its class (4096), its flags (DO) and the padding option. *)
Definition paddedLayout (hdr name root : list byte) (qtype : Z) (n : nat)
  : list byte :=
  hdr ++ name ++ dns.packUint16 qtype ++ [0; 1]
      ++ root ++ [0; 41] ++ [16; 0] ++ [0; 0; 128; 0]
      ++ dns.packUint16 (Z.of_nat (4 + n))
      ++ [0; 12] ++ dns.packUint16 (Z.of_nat n) ++ repeat 0 n.

(** The addresses a reply holds for a query type, in the words of the
    specification: the answer records of the requested type, in the order of
    the reply, the others skipped. *)
Definition isRequested (qtype : Z) (rr : dns.RR) : bool :=
  match rr with
  | dns.A _ _ => qtype =? dns.TypeA
  | dns.AAAA _ _ => qtype =? dns.TypeAAAA
  | _ => false
  end.

Definition addressOf {lib : dns.Lib} (rr : dns.RR) : string :=
  match rr with
  | dns.A _ ip | dns.AAAA _ ip => dns.IPString ip
  | _ => ""
  end.

Definition requestedAddresses {lib : dns.Lib} (qtype : Z) (answer : list dns.RR)
  : list string :=
  map addressOf (filter (isRequested qtype) answer).

(** The addresses a query contributes to the merge when it succeeded. *)
Definition answered (x : oonet.dnsLookupHostResult) : list string :=
  match oonet.err x with
  | None => oonet.addrs x
  | Some _ => []
  end.

(** A codec whose decoder returns no address next to an error. *)
Definition silentOnFailure (c : oonet.DNSCodec) : Prop :=
  forall ctx qtype data e,
    snd (oonet.DecodeLookupHostResponse c ctx qtype data) = Some e ->
    fst (oonet.DecodeLookupHostResponse c ctx qtype data) = [].

(** A transport that keeps a journal of what goes through it. *)
Inductive Mark : Type :=
| Sent (query : bytes)
| Received (reply : bytes * option error).

Definition journaled {S : Type} (t : oonet.dnsTransport S)
  : oonet.dnsTransport (S * list Mark) := fun ctx query s =>
  let (out, s') := t ctx query (fst s) in
  (out, (s', snd s ++ [Sent query; Received out])).

(** Two queries in flight at once: a query is sent while the reply to the
    one before is still to come. *)
Definition overlapping (j : list Mark) : Prop :=
  exists pre q1 q2 post, j = pre ++ Sent q1 :: Sent q2 :: post.

(** What one lookup leaves in the journal. *)
Definition marks {S : Type} (c : oonet.DNSCodec) (t : oonet.dnsTransport S)
  (ctx : Context) (hostname : string) (qtype : Z) (padding : bool) (s : S)
  : list Mark :=
  match oonet.EncodeLookupHostRequest c ctx hostname qtype padding with
  | (query, None) => [Sent query; Received (fst (t ctx query s))]
  | (_, Some _) => []
  end.

(** [&dnsGenericResolver{codec: c, padding: padding, t: t}] *)
Definition resolverOver {S : Type} (c : oonet.DNSCodec) (padding : bool)
  (t : oonet.dnsTransport S) : oonet.dnsGenericResolver.T S :=
  {| oonet.dnsGenericResolver.codec := c;
     oonet.dnsGenericResolver.padding := padding;
     oonet.dnsGenericResolver.t := t |}.

(** The buffers written, and the number of dials, in a list of events. *)
Fixpoint writesIn (l : list oonet.Event) : list (list byte) :=
  match l with
  | [] => []
  | oonet.EvWrite _ buf _ :: tl => buf :: writesIn tl
  | _ :: tl => writesIn tl
  end.

Fixpoint dialsIn (l : list oonet.Event) : nat :=
  match l with
  | [] => 0
  | oonet.EvDial _ _ _ :: tl => Datatypes.S (dialsIn tl)
  | _ :: tl => dialsIn tl
  end.

(** The queries handed to a transport, in a journal. *)
Fixpoint sentIn (j : list Mark) : nat :=
  match j with
  | [] => 0
  | Sent _ :: tl => Datatypes.S (sentIn tl)
  | _ :: tl => sentIn tl
  end.

(** The value of a two-octet big-endian prefix. *)
Definition prefixValue (buf : list byte) : Z := nth 0 buf 0 * 256 + nth 1 buf 0.

(** An [int32]. *)
Definition isInt32 (v : Z) : Prop := - 2 ^ 31 <= v < 2 ^ 31.

(** The contract of [LookupHost]: addresses, or an error and no address. *)
Definition wellFormed (res : lookupResult) : Prop :=
  snd res = None \/ (fst res = [] /\ snd res <> None).

(** The four decorators as one pipeline, in the order the specification
    gives: IDNA on the raw name; the start line of the logger, with the ASCII
    name; the check for a literal IP address; the wrapped call of the resolver;
    the final line of the logger. [describe] is what the logger prints for a
    host name, and the three formats are those of its lines. *)
Definition pipeline {S : Type} {lib : netxlite.Lib} {env : netxlite.Env S}
  (describe : string -> string) (started failed succeeded : string)
  (logger : netxlite.Logger S) (resolver : netxlite.Resolver S)
  (ctx : Context) (hostname : string) (s : S) : lookupResult * S :=
  match netxlite.ToASCII hostname with
  | inr e => (([], Some (ErrForeign e)), s)
  | inl host =>
      let s1 := netxlite.Debugf logger started [netxlite.ArgString (describe host)] s in
      let inner :=
        if netxlite.ParseIP host then (([host], None), s1)
        else
          let '((addrs, err), s2) := netxlite.LookupHost resolver ctx host s1 in
          match err with
          | Some e =>
              (([], Some (ErrWrapper (netxlite.classifyResolverError e) "resolve" e)), s2)
          | None => ((addrs, None), s2)
          end in
      let elapsed := netxlite.now (snd inner) - netxlite.now s1 in
      match snd (fst inner) with
      | Some e =>
          (([], Some e),
           netxlite.Debugf logger failed
             [netxlite.ArgString (describe host); netxlite.ArgError e;
              netxlite.ArgDuration elapsed] (snd inner))
      | None =>
          ((fst (fst inner), None),
           netxlite.Debugf logger succeeded
             [netxlite.ArgString (describe host);
              netxlite.ArgAddrs (fst (fst inner));
              netxlite.ArgDuration elapsed] (snd inner))
      end
  end.

(** The resolver variants: the system resolver, the generic resolver over
    any codec and transport, the null resolver, and the decorators over any
    resolver (error wrapping, logging) or over a variant (IDNA, short
    circuit, [DNSResolver] with its underlying resolver set). *)
Inductive variant {S : Type} {lib : netxlite.Lib} {env : netxlite.Env S}
  : (Context -> string -> S -> lookupResult * S) -> Prop :=
| variant_system r :
    variant (netxlite.LookupHost (netxlite.resolverSystem r))
| variant_generic g :
    variant (oonet.dnsGenericResolver.LookupHost g)
| variant_null :
    variant (netxlite.LookupHost netxlite.nullResolver)
| variant_errWrapper r :
    variant (netxlite.LookupHost (netxlite.resolverErrWrapper r))
| variant_logger r logger :
    variant (netxlite.LookupHost (netxlite.resolverLogger r logger))
| variant_legacyLogger r logger :
    variant (netxlite.LookupHost (netxlite.legacy.resolverLogger r logger))
| variant_IDNA r :
    variant (netxlite.LookupHost r) ->
    variant (netxlite.LookupHost (netxlite.resolverIDNA r))
| variant_shortCircuit r :
    variant (netxlite.LookupHost r) ->
    variant (netxlite.LookupHost (netxlite.resolverShortCircuitIPAddr r))
| variant_DNSResolver dflt u :
    variant u ->
    variant (oonet.DNSResolver.LookupHost dflt
               {| oonet.DNSResolver.UnderlyingResolver := Some u |}).

(** The connections opened (the dials that succeeded) and closed in a list
    of events, and the number of connections a resolver holds. *)
Fixpoint opensIn (l : list oonet.Event) : nat :=
  match l with
  | [] => 0
  | oonet.EvDial _ _ (inl _) :: tl => Datatypes.S (opensIn tl)
  | _ :: tl => opensIn tl
  end.

Fixpoint closesIn (l : list oonet.Event) : nat :=
  match l with
  | [] => 0
  | oonet.EvClose _ :: tl => Datatypes.S (closesIn tl)
  | _ :: tl => closesIn tl
  end.

Definition held (r : oonet.dnsOverTCPTLSResolver.T) : nat :=
  match oonet.dnsOverTCPTLSResolver.conn r with
  | Some _ => 1
  | None => 0
  end.

(** From [(r, w)] to [(r', w')] the network has only grown, and every
    connection opened on the way was closed or is the one held at the end. *)
Definition balanced (r : oonet.dnsOverTCPTLSResolver.T) (w : oonet.World)
  (r' : oonet.dnsOverTCPTLSResolver.T) (w' : oonet.World) : Prop :=
  exists evs,
    w' = w ++ evs
    /\ (opensIn evs + held r = closesIn evs + held r')%nat.

(** Two resolvers that differ in their connection at most. *)
Definition sameConfiguration (r r' : oonet.dnsOverTCPTLSResolver.T) : Prop :=
  oonet.dnsOverTCPTLSResolver.address r' = oonet.dnsOverTCPTLSResolver.address r
  /\ oonet.dnsOverTCPTLSResolver.codec r' = oonet.dnsOverTCPTLSResolver.codec r
  /\ oonet.dnsOverTCPTLSResolver.dial r' = oonet.dnsOverTCPTLSResolver.dial r
  /\ oonet.dnsOverTCPTLSResolver.padding r' = oonet.dnsOverTCPTLSResolver.padding r
  /\ oonet.dnsOverTCPTLSResolver.users r' = oonet.dnsOverTCPTLSResolver.users r.

(** Events that set a deadline, and the writes and reads on a connection. *)
Definition isDeadline (e : oonet.Event) : bool :=
  match e with oonet.EvSetDeadline _ _ => true | _ => false end.

Definition ioOn (c : oonet.Conn) (e : oonet.Event) : bool :=
  match e with
  | oonet.EvWrite c' _ _ | oonet.EvReadFull c' _ _ => Nat.eqb c' c
  | _ => false
  end.

(** A series of lookups through one [DNSOverTLSResolver], one after the
    other, each with its context and host name. *)
Definition lookups {lib : dns.Lib} {env : oonet.NetEnv}
  (dialTLSContext : list string -> Context -> string -> string -> oonet.World
                    -> oonet.Conn + string)
  (l : list (Context * string))
  (s : oonet.DNSOverTLSResolver.T * oonet.World)
  : oonet.DNSOverTLSResolver.T * oonet.World :=
  fold_left
    (fun s q =>
       snd (oonet.DNSOverTLSResolver.LookupHost dialTLSContext
              (fst s) (fst q) (snd q) (snd s)))
    l s.

(** A [DNSOverTLSResolver] that started at the world [w0] with no resolver
    of its own yet: it still has none and the world is [w0], or it has one,
    with no caller waiting, and of the connections opened since [w0] all
    were closed but the one it holds. *)
Definition reachedFrom (w0 : oonet.World)
  (s : oonet.DNSOverTLSResolver.T * oonet.World) : Prop :=
  match oonet.DNSOverTLSResolver.reso (fst s) with
  | None => snd s = w0
  | Some x =>
      oonet.dnsOverTCPTLSResolver.users x = 0
      /\ exists evs,
          snd s = w0 ++ evs /\ (opensIn evs = closesIn evs + held x)%nat
  end.

(* ################################################################# *)
(** * Part II: the properties *)

(** ** The wire format *)

(** The length of a concatenation of fixed-size fields. *)
Ltac wire_length :=
  repeat (rewrite ?length_app; unfold dns.packUint16, dns.packUint32;
          cbn [Datatypes.length app]).

Lemma Some_inj {X : Type} (x y : X) : Some x = Some y -> x = y.
Proof. congruence. Qed.

Lemma map_one {X Y : Type} (f : X -> Y) (x : X) : map f [x] = [f x].
Proof. reflexivity. Qed.

Lemma list_sum_one (n : nat) : list_sum [n] = n.
Proof. simpl. lia. Qed.

Section WireFormat.
  Context {lib : dns.Lib}.
  Hypothesis exact : dns.LenIsExact lib.

Lemma packAll_length {X : Type} (f : X -> option (list byte)) (g : X -> nat) :
    (forall x b, f x = Some b -> length b = g x) ->
    forall l bs, dns.packAll f l = Some bs -> length bs = list_sum (map g l).
  Proof.
    intros Hf l. induction l as [|x tl IH]; simpl; intros bs H.
    - injection H as <-. reflexivity.
    - destruct (f x) as [b|] eqn:Ex; [|discriminate].
      destruct (dns.packAll f tl) as [bs'|] eqn:Etl; [|discriminate].
      injection H as <-. rewrite length_app, (Hf _ _ Ex), (IH _ eq_refl).
      reflexivity.
  Qed.

Lemma rdata_length rr : length (dns.rdata rr) = dns.rdataLen rr.
  Proof.
    destruct rr as [h ip|h ip|h o|h d]; simpl; try reflexivity.
    induction o as [|[p] tl IH]; simpl; [reflexivity|].
    wire_length. rewrite IH. lia.
  Qed.

Lemma packQuestion_length q b :
    dns.packQuestion q = Some b -> length b = dns.questionLen q.
  Proof.
    unfold dns.packQuestion, dns.questionLen.
    destruct (dns.packDomainName (dns.Name q)) as [n|] eqn:E; [|discriminate].
    intros H. injection H as <-.
    wire_length. rewrite (exact _ _ E). lia.
  Qed.

Lemma packRR_length rr b :
    dns.packRR rr = Some b -> length b = dns.rrLen rr.
  Proof.
    unfold dns.packRR, dns.rrLen.
    destruct (dns.packDomainName (dns.hName (dns.Header rr))) as [n|] eqn:E;
      [|discriminate].
    intros H. apply Some_inj in H. subst b.
    wire_length. rewrite (exact _ _ E), rdata_length. lia.
  Qed.

  (** [Len] is the size of what [Pack] writes. *)
Lemma Pack_length m b e :
    dns.Pack m = (Some b, e) -> length b = dns.Len m.
  Proof.
    unfold dns.Pack, dns.Len.
    destruct ((dns.Rcode m <? 0) || (15 <? dns.Rcode m)); [discriminate|].
    destruct (dns.packAll dns.packQuestion (dns.Question_ m)) as [q|] eqn:Eq;
      [|discriminate].
    destruct (dns.packAll dns.packRR (dns.Answer m)) as [an|] eqn:Ean;
      [|discriminate].
    destruct (dns.packAll dns.packRR (dns.Ns m)) as [ns|] eqn:Ens;
      [|discriminate].
    destruct (dns.packAll dns.packRR (dns.Extra m)) as [ex|] eqn:Eex;
      [|discriminate].
    intros H. injection H as <- _.
    unfold dns.packMsgHdr. wire_length.
    rewrite (packAll_length _ _ packQuestion_length _ _ Eq).
    rewrite (packAll_length _ _ packRR_length _ _ Ean).
    rewrite (packAll_length _ _ packRR_length _ _ Ens).
    rewrite (packAll_length _ _ packRR_length _ _ Eex).
    lia.
  Qed.
End WireFormat.

(** The padding computed in [uint] arithmetic fills the last block. *)
Lemma block_remainder (x : Z) :
  (x + toUint (128 - toUint x) mod 128) mod 128 = 0.
Proof.
  unfold toUint.
  assert (D : (128 | 2 ^ 64)) by (exists (2 ^ 57); reflexivity).
  rewrite (Z.mod_mod_divide _ _ _ D).
  rewrite Zminus_mod, (Z.mod_mod_divide _ _ _ D), <- Zminus_mod.
  rewrite Zplus_mod_idemp_r.
  replace (x + (128 - x)) with 128 by lia. reflexivity.
Qed.

Lemma block_remainder_bound (x : Z) :
  0 <= toUint (128 - toUint x) mod 128 < 128.
Proof. apply Z.mod_pos_bound. lia. Qed.

(** ** The codec *)

Section Codec.
  Context {lib : dns.Lib}.

Lemma rrLen_OPT h o :
    dns.rrLen (dns.OPT h o)
    = (dns.domainNameLen (dns.hName h) + 10 + list_sum (map dns.optionLen o))%nat.
  Proof. reflexivity. Qed.

Lemma Extra_pad m :
    dns.Extra m = [] ->
    exists n : nat,
      dns.Extra (oonet.dnsMiekgCodec.pad m)
      = [dns.OPT (dns.mkHeader "." dns.TypeOPT 4096 32768)
           [dns.EDNS0_PADDING (repeat 0 n)]]
      /\ (n < 128)%nat
      /\ Z.of_nat (dns.Len (oonet.dnsMiekgCodec.pad m)) mod 128 = 0.
  Proof.
    intros HE. unfold oonet.dnsMiekgCodec.pad.
    set (m1 := dns.SetEdns0 m _ _).
    set (rem := toUint _ mod _).
    assert (Hrem : 0 <= rem < 128) by apply block_remainder_bound.
    exists (Z.to_nat rem).
    assert (E1 : dns.Extra m1
                 = [dns.OPT (dns.mkHeader "." dns.TypeOPT 4096 32768) []]).
    { unfold m1, dns.SetEdns0. cbn [dns.Extra]. rewrite HE. reflexivity. }
    unfold dns.updateEdns0Option. cbn [dns.Extra]. rewrite E1.
    split; [reflexivity|]. split; [lia|].
    unfold dns.Len. cbn [dns.Extra dns.Question_ dns.Answer dns.Ns].
    change (dns.setLastOPT _ _)
      with [dns.OPT (dns.mkHeader "." dns.TypeOPT 4096 32768)
              [dns.EDNS0_PADDING (repeat 0 (Z.to_nat rem))]].
    assert (HL : dns.Len m1 =
                 (12 + list_sum (map dns.questionLen (dns.Question_ m1))
                  + list_sum (map dns.rrLen (dns.Answer m1))
                  + list_sum (map dns.rrLen (dns.Ns m1))
                  + (dns.domainNameLen "." + 10))%nat).
    { unfold dns.Len. rewrite E1.
      rewrite map_one, list_sum_one, rrLen_OPT.
      cbn [map list_sum fold_right dns.hName]. lia. }
    rewrite map_one, list_sum_one, rrLen_OPT, map_one, list_sum_one.
    cbn [dns.optionLen dns.hName]. rewrite repeat_length.
    match goal with |- Z.of_nat ?n mod 128 = 0 =>
      replace (Z.of_nat n) with (Z.of_nat (dns.Len m1) + 4 + rem) by lia
    end.
    apply block_remainder.
  Qed.

Lemma Pack_padded_query domain qtype n :
    let q := oonet.dnsMiekgCodec.query domain qtype true in
    dns.Extra q = [dns.OPT (dns.mkHeader "." dns.TypeOPT 4096 32768)
                     [dns.EDNS0_PADDING (repeat 0 n)]] ->
    dns.Pack q =
      match dns.packDomainName (dns.Fqdn domain), dns.packDomainName "." with
      | Some name, Some root =>
          (Some (paddedLayout (dns.packMsgHdr q) name root qtype n), None)
      | _, _ => (None, Some (ErrForeign "dns: bad rdata"))
      end.
  Proof.
    intros q HE. unfold dns.Pack.
    replace (dns.Rcode q) with 0 by reflexivity.
    replace (dns.Question_ q)
      with [dns.mkQuestion (dns.Fqdn domain) qtype dns.ClassINET] by reflexivity.
    replace (dns.Answer q) with (@nil dns.RR) by reflexivity.
    replace (dns.Ns q) with (@nil dns.RR) by reflexivity.
    rewrite HE.
    cbn [orb Z.ltb Z.compare dns.packAll].
    unfold dns.packQuestion, dns.packRR.
    cbn [dns.Name dns.hName dns.Header dns.Qtype dns.Qclass dns.Rrtype dns.Class
           dns.Ttl dns.rdata flat_map dns.packOption].
    destruct (dns.packDomainName (dns.Fqdn domain)) as [name|];
      destruct (dns.packDomainName ".") as [root|]; try reflexivity.
    unfold paddedLayout. do 2 f_equal.
    rewrite ?app_nil_r, <- ?app_assoc. cbn [app]. rewrite ?app_nil_r, <- ?app_assoc.
    wire_length. rewrite repeat_length. reflexivity.
  Qed.
End Codec.

Section CodecClaims.
  Context {lib : dns.Lib}.

Lemma collect_requested qtype answer acc :
    fold_left (oonet.dnsMiekgCodec.collect qtype) answer acc
    = acc ++ requestedAddresses qtype answer.
  Proof.
    revert acc. induction answer as [|rr tl IH]; intros acc.
    - unfold requestedAddresses. simpl. now rewrite app_nil_r.
    - cbn [fold_left]. rewrite IH. unfold requestedAddresses.
      unfold oonet.dnsMiekgCodec.collect. cbn [filter].
      destruct rr as [h ip|h ip|h o|h d]; cbn [isRequested].
      + destruct (qtype =? dns.TypeA) eqn:EA.
        * cbn [map addressOf]. now rewrite <- app_assoc.
        * now destruct (qtype =? dns.TypeAAAA).
      + destruct (qtype =? dns.TypeA) eqn:EA.
        * apply Z.eqb_eq in EA. subst qtype. reflexivity.
        * destruct (qtype =? dns.TypeAAAA); [|reflexivity].
          cbn [map addressOf]. now rewrite <- app_assoc.
      + now destruct (qtype =? dns.TypeA), (qtype =? dns.TypeAAAA).
      + now destruct (qtype =? dns.TypeA), (qtype =? dns.TypeAAAA).
  Qed.

  (** C2. For a reply that the library parses, [DecodeLookupHostResponse]
      returns [ErrDNSNoSuchHost] on the name-error code, the temporary
      "server misbehaving" error on the server-failure code and the generic
      one on every code other than these two and success; on success it
      returns the addresses of the answer records of the requested type, in
      the order of the reply, the others skipped, and
      [ErrDNSNoAsnwerFromDNSServer] when there is none. (A reply that does not
      parse yields the library's error.) *)
Theorem decode_dispatches_on_rcode ctx qtype data :
    let out := oonet.dnsMiekgCodec.DecodeLookupHostResponse ctx qtype data in
    match dns.Unpack (bytesOf data) with
    | inr e => out = ([], Some (ErrForeign e))
    | inl reply =>
        (dns.Rcode reply = dns.RcodeNameError ->
         out = ([], Some ErrDNSNoSuchHost))
        /\ (dns.Rcode reply = dns.RcodeServerFailure ->
            out = ([], Some ErrDNSServerTemporarilyMisbehaving))
        /\ (dns.Rcode reply <> dns.RcodeSuccess ->
            dns.Rcode reply <> dns.RcodeNameError ->
            dns.Rcode reply <> dns.RcodeServerFailure ->
            out = ([], Some ErrDNSServerMisbehaving))
        /\ (dns.Rcode reply = dns.RcodeSuccess ->
            out = match requestedAddresses qtype (dns.Answer reply) with
                  | [] => ([], Some ErrDNSNoAsnwerFromDNSServer)
                  | addrs => (addrs, None)
                  end)
    end.
  Proof.
    intros out. unfold out, oonet.dnsMiekgCodec.DecodeLookupHostResponse.
    destruct (dns.Unpack (bytesOf data)) as [reply|e]; [|reflexivity].
    rewrite collect_requested. cbn [app].
    repeat split; intros H.
    - rewrite H. reflexivity.
    - rewrite H. reflexivity.
    - intros H1 H2.
      apply Z.eqb_neq in H, H1, H2. now rewrite H, H1, H2.
    - rewrite H. cbn.
      now destruct (requestedAddresses qtype (dns.Answer reply)).
  Qed.

  Hypothesis exact : dns.LenIsExact lib.

  (** C3. With padding requested, the query that [EncodeLookupHostRequest]
      builds carries an OPT record that advertises a UDP payload of 4096
      octets with the DO bit set and holds one padding option; its size is a
      multiple of 128. The encoding has that size and the stated layout; no
      encoding is produced only when the library refuses one of the two names
      (the question's or the root of the OPT record). *)
Theorem padded_query_fills_blocks ctx domain qtype :
    let q := oonet.dnsMiekgCodec.query domain qtype true in
    (exists h n,
        dns.IsEdns0 q = Some (h, [dns.EDNS0_PADDING (repeat 0 n)])
        /\ (n < 128)%nat
        /\ dns.UDPSize h = 4096 /\ dns.Do h = true
        /\ Z.of_nat (dns.Len q) mod 128 = 0)
    /\ match oonet.dnsMiekgCodec.EncodeLookupHostRequest ctx domain qtype true with
       | (Some b, None) =>
           Z.of_nat (length b) mod 128 = 0
           /\ exists name root n,
               dns.packDomainName (dns.Fqdn domain) = Some name
               /\ dns.packDomainName "." = Some root
               /\ b = paddedLayout (dns.packMsgHdr q) name root qtype n
       | (None, Some _) =>
           dns.packDomainName (dns.Fqdn domain) = None
           \/ dns.packDomainName "." = None
       | _ => False
       end.
  Proof.
    intros q.
    destruct (Extra_pad
                (dns.mkMsg (toUint16 (dns.randomId domain qtype))
                   false 0 false false true false false false false 0
                   [dns.mkQuestion (dns.Fqdn domain) qtype dns.ClassINET] [] [] [])
                eq_refl) as (n & HE & Hn & HL).
    fold (oonet.dnsMiekgCodec.query domain qtype true) in HE, HL.
    fold q in HE, HL.
    split.
    - exists (dns.mkHeader "." dns.TypeOPT 4096 32768), n.
      unfold dns.IsEdns0. rewrite HE. repeat split; auto.
    - unfold oonet.dnsMiekgCodec.EncodeLookupHostRequest. fold q.
      pose proof (Pack_padded_query domain qtype n HE) as PQ. fold q in PQ.
      revert PQ.
      destruct (dns.packDomainName (dns.Fqdn domain)) as [name|];
        destruct (dns.packDomainName ".") as [root|];
        intros PQ; rewrite PQ; auto.
      split.
      + rewrite (Pack_length exact q _ _ PQ). exact HL.
      + exists name, root, n. auto.
  Qed.
End CodecClaims.

(** The reference library keeps the promise about [Len]. *)
Lemma packLabels_length s : forall cur b,
  reference.packLabels s cur = Some b ->
  length b = (String.length s + length cur + 1)%nat.
Proof.
  induction s as [|c rest IH]; intros cur b; cbn [reference.packLabels].
  - destruct cur; [|discriminate]. intros H. injection H as <-. reflexivity.
  - destruct (Ascii.eqb c ".").
    + destruct ((Nat.eqb (length cur) 0) || (63 <? length cur)%nat);
        [discriminate|].
      destruct (reference.packLabels rest []) as [tl|] eqn:E; [|discriminate].
      intros H. injection H as <-.
      cbn [Datatypes.length String.length]. rewrite length_app, (IH _ _ E).
      cbn [Datatypes.length]. lia.
    + intros H. rewrite (IH _ _ H), length_app.
      cbn [Datatypes.length String.length]. lia.
Qed.

Lemma reference_exact : dns.LenIsExact reference.dnsLib.
Proof.
  intros s b. cbn [dns.packDomainName dns.domainNameLen reference.dnsLib].
  unfold reference.packDomainName, reference.domainNameLen.
  destruct (String.eqb s ".").
  - intros H. injection H as <-. reflexivity.
  - destruct (String.eqb s ""); [discriminate|].
    intros H. rewrite (packLabels_length _ _ _ H). cbn [Datatypes.length]. lia.
Qed.

Section CodecRuns.
  #[local] Existing Instance reference.dnsLib.

(** The padded query for [example.com] takes one block. *)
Example encode_example_com :
  option_map (@length byte)
    (fst (oonet.dnsMiekgCodec.EncodeLookupHostRequest
            Background "example.com" dns.TypeA true))
  = Some 128%nat.
Proof. vm_compute. reflexivity. Qed.

(** Without padding the query has no OPT record and is not padded. *)
Example encode_unpadded_example_com :
  oonet.dnsMiekgCodec.EncodeLookupHostRequest
    Background "example.com" dns.TypeA false
  = (Some [18; 53; 1; 0; 0; 1; 0; 0; 0; 0; 0; 0;
           7; 101; 120; 97; 109; 112; 108; 101; 3; 99; 111; 109; 0;
           0; 1; 0; 1], None).
Proof. vm_compute. reflexivity. Qed.

(** A name with an empty label is refused: no query comes out. *)
Example encode_refused_name :
  oonet.dnsMiekgCodec.EncodeLookupHostRequest
    Background "exa..mple.com" dns.TypeA true
  = (None, Some (ErrForeign "dns: bad rdata")).
Proof. vm_compute. reflexivity. Qed.

Lemma padded_query_witness :
  dns.LenIsExact reference.dnsLib
  /\ exists b,
      fst (oonet.dnsMiekgCodec.EncodeLookupHostRequest
             Background "example.com" dns.TypeA true) = Some b
      /\ Z.of_nat (length b) mod 128 = 0.
Proof.
  split; [exact reference_exact|].
  destruct (padded_query_fills_blocks reference_exact
              Background "example.com" dns.TypeA) as [_ H].
  destruct (oonet.dnsMiekgCodec.EncodeLookupHostRequest
              Background "example.com" dns.TypeA true) as [[b|] [e|]];
    try contradiction.
  - exists b. split; [reflexivity|apply H].
  - destruct H as [H|H]; vm_compute in H; discriminate.
Defined.

Example decode_sample_A :
  oonet.dnsMiekgCodec.DecodeLookupHostResponse
    Background dns.TypeA (fst (dns.Pack (reference.sampleReply dns.RcodeSuccess)))
  = (["93.184.216.34"; "93.184.216.35"], None).
Proof. vm_compute. reflexivity. Qed.

Example decode_sample_name_error :
  oonet.dnsMiekgCodec.DecodeLookupHostResponse
    Background dns.TypeA (fst (dns.Pack (reference.sampleReply dns.RcodeNameError)))
  = ([], Some ErrDNSNoSuchHost).
Proof. vm_compute. reflexivity. Qed.

Example decode_sample_refused :
  oonet.dnsMiekgCodec.DecodeLookupHostResponse
    Background dns.TypeA (fst (dns.Pack (reference.sampleReply 5)))
  = ([], Some ErrDNSServerMisbehaving).
Proof. vm_compute. reflexivity. Qed.

(** A success reply without a record of the requested type. *)
Example decode_sample_no_answer :
  oonet.dnsMiekgCodec.DecodeLookupHostResponse
    Background 15 (fst (dns.Pack (reference.sampleReply dns.RcodeSuccess)))
  = ([], Some ErrDNSNoAsnwerFromDNSServer).
Proof. vm_compute. reflexivity. Qed.

End CodecRuns.

(** The two "server misbehaving" errors print alike and are two values. *)
Example misbehaving_errors_differ :
  Error ErrDNSServerTemporarilyMisbehaving = Error ErrDNSServerMisbehaving
  /\ ErrDNSServerTemporarilyMisbehaving <> ErrDNSServerMisbehaving.
Proof. split; [reflexivity|discriminate]. Qed.

(** ** The generic resolver *)

Section GenericResolver.
  Context {S : Type}.

  (** A failed lookup carries no address when the decoder is silent on
      failure. *)
Lemma doLookupHost_failed (r : oonet.dnsGenericResolver.T S) ctx hostname qtype padding s e :
    silentOnFailure (oonet.dnsGenericResolver.codec r) ->
    oonet.err (fst (oonet.dnsGenericResolver.doLookupHost r ctx hostname qtype padding s))
      = Some e ->
    oonet.addrs (fst (oonet.dnsGenericResolver.doLookupHost r ctx hostname qtype padding s))
      = [].
  Proof.
    intros Hc. unfold oonet.dnsGenericResolver.doLookupHost.
    destruct (oonet.EncodeLookupHostRequest _ ctx hostname qtype padding)
      as [query [e1|]]; [reflexivity|].
    destruct (oonet.dnsGenericResolver.t r ctx query s) as [[reply [e2|]] s'];
      [reflexivity|].
    specialize (Hc ctx qtype reply).
    destruct (oonet.DecodeLookupHostResponse _ ctx qtype reply) as [a e3].
    cbn [fst snd oonet.err oonet.addrs] in *. intros H. exact (Hc _ H).
  Qed.

Lemma miekg_silentOnFailure {lib : dns.Lib} :
    silentOnFailure oonet.dnsMiekgCodec.new.
  Proof.
    intros ctx qtype data e.
    cbn [oonet.DecodeLookupHostResponse oonet.dnsMiekgCodec.new].
    unfold oonet.dnsMiekgCodec.DecodeLookupHostResponse.
    destruct (dns.Unpack (bytesOf data)) as [reply|e']; [|reflexivity].
    repeat match goal with
           | |- context [if ?b then _ else _] => destruct b
           end; cbn [fst snd]; congruence.
  Qed.

Lemma nonempty_not_short {X : Type} (x : X) (l : list X) :
    (Z.of_nat (length (x :: l)) <? 1) = false.
  Proof. apply Z.ltb_ge. cbn [Datatypes.length]. lia. Qed.

  (** The merge, for any codec: the addresses of both replies, A first. *)
Lemma LookupHost_merge (r : oonet.dnsGenericResolver.T S) ctx hostname s :
    let a := oonet.dnsGenericResolver.doLookupHost r ctx hostname dns.TypeA
               (oonet.dnsGenericResolver.padding r) s in
    let b := oonet.dnsGenericResolver.doLookupHost r ctx hostname dns.TypeAAAA
               (oonet.dnsGenericResolver.padding r) (snd a) in
    oonet.dnsGenericResolver.LookupHost r ctx hostname s
    = (match oonet.err (fst a), oonet.err (fst b) with
       | Some ea, Some _ => ([], Some ea)
       | _, _ =>
           match oonet.addrs (fst a) ++ oonet.addrs (fst b) with
           | [] => ([], Some ErrDNSNoAsnwerFromDNSServer)
           | l => (l, None)
           end
       end, snd b).
  Proof.
    intros a b. unfold oonet.dnsGenericResolver.LookupHost.
    fold a. destruct a as [ra s1] eqn:Ea. cbn [snd fst] in b |- *.
    fold b. destruct b as [rb s2] eqn:Eb. cbn [snd fst].
    destruct (oonet.err ra) as [ea|], (oonet.err rb) as [eb|];
      cbn [oonet.isNil negb andb app]; try reflexivity.
    all: destruct (oonet.addrs ra ++ oonet.addrs rb);
      [reflexivity | now rewrite nonempty_not_short].
  Qed.

  (** C1. The merge policy of the dual-query resolver, for every codec,
      transport, host name and state. (1) When both queries fail the result
      is the error of the A query; otherwise it is the addresses of the two
      replies, those of the A query first, each kept once and in order; and
      when there is none, [ErrDNSNoAsnwerFromDNSServer], also when a query
      did not fail. (2) With a codec whose decoder returns no address next
      to an error, the addresses of a reply are those of a query that
      succeeded, so the result is the addresses of the queries that
      succeeded. (3) The miekg codec is such a codec. *)
Theorem lookup_merges_A_before_AAAA {lib : dns.Lib}
    (c : oonet.DNSCodec) (t : oonet.dnsTransport S) padding ctx hostname s :
    let r := resolverOver c padding t in
    let a := oonet.dnsGenericResolver.doLookupHost r ctx hostname dns.TypeA padding s in
    let b := oonet.dnsGenericResolver.doLookupHost r ctx hostname dns.TypeAAAA padding (snd a) in
    oonet.dnsGenericResolver.LookupHost r ctx hostname s
    = (match oonet.err (fst a), oonet.err (fst b) with
       | Some ea, Some _ => ([], Some ea)
       | _, _ =>
           match oonet.addrs (fst a) ++ oonet.addrs (fst b) with
           | [] => ([], Some ErrDNSNoAsnwerFromDNSServer)
           | l => (l, None)
           end
       end, snd b)
    /\ (silentOnFailure c ->
        oonet.dnsGenericResolver.LookupHost r ctx hostname s
        = (match oonet.err (fst a), oonet.err (fst b) with
           | Some ea, Some _ => ([], Some ea)
           | _, _ =>
               match answered (fst a) ++ answered (fst b) with
               | [] => ([], Some ErrDNSNoAsnwerFromDNSServer)
               | l => (l, None)
               end
           end, snd b))
    /\ silentOnFailure oonet.dnsMiekgCodec.new.
  Proof.
    intros r a b.
    assert (M : oonet.dnsGenericResolver.LookupHost r ctx hostname s
                = (match oonet.err (fst a), oonet.err (fst b) with
                   | Some ea, Some _ => ([], Some ea)
                   | _, _ =>
                       match oonet.addrs (fst a) ++ oonet.addrs (fst b) with
                       | [] => ([], Some ErrDNSNoAsnwerFromDNSServer)
                       | l => (l, None)
                       end
                   end, snd b)).
    { rewrite LookupHost_merge.
      cbn [oonet.dnsGenericResolver.padding r resolverOver]. reflexivity. }
    split; [exact M|]. split; [|apply miekg_silentOnFailure].
    intros Hc. rewrite M.
    pose proof (fun e => doLookupHost_failed r ctx hostname dns.TypeA padding s e
                           Hc) as Ha.
    pose proof (fun e => doLookupHost_failed r ctx hostname dns.TypeAAAA padding (snd a) e
                           Hc) as Hb.
    fold a in Ha. fold b in Hb. unfold answered.
    destruct (oonet.err (fst a)) as [ea|], (oonet.err (fst b)) as [eb|];
      try reflexivity.
    - now rewrite (Ha _ eq_refl).
    - now rewrite (Hb _ eq_refl).
  Qed.

End GenericResolver.

Section TaskOrder.
  Context {S : Type}.

  (** One lookup through a journaled transport: the same result, the same
      state, and its marks added to the journal. *)
Lemma doLookupHost_journaled c (t : oonet.dnsTransport S) padding ctx hostname
    qtype p s j :
    oonet.dnsGenericResolver.doLookupHost
      (resolverOver c padding (journaled t)) ctx hostname qtype p (s, j)
    = (fst (oonet.dnsGenericResolver.doLookupHost
              (resolverOver c padding t) ctx hostname qtype p s),
       (snd (oonet.dnsGenericResolver.doLookupHost
               (resolverOver c padding t) ctx hostname qtype p s),
        j ++ marks c t ctx hostname qtype p s)).
  Proof.
    unfold oonet.dnsGenericResolver.doLookupHost, marks, journaled, resolverOver.
    cbn [oonet.dnsGenericResolver.codec oonet.dnsGenericResolver.t fst snd].
    destruct (oonet.EncodeLookupHostRequest c ctx hostname qtype p) as [q [e|]].
    - now rewrite app_nil_r.
    - destruct (t ctx q s) as [[reply [e|]] s']; cbn [fst snd]; [reflexivity|].
      now destruct (oonet.DecodeLookupHostResponse c ctx qtype reply).
  Qed.

  (** C8 (as amended). The A query is issued first and the AAAA query once
      the result for A is in: the journal of the transport holds the round
      trip for A, then the one for AAAA, and no two queries are in flight at
      once. The AAAA query is issued whatever the outcome for A, and the
      merge has both results: the journal changes neither the result nor the
      state of the transport. *)
Theorem lookup_issues_A_then_AAAA
    (c : oonet.DNSCodec) (t : oonet.dnsTransport S) padding ctx hostname s :
    let plain := oonet.dnsGenericResolver.LookupHost
                   (resolverOver c padding t) ctx hostname s in
    let a := oonet.dnsGenericResolver.doLookupHost
               (resolverOver c padding t) ctx hostname dns.TypeA padding s in
    let j := marks c t ctx hostname dns.TypeA padding s
             ++ marks c t ctx hostname dns.TypeAAAA padding (snd a) in
    oonet.dnsGenericResolver.LookupHost
      (resolverOver c padding (journaled t)) ctx hostname (s, [])
    = (fst plain, (snd plain, j))
    /\ ~ overlapping j.
  Proof.
    intros plain a j. split.
    - unfold plain. rewrite !LookupHost_merge.
      change (oonet.dnsGenericResolver.padding
                (resolverOver c padding (journaled t))) with padding.
      change (oonet.dnsGenericResolver.padding (resolverOver c padding t))
        with padding.
      rewrite (doLookupHost_journaled c t padding ctx hostname dns.TypeA).
      cbn [fst snd app].
      rewrite (doLookupHost_journaled c t padding ctx hostname dns.TypeAAAA).
      cbn [fst snd]. reflexivity.
    - intros (pre & q1 & q2 & post & H). unfold j, marks in H.
      destruct (oonet.EncodeLookupHostRequest c ctx hostname dns.TypeA padding)
        as [qa [ea|]];
        destruct (oonet.EncodeLookupHostRequest c ctx hostname dns.TypeAAAA padding)
          as [qb [eb|]]; cbn [app] in H.
      all: repeat (destruct pre as [|? pre]; cbn [app] in H; try discriminate).
  Qed.
End TaskOrder.

Section GenericResolverRuns.
  #[local] Existing Instance reference.dnsLib.

(** A run in which the A query fails and the AAAA query is answered. *)
Example lookup_over_warming_up :
  oonet.dnsGenericResolver.LookupHost
    (resolverOver oonet.dnsMiekgCodec.new true reference.warmingUp)
    Background "example.com" 0%nat
  = ((["2606:2800:220:1:248:1893:25c8:1946"], None), 2%nat).
Proof. vm_compute. reflexivity. Qed.

(** A run in which both queries are answered: A addresses first. *)
Example lookup_over_warm_transport :
  oonet.dnsGenericResolver.LookupHost
    (resolverOver oonet.dnsMiekgCodec.new true reference.warmingUp)
    Background "example.com" 1%nat
  = ((["93.184.216.34"; "93.184.216.35";
       "2606:2800:220:1:248:1893:25c8:1946"], None), 3%nat).
Proof. vm_compute. reflexivity. Qed.

(** C8, as stated, fails on this run: the A query goes out, its round trip
    ends (in a timeout), and only then the AAAA query goes out: the two
    queries are never in flight together, and the transport has already
    served one round trip when the AAAA query reaches it. *)
Lemma queries_are_not_concurrent :
  let run := oonet.dnsGenericResolver.LookupHost
               (resolverOver oonet.dnsMiekgCodec.new true
                  (journaled reference.warmingUp))
               Background "example.com" (0%nat, []) in
  (exists qa qb rb,
      snd (snd run)
      = [Sent qa; Received (None, Some (ErrForeign "i/o timeout"));
         Sent qb; Received rb])
  /\ ~ overlapping (snd (snd run))
  /\ fst run = (["2606:2800:220:1:248:1893:25c8:1946"], None).
Proof.
  intros run.
  assert (H : exists qa qb rb,
             snd (snd run)
             = [Sent qa; Received (None, Some (ErrForeign "i/o timeout"));
                Sent qb; Received rb]).
  { vm_compute. do 3 eexists. reflexivity. }
  split; [exact H|]. split.
  - destruct H as (qa & qb & rb & ->).
    intros (pre & q1 & q2 & post & E).
    repeat (destruct pre as [|? pre]; cbn [app] in E; try discriminate).
  - vm_compute. reflexivity.
Qed.

End GenericResolverRuns.

(** ** The TCP/TLS resolver *)

Section TCPTLS.
  Context {env : oonet.NetEnv}.

  #[local] Abbreviation T := oonet.dnsOverTCPTLSResolver.T.
  #[local] Abbreviation trySync := oonet.dnsOverTCPTLSResolver.trySync.
  #[local] Abbreviation try := oonet.dnsOverTCPTLSResolver.try.
  #[local] Abbreviation forceDial := oonet.dnsOverTCPTLSResolver.forceDial.
  #[local] Abbreviation maybeDial := oonet.dnsOverTCPTLSResolver.maybeDial.
  #[local] Abbreviation frame := oonet.dnsOverTCPTLSResolver.frame.
  #[local] Abbreviation conn := oonet.dnsOverTCPTLSResolver.conn.

Lemma writesIn_app l1 l2 : writesIn (l1 ++ l2) = writesIn l1 ++ writesIn l2.
  Proof.
    induction l1 as [|e tl IH]; [reflexivity|].
    destruct e; cbn [app writesIn]; rewrite IH; reflexivity.
  Qed.

Lemma dialsIn_app l1 l2 : dialsIn (l1 ++ l2) = (dialsIn l1 + dialsIn l2)%nat.
  Proof.
    induction l1 as [|e tl IH]; [reflexivity|].
    destruct e; cbn [app dialsIn]; rewrite IH; reflexivity.
  Qed.

  (** What one attempt adds to the world: no dial, and at most one write,
      of the framed query. *)
Lemma trySync_events (dl : T) ctx query w :
    exists evs,
      snd (trySync dl ctx query w) = w ++ evs
      /\ dialsIn evs = 0%nat
      /\ (writesIn evs = [] \/ writesIn evs = [frame query]).
  Proof.
    unfold trySync.
    destruct (MaxUint16 <? len query).
    { exists []. cbn. rewrite app_nil_r. auto. }
    destruct (conn dl) as [c|].
    2:{ exists []. cbn. rewrite app_nil_r. auto. }
    unfold oonet.dnsOverTCPTLSResolver.Write, oonet.dnsOverTCPTLSResolver.ReadFull,
      oonet.dnsOverTCPTLSResolver.SetDeadline.
    repeat match goal with
           | |- context [match ?x with _ => _ end] =>
               match x with
               | context [match _ with _ => _ end] => fail 1
               | _ => destruct x eqn:?
               end
           end;
      cbn [snd]; rewrite <- ?app_assoc; cbn [app];
      eexists; (split; [reflexivity|]); cbn; auto.
  Qed.

Lemma try_events (dl : T) ctx query w :
    snd (try dl ctx query w) = snd (trySync dl ctx query w).
  Proof.
    unfold try. destruct (trySync dl ctx query w) as [out w'].
    now destruct (oonet.dnsOverTCPTLSResolver.ctxErr ctx w').
  Qed.
#[local] Abbreviation do := oonet.dnsOverTCPTLSResolver.do.
  #[local] Abbreviation setConn := oonet.dnsOverTCPTLSResolver.setConn.
  #[local] Abbreviation address := oonet.dnsOverTCPTLSResolver.address.
  #[local] Abbreviation dial := oonet.dnsOverTCPTLSResolver.dial.

Lemma try_result_events (dl : T) ctx query w :
  exists evs,
    snd (try dl ctx query w) = w ++ evs
    /\ dialsIn evs = 0%nat
    /\ (writesIn evs = [] \/ writesIn evs = [frame query]).
Proof. rewrite try_events. apply trySync_events. Qed.

Lemma forceDial_events (dl : T) ctx w :
  exists evs,
    snd (forceDial dl ctx w) = w ++ evs
    /\ dialsIn evs = 1%nat /\ writesIn evs = [].
Proof.
  unfold forceDial, oonet.dnsOverTCPTLSResolver.Close.
  destruct (conn dl) as [c|].
  - cbn [conn setConn address dial].
    destruct (dial dl ctx "tcp" (address dl) (w ++ [oonet.EvClose c])) eqn:E;
      cbn [snd]; rewrite <- app_assoc; eexists; (split; [reflexivity|]);
      cbn; auto.
  - destruct (dial dl ctx "tcp" (address dl) w) eqn:E;
      cbn [snd]; eexists; (split; [reflexivity|]); cbn; auto.
Qed.

Lemma forceDial_ok (dl : T) ctx w dl1 w1 :
  forceDial dl ctx w = (None, dl1, w1) -> exists c, conn dl1 = Some c.
Proof.
  unfold forceDial.
  destruct (conn dl) as [c|].
  - cbn [setConn address dial conn].
    destruct (dial dl ctx "tcp" (address dl) _) as [c'|e]; [|discriminate].
    intros H. injection H as <- _. exists c'. reflexivity.
  - destruct (dial dl ctx "tcp" (address dl) _) as [c'|e]; [|discriminate].
    intros H. injection H as <- _. exists c'. reflexivity.
Qed.

Lemma maybeDial_ok (dl : T) ctx w dl1 w1 :
  maybeDial dl ctx w = (None, dl1, w1) -> exists c, conn dl1 = Some c.
Proof.
  unfold maybeDial. destruct (conn dl) as [c|] eqn:E.
  - intros H. injection H as <- _. exists c. exact E.
  - apply forceDial_ok.
Qed.

Lemma maybeDial_events (dl : T) ctx w :
  exists evs,
    snd (maybeDial dl ctx w) = w ++ evs
    /\ (dialsIn evs <= 1)%nat /\ writesIn evs = [].
Proof.
  unfold maybeDial. destruct (conn dl) as [c|].
  - exists []. cbn. rewrite app_nil_r. auto.
  - destruct (forceDial_events dl ctx w) as (evs & H1 & H2 & H3).
    exists evs. rewrite H2. auto.
Qed.

(** The structure of [do]: one attempt; after a redial hint, and only then,
    the connection is closed, a new one is dialed and the same query is
    tried once more. *)
Lemma do_structure (dl : T) ctx query w :
  let '(e0, dl1, w1) := maybeDial dl ctx w in
  match e0 with
  | Some e => do dl ctx query w = ((None, Some e), dl1, w1)
  | None =>
      let first := try dl1 ctx query w1 in
      match snd (fst first) with
      | None => do dl ctx query w = (fst first, dl1, snd first)
      | Some e =>
          if errorsAsRedial e then
            exists c,
              conn dl1 = Some c
              /\ let w2 := snd first ++ [oonet.EvClose c] in
                 let res := dial dl1 ctx "tcp" (address dl1) w2 in
                 let w3 := w2 ++ [oonet.EvDial "tcp" (address dl1) res] in
                 match res with
                 | inr de =>
                     do dl ctx query w
                     = ((None, Some (ErrForeign de)), setConn dl1 None, w3)
                 | inl c' =>
                     let dl2 := setConn dl1 (Some c') in
                     do dl ctx query w
                     = (fst (try dl2 ctx query w3), dl2, snd (try dl2 ctx query w3))
                 end
          else do dl ctx query w = ((None, Some e), dl1, snd first)
      end
  end.
Proof.
  unfold do.
  destruct (maybeDial dl ctx w) as [[[e0|] dl1] w1] eqn:EM; [reflexivity|].
  destruct (maybeDial_ok _ _ _ _ _ EM) as [c Hc].
  destruct (try dl1 ctx query w1) as [[reply [e|]] w2] eqn:ET; cbn [fst snd];
    [|reflexivity].
  destruct (errorsAsRedial e); cbn [negb]; [|reflexivity].
  exists c. split; [exact Hc|].
  unfold forceDial, oonet.dnsOverTCPTLSResolver.Close. rewrite Hc.
  cbn [setConn address dial conn].
  destruct (dial dl1 ctx "tcp" (address dl1) (w2 ++ [oonet.EvClose c]))
    as [c'|de]; [|reflexivity].
  change (setConn (setConn dl1 None) (Some c')) with (setConn dl1 (Some c')).
  now destruct (try (setConn dl1 (Some c')) ctx query _).
Qed.

(** What [do] adds to the world: at most two dials and at most two writes,
    each of the framed query. *)
Lemma do_events (dl : T) ctx query w :
  exists evs k,
    snd (do dl ctx query w) = w ++ evs
    /\ (dialsIn evs <= 2)%nat
    /\ (k <= 2)%nat /\ writesIn evs = repeat (frame query) k.
Proof.
  unfold do.
  destruct (maybeDial_events dl ctx w) as (ev0 & H0 & D0 & W0).
  destruct (maybeDial dl ctx w) as [[[e0|] dl1] w1]; cbn [snd] in H0 |- *.
  { exists ev0, 0%nat. rewrite W0. repeat split; auto; lia. }
  destruct (try_result_events dl1 ctx query w1) as (ev1 & H1 & D1 & W1).
  destruct (try dl1 ctx query w1) as [[reply [e|]] w2]; cbn [snd] in H1 |- *.
  2:{ exists (ev0 ++ ev1).
      destruct W1 as [W1|W1]; [exists 0%nat|exists 1%nat];
        rewrite H1, H0, <- app_assoc, dialsIn_app, writesIn_app, W0, W1, D1;
        repeat split; auto; lia. }
  destruct (errorsAsRedial e); cbn [negb].
  2:{ exists (ev0 ++ ev1).
      destruct W1 as [W1|W1]; [exists 0%nat|exists 1%nat];
        rewrite H1, H0, <- app_assoc, dialsIn_app, writesIn_app, W0, W1, D1;
        repeat split; auto; lia. }
  destruct (forceDial_events dl1 ctx w2) as (ev2 & H2 & D2 & W2).
  destruct (forceDial dl1 ctx w2) as [[[e2|] dl2] w3]; cbn [snd] in H2 |- *.
  { exists (ev0 ++ ev1 ++ ev2).
    destruct W1 as [W1|W1]; [exists 0%nat|exists 1%nat];
      rewrite H2, H1, H0, <- !app_assoc, !dialsIn_app, !writesIn_app,
        W0, W1, W2, D1, D2; repeat split; auto; lia. }
  destruct (try_result_events dl2 ctx query w3) as (ev3 & H3 & D3 & W3).
  destruct (try dl2 ctx query w3) as [out w4]; cbn [snd] in H3 |- *.
  exists (ev0 ++ ev1 ++ ev2 ++ ev3).
  destruct W1 as [W1|W1], W3 as [W3|W3];
    [exists 0%nat|exists 1%nat|exists 1%nat|exists 2%nat];
    rewrite H3, H2, H1, H0, <- !app_assoc, !dialsIn_app, !writesIn_app,
      W0, W1, W2, W3, D1, D2, D3; repeat split; auto; lia.
Qed.

#[local] Abbreviation roundTrip := oonet.dnsOverTCPTLSResolver.roundTrip.
  #[local] Abbreviation users := oonet.dnsOverTCPTLSResolver.users.
  #[local] Abbreviation setUsers := oonet.dnsOverTCPTLSResolver.setUsers.

Lemma toInt32_id v : isInt32 v -> toInt32 v = v.
Proof.
  unfold isInt32, toInt32. intros H.
  rewrite Z.mod_small; lia.
Qed.

Lemma toInt32_back v : isInt32 v -> toInt32 (toInt32 (v + 1) + -1) = v.
Proof.
  unfold isInt32, toInt32. intros H.
  destruct (Z.eq_dec v (2 ^ 31 - 1)) as [->|N].
  - reflexivity.
  - rewrite (Z.mod_small (v + 1 + 2 ^ 31)) by lia.
    rewrite Z.mod_small; lia.
Qed.

(** Announcing oneself and taking the lock leaves the resolver as it was. *)
Lemma users_restored (r : T) :
  isInt32 (users r) ->
  setUsers (setUsers r (toInt32 (users r + 1)))
    (toInt32 (users (setUsers r (toInt32 (users r + 1))) + -1)) = r.
Proof.
  intros H. destruct r as [a c k d p u]. cbn in *.
  unfold setUsers. cbn. now rewrite toInt32_back.
Qed.

Lemma toByte_mod v : toByte v = v mod 256.
Proof.
  unfold toByte. change 255 with (Z.ones 8).
  rewrite Z.land_ones by lia. reflexivity.
Qed.

(** The two octets written ahead of a query of at most 65535 octets are its
    length, the high octet first. *)
Lemma frame_prefix query :
  len query <= MaxUint16 ->
  exists hi lo,
    frame query = [hi; lo] ++ bytesOf query
    /\ 0 <= hi < 256 /\ 0 <= lo < 256
    /\ hi * 256 + lo = len query.
Proof.
  intros H. unfold oonet.dnsOverTCPTLSResolver.frame.
  exists (toByte (Z.shiftr (len query) 8)), (toByte (len query)).
  split; [reflexivity|].
  assert (H0 : 0 <= len query) by (unfold len; lia).
  rewrite !toByte_mod, Z.shiftr_div_pow2 by lia.
  change (2 ^ 8) with 256. unfold MaxUint16 in H.
  assert (len query / 256 < 256) by (apply Z.div_lt_upper_bound; lia).
  assert (0 <= len query / 256) by (apply Z.div_pos; lia).
  rewrite (Z.mod_small (len query / 256)) by lia.
  repeat split; try lia; try apply Z.mod_pos_bound; try lia.
  pose proof (Z.div_mod (len query) 256). lia.
Qed.

(** C7. [CloseIdleConnections], called when no caller is inside the lock:
    the connection is closed and forgotten when no other caller is waiting
    ([users] is zero) and there is a connection; in every other case the
    resolver and the network are left as they were. The round trip behind it
    returns no reply and no error. *)
Theorem close_idle_only_without_waiters (r : T) (w : oonet.World) :
  isInt32 (users r) ->
  oonet.dnsOverTCPTLSResolver.CloseIdleConnections r w
  = match conn r with
    | Some c =>
        if users r =? 0 then (setConn r None, w ++ [oonet.EvClose c])
        else (r, w)
    | None => (r, w)
    end
  /\ fst (fst (roundTrip r Background None w)) = (None, None).
Proof.
  intros H.
  unfold oonet.dnsOverTCPTLSResolver.CloseIdleConnections, roundTrip.
  rewrite (users_restored r H).
  unfold oonet.dnsOverTCPTLSResolver.rtriplocked,
    oonet.dnsOverTCPTLSResolver.Close.
  destruct (conn r) as [c|]; [|split; reflexivity].
  destruct (users r =? 0); split; reflexivity.
Qed.

(** C10. (1) An attempt with a query of more than 65535 octets ends with
    [errDNSOverTCPTLSQueryTooLong] and leaves the world as it was: no
    deadline is set, nothing is written. (2) So does the round trip on an
    established connection, which it keeps; there the error is the one of the
    context when the [select] takes [ctx.Done()]. (3) For a query of at most
    65535 octets an attempt never ends with that error, and what it writes
    is the query behind two octets that hold its length, high octet first. *)
Theorem long_query_refused_before_io (dl : T) ctx query w :
  (MaxUint16 < len query ->
   trySync dl ctx query w = ((None, Some errDNSOverTCPTLSQueryTooLong), w))
  /\ (forall c,
        MaxUint16 < len query -> conn dl = Some c -> isInt32 (users dl) ->
        roundTrip dl ctx query w
        = ((None,
            Some match oonet.dnsOverTCPTLSResolver.ctxErr ctx w with
                 | Some e => ErrForeign e
                 | None => errDNSOverTCPTLSQueryTooLong
                 end), dl, w))
  /\ (len query <= MaxUint16 ->
      snd (fst (trySync dl ctx query w)) <> Some errDNSOverTCPTLSQueryTooLong
      /\ (exists hi lo,
             frame query = [hi; lo] ++ bytesOf query
             /\ 0 <= hi < 256 /\ 0 <= lo < 256
             /\ hi * 256 + lo = len query)
      /\ (exists evs,
             snd (trySync dl ctx query w) = w ++ evs
             /\ (writesIn evs = [] \/ writesIn evs = [frame query]))).
Proof.
  split; [|split].
  - intros H. unfold trySync.
    now replace (MaxUint16 <? len query) with true by (symmetry; apply Z.ltb_lt; lia).
  - intros c H Hc Hu.
    assert (Q : exists q, query = Some q).
    { destruct query as [q|]; [eauto|]. cbn in H. unfold MaxUint16 in H. lia. }
    destruct Q as [q ->].
    unfold roundTrip. rewrite (users_restored dl Hu).
    unfold oonet.dnsOverTCPTLSResolver.rtriplocked, do, maybeDial.
    rewrite Hc. unfold try, trySync.
    replace (MaxUint16 <? len (Some q)) with true
      by (symmetry; apply Z.ltb_lt; lia).
    now destruct (oonet.dnsOverTCPTLSResolver.ctxErr ctx w).
  - intros H. split; [|split].
    + unfold trySync.
      replace (MaxUint16 <? len query) with false
        by (symmetry; apply Z.ltb_ge; lia).
      destruct (conn dl) as [c|]; [|discriminate].
      destruct (oonet.dnsOverTCPTLSResolver.Write c _ _) as [[e|] w1];
        [discriminate|].
      destruct (oonet.dnsOverTCPTLSResolver.ReadFull c 2 _) as [[hd|e1] w2];
        [|discriminate].
      destruct (oonet.dnsOverTCPTLSResolver.ReadFull c _ _) as [[rp|e2] w3];
        discriminate.
    + now apply frame_prefix.
    + destruct (trySync_events dl ctx query w) as (evs & H1 & _ & H2).
      exists evs. auto.
Qed.

End TCPTLS.

(** A run of [do] on the network whose first write fails: one failed
    attempt, the connection closed, a new one dialed (handle 4, the number of
    events so far), and the second attempt, on the new connection, answered
    (with an empty reply). *)
Example do_over_flaky_net :
  let run := oonet.dnsOverTCPTLSResolver.do (env := reference.flakyNet)
               reference.dotResolver Background reference.shortQuery [] in
  fst (fst run) = (Some [], None)
  /\ oonet.dnsOverTCPTLSResolver.conn (snd (fst run)) = Some 4%nat
  /\ snd run
     = [oonet.EvSetDeadline 7%nat (Some 10000000000);
        oonet.EvWrite 7%nat [0; 4; 222; 173; 190; 239] (Some "write: broken pipe");
        oonet.EvSetDeadline 7%nat None;
        oonet.EvClose 7%nat;
        oonet.EvDial "tcp" "dns.google:853" (inl 4%nat);
        oonet.EvSetDeadline 4%nat (Some 10000000005);
        oonet.EvWrite 4%nat [0; 4; 222; 173; 190; 239] None;
        oonet.EvReadFull 4%nat 2%nat (inl [0; 0]);
        oonet.EvReadFull 4%nat 0%nat (inl []);
        oonet.EvSetDeadline 4%nat None].
Proof. repeat split; vm_compute; reflexivity. Qed.

(** On the quiet network the first attempt is the only one. *)
Example do_over_quiet_net :
  let run := oonet.dnsOverTCPTLSResolver.do (env := reference.quietNet)
               reference.dotResolver Background reference.shortQuery [] in
  fst (fst run) = (Some [], None)
  /\ oonet.dnsOverTCPTLSResolver.conn (snd (fst run)) = Some 7%nat
  /\ snd run
     = [oonet.EvSetDeadline 7%nat (Some 10000000000);
        oonet.EvWrite 7%nat [0; 4; 222; 173; 190; 239] None;
        oonet.EvReadFull 7%nat 2%nat (inl [0; 0]);
        oonet.EvReadFull 7%nat 0%nat (inl []);
        oonet.EvSetDeadline 7%nat None].
Proof. repeat split; vm_compute; reflexivity. Qed.

Lemma close_idle_witness :
  isInt32 (oonet.dnsOverTCPTLSResolver.users reference.dotResolver)
  /\ oonet.dnsOverTCPTLSResolver.CloseIdleConnections (env := reference.quietNet)
       reference.dotResolver []
     = (oonet.dnsOverTCPTLSResolver.setConn reference.dotResolver None,
        [oonet.EvClose 7%nat]).
Proof.
  assert (H : isInt32 (oonet.dnsOverTCPTLSResolver.users reference.dotResolver))
    by (unfold isInt32; cbn; lia).
  split; [exact H|].
  exact (proj1 (close_idle_only_without_waiters (env := reference.quietNet)
                  reference.dotResolver [] H)).
Defined.

(** With one caller waiting, nothing is closed. *)
Example close_idle_with_waiter :
  let r := oonet.dnsOverTCPTLSResolver.setUsers reference.dotResolver 1 in
  let out := oonet.dnsOverTCPTLSResolver.CloseIdleConnections
               (env := reference.quietNet) r [] in
  oonet.dnsOverTCPTLSResolver.conn (fst out) = Some 7%nat /\ snd out = [].
Proof. split; vm_compute; reflexivity. Qed.

Lemma long_query_witness :
  MaxUint16 < len reference.longQuery
  /\ oonet.dnsOverTCPTLSResolver.trySync (env := reference.quietNet)
       reference.dotResolver Background reference.longQuery []
     = ((None, Some errDNSOverTCPTLSQueryTooLong), []).
Proof.
  assert (H : MaxUint16 < len reference.longQuery) by (vm_compute; reflexivity).
  split; [exact H|].
  exact (proj1 (long_query_refused_before_io (env := reference.quietNet)
                  reference.dotResolver Background reference.longQuery []) H).
Defined.

(** ** The decorators *)

Section Decorators.
  Context {S : Type} {lib : netxlite.Lib} {env : netxlite.Env S}.

(** C4. The chain that [WrapResolver] builds, and the one of
    [NewResolverSystem], run as the pipeline: IDNA first, on the raw host
    name (its failure ends the call, with nothing logged and no resolver
    called); then the logger, which sees the ASCII name; then the check for a
    literal IP address; and the error wrapper innermost, right around the
    resolver, so that the logger prints the wrapped error. *)
Theorem decorators_run_in_order
  (logger : netxlite.Logger S) (resolver : netxlite.Resolver S) ctx hostname s :
  netxlite.LookupHost (netxlite.WrapResolver logger resolver) ctx hostname s
  = pipeline
      (fun host =>
         netxlite.Sprintf "resolve[A,AAAA] %s with %s (%s)"
           [host; netxlite.Network resolver; netxlite.Address resolver])
      "%s..." "%s... %s in %s" "%s... %+v in %s"
      logger resolver ctx hostname s
  /\ netxlite.LookupHost (netxlite.legacy.NewResolverSystem logger) ctx hostname s
     = pipeline (fun host => host)
         "resolve %s..." "resolve %s... %s in %s" "resolve %s... %+v in %s"
         logger
         (netxlite.resolverSystem
            {| netxlite.testableTimeout := 0;
               netxlite.testableLookupHost := None |})
         ctx hostname s.
Proof.
  split.
  - unfold pipeline, netxlite.WrapResolver.
    cbn [netxlite.LookupHost netxlite.resolverIDNA].
    destruct (netxlite.ToASCII hostname) as [host|e]; [|reflexivity].
    cbn [netxlite.LookupHost netxlite.resolverLogger netxlite.Network
           netxlite.Address netxlite.resolverShortCircuitIPAddr
           netxlite.resolverErrWrapper].
    destruct (netxlite.ParseIP host); [reflexivity|].
    unfold netxlite.newErrWrapper, netxlite.ResolveOperation.
    destruct (netxlite.LookupHost resolver ctx host _) as [[addrs [e|]] s2];
      reflexivity.
  - unfold pipeline, netxlite.legacy.NewResolverSystem.
    cbn [netxlite.LookupHost netxlite.resolverIDNA].
    destruct (netxlite.ToASCII hostname) as [host|e]; [|reflexivity].
    cbn [netxlite.LookupHost netxlite.legacy.resolverLogger
           netxlite.resolverShortCircuitIPAddr netxlite.resolverErrWrapper].
    destruct (netxlite.ParseIP host); [reflexivity|].
    unfold netxlite.newErrWrapper, netxlite.ResolveOperation.
    destruct (netxlite.LookupHost (netxlite.resolverSystem _) ctx host _)
      as [[addrs [e|]] s2]; reflexivity.
Qed.

(** C5. For a string that parses as an IP address the short-circuit
    decorator returns that string alone, with no error, and does not call
    its inner resolver: the state is untouched. Through the whole chain
    (when IDNA leaves the string as it is, as it does for the characters of
    an address) the result is the same, and the state changes by the two
    lines of the logger and by nothing else, whatever the resolver. *)
Theorem ip_literal_short_circuits
  (logger : netxlite.Logger S) (resolver : netxlite.Resolver S) ctx ip s :
  netxlite.ParseIP ip = true ->
  netxlite.LookupHost (netxlite.resolverShortCircuitIPAddr resolver) ctx ip s
  = (([ip], None), s)
  /\ (netxlite.ToASCII ip = inl ip ->
      (let described :=
         netxlite.Sprintf "resolve[A,AAAA] %s with %s (%s)"
           [ip; netxlite.Network resolver; netxlite.Address resolver] in
       let s1 := netxlite.Debugf logger "%s..." [netxlite.ArgString described] s in
       netxlite.LookupHost (netxlite.WrapResolver logger resolver) ctx ip s
       = (([ip], None),
          netxlite.Debugf logger "%s... %+v in %s"
            [netxlite.ArgString described; netxlite.ArgAddrs [ip];
             netxlite.ArgDuration 0] s1))
      /\ (let s1 := netxlite.Debugf logger "resolve %s..." [netxlite.ArgString ip] s in
          netxlite.LookupHost (netxlite.legacy.NewResolverSystem logger) ctx ip s
          = (([ip], None),
             netxlite.Debugf logger "resolve %s... %+v in %s"
               [netxlite.ArgString ip; netxlite.ArgAddrs [ip];
                netxlite.ArgDuration 0] s1))).
Proof.
  intros Hip. split.
  - cbn [netxlite.LookupHost netxlite.resolverShortCircuitIPAddr].
    now rewrite Hip.
  - intros Hascii. split.
    + unfold netxlite.WrapResolver.
      cbn [netxlite.LookupHost netxlite.resolverIDNA]. rewrite Hascii.
      cbn [netxlite.LookupHost netxlite.resolverLogger netxlite.Network
             netxlite.Address netxlite.resolverShortCircuitIPAddr
             netxlite.resolverErrWrapper].
      rewrite Hip, Z.sub_diag. reflexivity.
    + unfold netxlite.legacy.NewResolverSystem.
      cbn [netxlite.LookupHost netxlite.resolverIDNA]. rewrite Hascii.
      cbn [netxlite.LookupHost netxlite.legacy.resolverLogger
             netxlite.resolverShortCircuitIPAddr netxlite.resolverErrWrapper].
      rewrite Hip, Z.sub_diag. reflexivity.
Qed.

Lemma generic_wellFormed (g : oonet.dnsGenericResolver.T S) ctx hostname s :
  wellFormed (fst (oonet.dnsGenericResolver.LookupHost g ctx hostname s)).
Proof.
  rewrite LookupHost_merge. cbn [fst]. unfold wellFormed.
  set (a := oonet.dnsGenericResolver.doLookupHost g ctx hostname dns.TypeA _ s).
  set (b := oonet.dnsGenericResolver.doLookupHost g ctx hostname dns.TypeAAAA _ _).
  destruct (oonet.err (fst a)) as [ea|], (oonet.err (fst b)) as [eb|];
    try (right; split; [reflexivity|discriminate]).
  all: destruct (oonet.addrs (fst a) ++ oonet.addrs (fst b)); cbn [fst snd];
    auto; right; split; [reflexivity|discriminate].
Qed.

(** C9. No resolver variant returns addresses next to an error: a result
    is a list of addresses with no error, or an error with the empty list. *)
Theorem no_addresses_with_error f :
  variant f ->
  forall ctx hostname s,
    ~ (fst (fst (f ctx hostname s)) <> [] /\ snd (fst (f ctx hostname s)) <> None)
    /\ wellFormed (fst (f ctx hostname s)).
Proof.
  intros V ctx hostname s.
  assert (W : wellFormed (fst (f ctx hostname s))).
  { revert ctx hostname s.
    induction V as [r|g| |r|r lg|r lg|r V IH|r V IH|dflt u V IH];
      intros ctx hostname s.
    - cbn [netxlite.LookupHost netxlite.resolverSystem].
      destruct (netxlite.lookupHost r _ hostname s) as [[addrs err] s1].
      destruct (netxlite.ctxDone _ s1);
        [right; split; [reflexivity|discriminate]|].
      destruct err; [right; split; [reflexivity|discriminate]|now left].
    - apply generic_wellFormed.
    - right. split; [reflexivity|discriminate].
    - cbn [netxlite.LookupHost netxlite.resolverErrWrapper].
      destruct (netxlite.LookupHost r ctx hostname s) as [[addrs [e|]] s1];
        [right; split; [reflexivity|discriminate]|now left].
    - cbn [netxlite.LookupHost netxlite.resolverLogger].
      destruct (netxlite.LookupHost r ctx hostname _) as [[addrs [e|]] s1];
        [right; split; [reflexivity|discriminate]|now left].
    - cbn [netxlite.LookupHost netxlite.legacy.resolverLogger].
      destruct (netxlite.LookupHost r ctx hostname _) as [[addrs [e|]] s1];
        [right; split; [reflexivity|discriminate]|now left].
    - cbn [netxlite.LookupHost netxlite.resolverIDNA].
      destruct (netxlite.ToASCII hostname) as [host|e];
        [apply IH|right; split; [reflexivity|discriminate]].
    - cbn [netxlite.LookupHost netxlite.resolverShortCircuitIPAddr].
      destruct (netxlite.ParseIP hostname); [now left|apply IH].
    - unfold oonet.DNSResolver.LookupHost, oonet.DNSResolver.underlyingResolver.
      cbn [oonet.DNSResolver.UnderlyingResolver].
      specialize (IH ctx hostname s).
      destruct (u ctx hostname s) as [[addrs [e|]] s1]; cbn [fst snd] in *.
      + destruct IH as [IH|[IH _]]; [discriminate|].
        right. split; [exact IH|discriminate].
      + now left. }
  split; [|exact W].
  intros [Ha He]. destruct W as [W|[W _]]; contradiction.
Qed.

End Decorators.

Section DecoratorRuns.
  #[local] Existing Instance reference.netxliteLib.
  #[local] Existing Instance reference.journalEnv.

(** A host name goes through the four decorators to the resolver. *)
Example wrapped_lookup_of_a_name :
  netxlite.LookupHost
    (netxlite.WrapResolver reference.journalLogger reference.fixedResolver)
    Background "example.com" reference.emptyJournal
  = ((["93.184.216.34"], None),
     reference.mkJournal
       [("%s...",
         [netxlite.ArgString "resolve[A,AAAA] example.com with fixed ()"]);
        ("%s... %+v in %s",
         [netxlite.ArgString "resolve[A,AAAA] example.com with fixed ()";
          netxlite.ArgAddrs ["93.184.216.34"]; netxlite.ArgDuration 1])]
       ["example.com"]).
Proof. vm_compute. reflexivity. Qed.

(** The failure of the resolver reaches the logger wrapped. *)
Example wrapped_lookup_failure :
  netxlite.LookupHost (netxlite.NewResolverStdlib reference.journalLogger)
    Background "example.com" reference.emptyJournal
  = (([], Some (ErrWrapper "dns_nxdomain_error" "resolve"
                  (ErrForeign "lookup: no such host"))),
     reference.mkJournal
       [("%s...",
         [netxlite.ArgString "resolve[A,AAAA] example.com with system ()"]);
        ("%s... %s in %s",
         [netxlite.ArgString "resolve[A,AAAA] example.com with system ()";
          netxlite.ArgError (ErrWrapper "dns_nxdomain_error" "resolve"
                               (ErrForeign "lookup: no such host"));
          netxlite.ArgDuration 1])]
       ["example.com"]).
Proof. vm_compute. reflexivity. Qed.

(** A name that IDNA refuses: nothing is logged, nothing is asked. *)
Example wrapped_lookup_of_a_refused_name :
  netxlite.LookupHost
    (netxlite.WrapResolver reference.journalLogger reference.fixedResolver)
    Background reference.accentedName reference.emptyJournal
  = (([], Some (ErrForeign "idna: invalid label")), reference.emptyJournal).
Proof. vm_compute. reflexivity. Qed.

Lemma ip_literal_witness :
  netxlite.ParseIP "1.1.1.1" = true
  /\ netxlite.ToASCII "1.1.1.1" = inl "1.1.1.1"
  /\ netxlite.LookupHost
       (netxlite.WrapResolver reference.journalLogger reference.fixedResolver)
       Background "1.1.1.1" reference.emptyJournal
     = ((["1.1.1.1"], None),
        reference.mkJournal
          [("%s...",
            [netxlite.ArgString "resolve[A,AAAA] 1.1.1.1 with fixed ()"]);
           ("%s... %+v in %s",
            [netxlite.ArgString "resolve[A,AAAA] 1.1.1.1 with fixed ()";
             netxlite.ArgAddrs ["1.1.1.1"]; netxlite.ArgDuration 0])]
          []).
Proof.
  split; [reflexivity|]. split; [reflexivity|].
  exact (proj1 (proj2 (ip_literal_short_circuits
                         reference.journalLogger reference.fixedResolver
                         Background "1.1.1.1" reference.emptyJournal eq_refl)
                  eq_refl)).
Defined.

Lemma no_addresses_with_error_witness :
  variant (netxlite.LookupHost
             (netxlite.WrapResolver reference.journalLogger
                reference.fixedResolver))
  /\ wellFormed
       (fst (netxlite.LookupHost
               (netxlite.WrapResolver reference.journalLogger
                  reference.fixedResolver)
               Background "example.com" reference.emptyJournal)).
Proof.
  assert (V : variant (netxlite.LookupHost
                         (netxlite.WrapResolver reference.journalLogger
                            reference.fixedResolver)))
    by (apply variant_IDNA, variant_logger).
  split; [exact V|].
  exact (proj2 (no_addresses_with_error _ V
                  Background "example.com" reference.emptyJournal)).
Defined.

End DecoratorRuns.

(** ** The TCP/TLS resolver: attempts, connections, cancellation *)

Section Connections.
  Context {env : oonet.NetEnv}.

  #[local] Abbreviation T := oonet.dnsOverTCPTLSResolver.T.
  #[local] Abbreviation trySync := oonet.dnsOverTCPTLSResolver.trySync.
  #[local] Abbreviation try := oonet.dnsOverTCPTLSResolver.try.
  #[local] Abbreviation forceDial := oonet.dnsOverTCPTLSResolver.forceDial.
  #[local] Abbreviation maybeDial := oonet.dnsOverTCPTLSResolver.maybeDial.
  #[local] Abbreviation frame := oonet.dnsOverTCPTLSResolver.frame.
  #[local] Abbreviation conn := oonet.dnsOverTCPTLSResolver.conn.
  #[local] Abbreviation do := oonet.dnsOverTCPTLSResolver.do.
  #[local] Abbreviation setConn := oonet.dnsOverTCPTLSResolver.setConn.
  #[local] Abbreviation address := oonet.dnsOverTCPTLSResolver.address.
  #[local] Abbreviation dial := oonet.dnsOverTCPTLSResolver.dial.
  #[local] Abbreviation roundTrip := oonet.dnsOverTCPTLSResolver.roundTrip.
  #[local] Abbreviation rtriplocked := oonet.dnsOverTCPTLSResolver.rtriplocked.
  #[local] Abbreviation users := oonet.dnsOverTCPTLSResolver.users.
  #[local] Abbreviation ctxErr := oonet.dnsOverTCPTLSResolver.ctxErr.
  #[local] Abbreviation CloseIdleConnections :=
    oonet.dnsOverTCPTLSResolver.CloseIdleConnections.

Lemma ReadFull_eq c n w :
    oonet.dnsOverTCPTLSResolver.ReadFull c n w
    = (fst (oonet.dnsOverTCPTLSResolver.ReadFull c n w),
       w ++ [oonet.EvReadFull c n (fst (oonet.dnsOverTCPTLSResolver.ReadFull c n w))]).
  Proof. reflexivity. Qed.

  (** The world after an attempt on connection [c] with a query that fits:
      the deadline, the write, the reads that follow a successful write, and
      the deadline cleared. *)
Lemma trySync_on_connection (dl : T) ctx query w c :
    conn dl = Some c ->
    len query <= MaxUint16 ->
    let w1 := w ++ [oonet.EvSetDeadline c (Some (oonet.now w + 10 * oonet.Second))] in
    match oonet.writeOutcome w1 c (frame query) with
    | Some e =>
        trySync dl ctx query w
        = ((None, Some (errDNSOverTCPTLSRedial (ErrForeign e))),
           w1 ++ [oonet.EvWrite c (frame query) (Some e);
                  oonet.EvSetDeadline c None])
    | None =>
        let w2 := w1 ++ [oonet.EvWrite c (frame query) None] in
        match fst (oonet.dnsOverTCPTLSResolver.ReadFull c 2 w2) with
        | inr e =>
            trySync dl ctx query w
            = ((None, Some (ErrForeign e)),
               w2 ++ [oonet.EvReadFull c 2 (inr e); oonet.EvSetDeadline c None])
        | inl header =>
            let n := Z.to_nat (Z.lor (Z.shiftl (nth 0 header 0) 8) (nth 1 header 0)) in
            let w3 := w2 ++ [oonet.EvReadFull c 2 (inl header)] in
            match fst (oonet.dnsOverTCPTLSResolver.ReadFull c n w3) with
            | inr e =>
                trySync dl ctx query w
                = ((None, Some (ErrForeign e)),
                   w3 ++ [oonet.EvReadFull c n (inr e); oonet.EvSetDeadline c None])
            | inl reply =>
                trySync dl ctx query w
                = ((Some reply, None),
                   w3 ++ [oonet.EvReadFull c n (inl reply);
                          oonet.EvSetDeadline c None])
            end
        end
    end.
  Proof.
    intros Hc Hlen w1. unfold trySync.
    assert (L : (MaxUint16 <? len query) = false) by (apply Z.ltb_ge; lia).
    rewrite L, Hc.
    unfold oonet.dnsOverTCPTLSResolver.Write,
      oonet.dnsOverTCPTLSResolver.SetDeadline. fold w1.
    destruct (oonet.writeOutcome w1 c (frame query)) as [e|].
    { now rewrite <- app_assoc. }
    cbv zeta.
    set (w2 := w1 ++ [oonet.EvWrite c (frame query) None]).
    pose proof (ReadFull_eq c 2 w2) as E.
    destruct (fst (oonet.dnsOverTCPTLSResolver.ReadFull c 2 w2)) as [header|e];
      rewrite E; [|now rewrite <- app_assoc].
    cbv zeta.
    set (n := Z.to_nat _).
    set (w3 := w2 ++ [oonet.EvReadFull c 2 (inl header)]).
    pose proof (ReadFull_eq c n w3) as E'.
    destruct (fst (oonet.dnsOverTCPTLSResolver.ReadFull c n w3)) as [reply|e];
      rewrite E'; now rewrite <- app_assoc.
  Qed.

Ltac attempt_cases S :=
    cbv zeta in S;
    repeat match type of S with
           | match ?x with _ => _ end => destruct x eqn:?
           end.

Lemma ReadFull_length c n w b :
    fst (oonet.dnsOverTCPTLSResolver.ReadFull c n w) = inl b -> length b = n.
  Proof.
    unfold oonet.dnsOverTCPTLSResolver.ReadFull. cbn [fst].
    destruct (oonet.readOutcome w c n) as [b'|e]; [|discriminate].
    destruct (Nat.eqb (length b') n) eqn:E; [|discriminate].
    intros H. injection H as <-. now apply Nat.eqb_eq.
  Qed.

  (** X1. An attempt hands back a reply only after the whole exchange: the
      deadline set, the framed query written, two octets read, then as many
      octets as those two announce (high octet first), which are the reply,
      and the deadline cleared. *)
Theorem attempt_reads_announced_length (dl : T) ctx query w reply w' :
    trySync dl ctx query w = ((Some reply, None), w') ->
    exists c hi lo,
      conn dl = Some c
      /\ len query <= MaxUint16
      /\ length reply = Z.to_nat (Z.lor (Z.shiftl hi 8) lo)
      /\ w' = w ++ [oonet.EvSetDeadline c (Some (oonet.now w + 10 * oonet.Second));
                    oonet.EvWrite c (frame query) None;
                    oonet.EvReadFull c 2 (inl [hi; lo]);
                    oonet.EvReadFull c (length reply) (inl reply);
                    oonet.EvSetDeadline c None].
  Proof.
    intros H.
    destruct (MaxUint16 <? len query) eqn:L.
    { unfold trySync in H. rewrite L in H. discriminate. }
    apply Z.ltb_ge in L.
    destruct (conn dl) as [c|] eqn:Hc.
    2:{ unfold trySync in H.
        replace (MaxUint16 <? len query) with false in H
          by (symmetry; apply Z.ltb_ge; lia).
        rewrite Hc in H. discriminate. }
    pose proof (trySync_on_connection dl ctx query w c Hc L) as S.
    attempt_cases S; rewrite S in H; try discriminate.
    injection H as Hr Hw. subst.
    match goal with
    | R1 : fst (oonet.dnsOverTCPTLSResolver.ReadFull c 2 _) = inl ?h,
      R2 : fst (oonet.dnsOverTCPTLSResolver.ReadFull c _ _) = inl reply |- _ =>
        apply ReadFull_length in R1; pose proof (ReadFull_length _ _ _ _ R2) as R3;
        destruct h as [|hi [|lo [|x tl]]]; try discriminate;
        exists c, hi, lo; cbn [nth] in *;
        repeat split; auto;
        rewrite R3, <- !app_assoc; reflexivity
    end.
  Qed.

  (** X2. Whatever the outcome of an attempt on a connection (the write fails, a
      read fails, the reply arrives), the first thing it does is to set the
      deadline ten seconds ahead and the last is to clear it; in between
      there are only writes and reads on that connection. *)
Theorem attempt_clears_deadline (dl : T) ctx query w c :
    conn dl = Some c ->
    len query <= MaxUint16 ->
    exists mid,
      snd (trySync dl ctx query w)
      = w ++ [oonet.EvSetDeadline c (Some (oonet.now w + 10 * oonet.Second))]
          ++ mid ++ [oonet.EvSetDeadline c None]
      /\ forallb (ioOn c) mid = true.
  Proof.
    intros Hc L.
    pose proof (trySync_on_connection dl ctx query w c Hc L) as S.
    attempt_cases S; rewrite S; cbn [snd].
    all: rewrite <- !app_assoc; cbn [app].
    all: first [ eexists [_]; split; [reflexivity|]
               | eexists [_; _]; split; [reflexivity|]
               | eexists [_; _; _]; split; [reflexivity|] ].
    all: cbn; now rewrite Nat.eqb_refl.
  Qed.

Lemma opensIn_app l1 l2 : opensIn (l1 ++ l2) = (opensIn l1 + opensIn l2)%nat.
  Proof.
    induction l1 as [|e tl IH]; [reflexivity|].
    destruct e as [n a [c|m]|c|c t|c b r|c n r]; cbn [app opensIn];
      rewrite IH; reflexivity.
  Qed.

Lemma closesIn_app l1 l2 : closesIn (l1 ++ l2) = (closesIn l1 + closesIn l2)%nat.
  Proof.
    induction l1 as [|e tl IH]; [reflexivity|].
    destruct e; cbn [app closesIn]; rewrite IH; reflexivity.
  Qed.

  (** An attempt neither opens nor closes a connection, and an error with
      the redial hint comes from a failed write on the connection. *)
Lemma trySync_quiet (dl : T) ctx query w :
    exists evs,
      snd (trySync dl ctx query w) = w ++ evs
      /\ opensIn evs = 0%nat /\ closesIn evs = 0%nat /\ dialsIn evs = 0%nat
      /\ (forall e, snd (fst (trySync dl ctx query w)) = Some e ->
                    errorsAsRedial e = true ->
                    exists c we, conn dl = Some c
                                 /\ In (oonet.EvWrite c (frame query) (Some we)) evs)
      /\ (forall e, snd (fst (trySync dl ctx query w)) = Some e ->
                    fst (fst (trySync dl ctx query w)) = None).
  Proof.
    destruct (MaxUint16 <? len query) eqn:L.
    { unfold trySync. rewrite L. exists []. cbn [fst snd].
      rewrite app_nil_r. repeat split; auto.
      intros e H. injection H as <-. discriminate. }
    apply Z.ltb_ge in L.
    destruct (conn dl) as [c|] eqn:Hc.
    2:{ unfold trySync.
        replace (MaxUint16 <? len query) with false
          by (symmetry; apply Z.ltb_ge; lia).
        rewrite Hc. exists []. cbn [fst snd].
        rewrite app_nil_r. repeat split; auto.
        intros e H. injection H as <-. discriminate. }
    pose proof (trySync_on_connection dl ctx query w c Hc L) as S.
    attempt_cases S; rewrite S; cbn [fst snd]; eexists; rewrite <- !app_assoc;
      cbn [app]; (split; [reflexivity|]); repeat split; auto; try discriminate.
    2,3: intros e H; injection H as <-; discriminate.
    intros e _ _. eexists c, _. split; [reflexivity|]. cbn. auto.
  Qed.

Lemma try_after_trySync (dl : T) ctx query w :
    snd (try dl ctx query w) = snd (trySync dl ctx query w)
    /\ fst (try dl ctx query w)
       = match ctxErr ctx (snd (trySync dl ctx query w)) with
         | Some e => (None, Some (ErrForeign e))
         | None => fst (trySync dl ctx query w)
         end.
  Proof.
    unfold try. destruct (trySync dl ctx query w) as [out w'].
    cbn [fst snd]. now destruct (ctxErr ctx w').
  Qed.

Lemma try_quiet (dl : T) ctx query w :
    exists evs,
      snd (try dl ctx query w) = w ++ evs
      /\ opensIn evs = 0%nat /\ closesIn evs = 0%nat /\ dialsIn evs = 0%nat
      /\ (forall e, snd (fst (try dl ctx query w)) = Some e ->
                    errorsAsRedial e = true ->
                    exists c we, conn dl = Some c
                                 /\ In (oonet.EvWrite c (frame query) (Some we)) evs)
      /\ (forall e, snd (fst (try dl ctx query w)) = Some e ->
                    fst (fst (try dl ctx query w)) = None).
  Proof.
    destruct (trySync_quiet dl ctx query w) as (evs & H1 & H2 & H3 & H4 & H5 & H6).
    destruct (try_after_trySync dl ctx query w) as [E1 E2].
    exists evs. rewrite E1, E2. repeat split; auto.
    - destruct (ctxErr ctx _); [|exact H5].
      intros e H. injection H as <-. discriminate.
    - destruct (ctxErr ctx _); [reflexivity|exact H6].
  Qed.

  (** X3. When the write of the first attempt goes through, [do] keeps the
      connection it has: nothing is dialed, nothing is closed, the resolver
      is left as it was, and the result is that of the one attempt (a failed
      read is not retried). *)
Theorem working_connection_is_reused (dl : T) ctx query w c :
    conn dl = Some c ->
    oonet.writeOutcome
      (w ++ [oonet.EvSetDeadline c (Some (oonet.now w + 10 * oonet.Second))])
      c (frame query) = None ->
    do dl ctx query w = (fst (try dl ctx query w), dl, snd (try dl ctx query w))
    /\ exists evs,
         snd (do dl ctx query w) = w ++ evs
         /\ dialsIn evs = 0%nat /\ closesIn evs = 0%nat.
  Proof.
    intros Hc Hw.
    assert (N : forall e, snd (fst (try dl ctx query w)) = Some e ->
                          errorsAsRedial e = false).
    { intros e He.
      destruct (try_after_trySync dl ctx query w) as [_ E2].
      rewrite E2 in He.
      destruct (ctxErr ctx _); [injection He as <-; reflexivity|].
      destruct (MaxUint16 <? len query) eqn:L.
      { unfold trySync in He. rewrite L in He. injection He as <-. reflexivity. }
      apply Z.ltb_ge in L.
      pose proof (trySync_on_connection dl ctx query w c Hc L) as S.
      cbv zeta in S. rewrite Hw in S.
      attempt_cases S; rewrite S in He; try discriminate;
        injection He as <-; reflexivity. }
    assert (E : do dl ctx query w
                = (fst (try dl ctx query w), dl, snd (try dl ctx query w))).
    { destruct (try_quiet dl ctx query w) as (evs & _ & _ & _ & _ & _ & H6).
      unfold do, maybeDial. rewrite Hc.
      destruct (try dl ctx query w) as [[reply [e|]] w1]; cbn [fst snd] in *;
        [|reflexivity].
      rewrite (N e eq_refl). cbn [negb].
      now rewrite (H6 e eq_refl). }
    split; [exact E|].
    rewrite E. cbn [snd].
    destruct (try_quiet dl ctx query w) as (evs & H1 & _ & H3 & H4 & _).
    exists evs. auto.
  Qed.

  (** X4. A resolver without a connection dials before anything else, on [tcp]
      and to its address; when that dial fails, its error is the result, the
      resolver still has no connection, and nothing was written or read. *)
Theorem first_use_dials_first (dl : T) ctx query w :
    conn dl = None ->
    let res := dial dl ctx "tcp" (address dl) w in
    (exists rest,
        snd (do dl ctx query w)
        = w ++ oonet.EvDial "tcp" (address dl) res :: rest)
    /\ (forall e,
          res = inr e ->
          do dl ctx query w
          = ((None, Some (ErrForeign e)), dl,
             w ++ [oonet.EvDial "tcp" (address dl) (inr e)])).
  Proof.
    intros Hc res.
    assert (M : maybeDial dl ctx w
                = match res with
                  | inl c =>
                      (None, setConn dl (Some c),
                       w ++ [oonet.EvDial "tcp" (address dl) res])
                  | inr e =>
                      (Some (ErrForeign e), dl,
                       w ++ [oonet.EvDial "tcp" (address dl) res])
                  end).
    { unfold maybeDial, forceDial. rewrite Hc. fold res. now destruct res. }
    split.
    - unfold do. rewrite M.
      destruct res as [c|e]; [|exists []; reflexivity].
      set (dl1 := setConn dl (Some c)).
      set (w1 := w ++ [oonet.EvDial "tcp" (address dl) (inl c)]).
      destruct (try_quiet dl1 ctx query w1) as (ev1 & H1 & _).
      destruct (try dl1 ctx query w1) as [[reply [e|]] w2]; cbn [snd] in H1.
      2:{ exists ev1. subst w2 w1. now rewrite <- app_assoc. }
      destruct (errorsAsRedial e); cbn [negb].
      2:{ exists ev1. subst w2 w1. now rewrite <- app_assoc. }
      destruct (forceDial_events dl1 ctx w2) as (ev2 & H2 & _).
      destruct (oonet.dnsOverTCPTLSResolver.forceDial dl1 ctx w2)
        as [[[e2|] dl2] w3]; cbn [snd] in H2.
      { exists (ev1 ++ ev2). subst w3 w2 w1. now rewrite <- !app_assoc. }
      destruct (try_quiet dl2 ctx query w3) as (ev3 & H3 & _).
      destruct (try dl2 ctx query w3) as [out w4]; cbn [snd] in H3 |- *.
      exists (ev1 ++ ev2 ++ ev3). subst w4 w3 w2 w1. now rewrite <- !app_assoc.
    - intros e He. unfold do. rewrite M, He. reflexivity.
  Qed.

Lemma sameConfiguration_refl (r : T) : sameConfiguration r r.
  Proof. repeat split. Qed.

Lemma sameConfiguration_trans (r1 r2 r3 : T) :
    sameConfiguration r1 r2 -> sameConfiguration r2 r3 -> sameConfiguration r1 r3.
  Proof.
    unfold sameConfiguration.
    intros (A1 & A2 & A3 & A4 & A5) (B1 & B2 & B3 & B4 & B5).
    repeat split; congruence.
  Qed.

Lemma balanced_refl (r : T) w : balanced r w r w.
  Proof. exists []. now rewrite app_nil_r. Qed.

Lemma balanced_trans (r1 r2 r3 : T) w1 w2 w3 :
    balanced r1 w1 r2 w2 -> balanced r2 w2 r3 w3 -> balanced r1 w1 r3 w3.
  Proof.
    intros (e1 & -> & B1) (e2 & -> & B2).
    exists (e1 ++ e2). rewrite <- app_assoc, opensIn_app, closesIn_app.
    split; [reflexivity|lia].
  Qed.

Lemma forceDial_keeps (dl : T) ctx w :
    sameConfiguration dl (snd (fst (forceDial dl ctx w)))
    /\ balanced dl w (snd (fst (forceDial dl ctx w))) (snd (forceDial dl ctx w)).
  Proof.
    unfold forceDial, oonet.dnsOverTCPTLSResolver.Close, balanced, held.
    destruct (conn dl) as [c|] eqn:Hc.
    - cbn [setConn address dial conn].
      destruct (dial dl ctx "tcp" (address dl) _) as [c'|e]; cbn [fst snd];
        (split; [repeat split|]);
        rewrite <- app_assoc; eexists; (split; [reflexivity|]);
        cbn; reflexivity.
    - destruct (dial dl ctx "tcp" (address dl) _) as [c'|e]; cbn [fst snd];
        (split; [repeat split|]);
        eexists; (split; [reflexivity|]); cbn; rewrite ?Hc; reflexivity.
  Qed.

Lemma maybeDial_keeps (dl : T) ctx w :
    sameConfiguration dl (snd (fst (maybeDial dl ctx w)))
    /\ balanced dl w (snd (fst (maybeDial dl ctx w))) (snd (maybeDial dl ctx w)).
  Proof.
    unfold maybeDial. destruct (conn dl) as [c|] eqn:Hc.
    - split; [apply sameConfiguration_refl|apply balanced_refl].
    - apply forceDial_keeps.
  Qed.

Lemma try_balanced (dl : T) ctx query w :
    balanced dl w dl (snd (try dl ctx query w)).
  Proof.
    destruct (try_quiet dl ctx query w) as (evs & H1 & H2 & H3 & _).
    exists evs. rewrite H2, H3. auto.
  Qed.

Lemma do_keeps (dl : T) ctx query w :
    sameConfiguration dl (snd (fst (do dl ctx query w)))
    /\ balanced dl w (snd (fst (do dl ctx query w))) (snd (do dl ctx query w)).
  Proof.
    unfold do.
    destruct (maybeDial_keeps dl ctx w) as [C0 B0].
    destruct (maybeDial dl ctx w) as [[[e0|] dl1] w1]; cbn [fst snd] in *;
      [auto|].
    pose proof (try_balanced dl1 ctx query w1) as B1.
    destruct (try dl1 ctx query w1) as [[reply [e|]] w2]; cbn [fst snd] in *.
    2:{ split; [exact C0|]. eapply balanced_trans; eauto. }
    destruct (errorsAsRedial e); cbn [negb].
    2:{ split; [exact C0|]. eapply balanced_trans; eauto. }
    destruct (forceDial_keeps dl1 ctx w2) as [C2 B2].
    destruct (oonet.dnsOverTCPTLSResolver.forceDial dl1 ctx w2)
      as [[[e2|] dl2] w3]; cbn [fst snd] in *.
    { split; [eapply sameConfiguration_trans; eauto|].
      eapply balanced_trans; [exact B0|]. eapply balanced_trans; eauto. }
    pose proof (try_balanced dl2 ctx query w3) as B3.
    destruct (try dl2 ctx query w3) as [out w4]; cbn [fst snd] in *.
    split; [eapply sameConfiguration_trans; eauto|].
    eapply balanced_trans; [exact B0|]. eapply balanced_trans; [exact B1|].
    eapply balanced_trans; eauto.
  Qed.

Lemma roundTrip_keeps (r : T) ctx query w :
    isInt32 (users r) ->
    sameConfiguration r (snd (fst (roundTrip r ctx query w)))
    /\ balanced r w (snd (fst (roundTrip r ctx query w)))
         (snd (roundTrip r ctx query w)).
  Proof.
    intros H. unfold roundTrip. rewrite (users_restored r H).
    unfold rtriplocked.
    destruct query as [q|]; [apply do_keeps|].
    destruct (conn r) as [c|] eqn:Hc; cbn [fst snd];
      [|split; [apply sameConfiguration_refl|apply balanced_refl]].
    destruct (users r =? 0); cbn [fst snd];
      [|split; [apply sameConfiguration_refl|apply balanced_refl]].
    split; [repeat split|].
    exists [oonet.EvClose c]. unfold held, oonet.dnsOverTCPTLSResolver.Close.
    rewrite Hc. split; reflexivity.
  Qed.

  (** X5. A round trip, whatever its query and its outcome, changes nothing of
      the resolver but its connection: the address, the codec, the dial
      function and the padding flag stay, and the count of waiting callers
      is back where it was. *)
Theorem round_trip_keeps_configuration (r : T) ctx query w :
    isInt32 (users r) ->
    let r' := snd (fst (roundTrip r ctx query w)) in
    address r' = address r
    /\ oonet.dnsOverTCPTLSResolver.codec r' = oonet.dnsOverTCPTLSResolver.codec r
    /\ dial r' = dial r
    /\ oonet.dnsOverTCPTLSResolver.padding r' = oonet.dnsOverTCPTLSResolver.padding r
    /\ users r' = users r.
  Proof. intros H. exact (proj1 (roundTrip_keeps r ctx query w H)). Qed.

  (** X6. No connection is lost: over a round trip the network only grows, and
      the connections opened on the way, with the one held before, are those
      closed on the way, with the one held after. *)
Theorem round_trip_balances_connections (r : T) ctx query w :
    isInt32 (users r) ->
    exists evs,
      snd (roundTrip r ctx query w) = w ++ evs
      /\ (opensIn evs + held r
          = closesIn evs + held (snd (fst (roundTrip r ctx query w))))%nat.
  Proof. intros H. exact (proj2 (roundTrip_keeps r ctx query w H)). Qed.

  (** X7. [do] closes a connection only after a write on it has failed: at most
      one connection, the one the failed attempt used. *)
Theorem connection_closed_only_after_failed_write (dl : T) ctx query w :
    exists evs,
      snd (do dl ctx query w) = w ++ evs
      /\ (closesIn evs <= 1)%nat
      /\ forall c, In (oonet.EvClose c) evs ->
                   exists e, In (oonet.EvWrite c (frame query) (Some e)) evs.
  Proof.
    assert (NC : forall evs c, closesIn evs = 0%nat -> ~ In (oonet.EvClose c) evs).
    { induction evs as [|e tl IH]; intros c H I; [destruct I|].
      destruct I as [I|I].
      - subst e. discriminate.
      - destruct e; try discriminate; eapply IH; eauto. }
    assert (M : exists ev0, snd (maybeDial dl ctx w) = w ++ ev0
                            /\ closesIn ev0 = 0%nat).
    { unfold maybeDial, forceDial. destruct (conn dl) as [c|] eqn:Hc.
      - exists []. now rewrite app_nil_r.
      - destruct (dial dl ctx "tcp" (address dl) w) as [c'|e]; cbn [snd];
          eexists; split; reflexivity. }
    destruct M as (ev0 & H0 & C0).
    unfold do.
    destruct (maybeDial dl ctx w) as [[[e0|] dl1] w1]; cbn [snd] in H0 |- *.
    { exists ev0. rewrite C0. repeat split; auto.
      intros c I. now apply NC in I. }
    destruct (try_quiet dl1 ctx query w1) as (ev1 & H1 & _ & C1 & _ & R1 & _).
    destruct (try dl1 ctx query w1) as [[reply [e|]] w2]; cbn [fst snd] in *.
    2:{ exists (ev0 ++ ev1). rewrite H1, H0, <- app_assoc, closesIn_app, C0, C1.
        repeat split; auto.
        intros c I. apply in_app_or in I. destruct I as [I|I]; now apply NC in I. }
    destruct (errorsAsRedial e) eqn:Re; cbn [negb].
    2:{ exists (ev0 ++ ev1). rewrite H1, H0, <- app_assoc, closesIn_app, C0, C1.
        repeat split; auto.
        intros c I. apply in_app_or in I. destruct I as [I|I]; now apply NC in I. }
    destruct (R1 e eq_refl Re) as (c1 & we & Hc1 & Iw).
    assert (F : exists res,
               snd (forceDial dl1 ctx w2)
               = w2 ++ [oonet.EvClose c1; oonet.EvDial "tcp" (address dl1) res]).
    { unfold forceDial, oonet.dnsOverTCPTLSResolver.Close. rewrite Hc1.
      cbn [setConn address dial conn].
      destruct (dial dl1 ctx "tcp" (address dl1) _) as [c'|de]; cbn [snd];
        rewrite <- app_assoc; eexists; reflexivity. }
    destruct F as (res & H2).
    assert (Fin : forall ev3,
               closesIn ev3 = 0%nat ->
               (closesIn (ev0 ++ ev1 ++ [oonet.EvClose c1;
                                         oonet.EvDial "tcp" (address dl1) res] ++ ev3)
                <= 1)%nat
               /\ forall c,
                   In (oonet.EvClose c)
                     (ev0 ++ ev1 ++ [oonet.EvClose c1;
                                     oonet.EvDial "tcp" (address dl1) res] ++ ev3) ->
                   exists e,
                     In (oonet.EvWrite c (frame query) (Some e))
                       (ev0 ++ ev1 ++ [oonet.EvClose c1;
                                       oonet.EvDial "tcp" (address dl1) res] ++ ev3)).
    { intros ev3 C3. split.
      - rewrite !closesIn_app, C0, C1, C3. cbn. lia.
      - intros c I.
        apply in_app_or in I. destruct I as [I|I]; [now apply NC in I|].
        apply in_app_or in I. destruct I as [I|I]; [now apply NC in I|].
        apply in_app_or in I. destruct I as [I|I]; [|now apply NC in I].
        destruct I as [I|[I|[]]]; [|discriminate].
        injection I as <-. exists we.
        apply in_or_app. right. apply in_or_app. now left. }
    destruct (oonet.dnsOverTCPTLSResolver.forceDial dl1 ctx w2)
      as [[[e2|] dl2] w3]; cbn [snd] in H2 |- *.
    { exists (ev0 ++ ev1 ++ [oonet.EvClose c1;
                             oonet.EvDial "tcp" (address dl1) res] ++ []).
      split; [rewrite H2, H1, H0, <- !app_assoc; reflexivity|].
      now apply Fin. }
    destruct (try_quiet dl2 ctx query w3) as (ev3 & H3 & _ & C3 & _).
    destruct (try dl2 ctx query w3) as [out w4]; cbn [snd] in H3 |- *.
    exists (ev0 ++ ev1 ++ [oonet.EvClose c1;
                           oonet.EvDial "tcp" (address dl1) res] ++ ev3).
    split; [rewrite H3, H2, H1, H0, <- !app_assoc; reflexivity|].
    now apply Fin.
  Qed.

  (** X8. Closing the idle connections twice does what closing them once does:
      the second call finds nothing to close. *)
Theorem close_idle_is_idempotent (r : T) w :
    isInt32 (users r) ->
    CloseIdleConnections (fst (CloseIdleConnections r w))
      (snd (CloseIdleConnections r w))
    = CloseIdleConnections r w.
  Proof.
    intros H.
    assert (E : forall r0 w0,
               isInt32 (users r0) ->
               CloseIdleConnections r0 w0
               = match conn r0 with
                 | Some c =>
                     if users r0 =? 0 then (setConn r0 None, w0 ++ [oonet.EvClose c])
                     else (r0, w0)
                 | None => (r0, w0)
                 end).
    { intros r0 w0 H0.
      unfold CloseIdleConnections, oonet.dnsOverTCPTLSResolver.roundTrip.
      rewrite (users_restored r0 H0).
      unfold oonet.dnsOverTCPTLSResolver.rtriplocked,
        oonet.dnsOverTCPTLSResolver.Close.
      destruct (conn r0) as [c|]; [|reflexivity].
      destruct (users r0 =? 0); reflexivity. }
    rewrite (E r w H).
    destruct (conn r) as [c|] eqn:Hc.
    - destruct (users r =? 0) eqn:U; cbn [fst snd].
      + rewrite E by exact H. reflexivity.
      + rewrite E by exact H. now rewrite Hc, U.
    - cbn [fst snd]. rewrite E by exact H. now rewrite Hc.
  Qed.

  (** C6. In the TCP/TLS transport:
      (1) an attempt whose write fails ends with the redial hint around the
      write error, and an attempt whose write succeeded never ends with a
      hint (a failed read is passed on as it is);
      (2) [try] is that attempt: it returns what [trySync] returns unless the
      [select] takes [ctx.Done()], and then the error of the context, which
      is no hint; a round trip with a query is [do] under the lock;
      (3) [do] makes one attempt and, when it ends with a hint and only then,
      closes the connection, dials a new one and, if the dial succeeds, makes
      one more attempt with the same query, whose result is final: an error
      that is no hint, and the error of a failed dial, are returned at once;
      (4) so, on the network, as long as the [select] takes the result of
      the attempt: when the write on the connection [c] fails, the events of
      [do] are the failed attempt, the close of [c], the dial, and on the new
      connection the deadline and the write of the same framed query, with
      no further write, dial or close behind it, and the result is that of
      this second attempt; when the write succeeds the result is that of the
      one attempt, nothing is closed or dialed and the query is written
      once;
      (5) [do] dials at most twice and writes at most twice, each time the
      same framed query;
      (6) no other operation repeats a call (counted by any counter [calls]
      of the state that the call advances by one and the rest leaves alone):
      the generic resolver hands each query to its transport at most once, a
      round trip over HTTPS makes at most one request, the chain of
      [WrapResolver] and that of [NewResolverSystem] call the resolver they
      wrap at most once, the system resolver calls its lookup once, and
      [DNSResolver] calls its underlying resolver once. *)
Theorem redial_retries_once (dl : T) ctx query w :
    (forall c,
        conn dl = Some c -> len query <= MaxUint16 ->
        let w1 := w ++ [oonet.EvSetDeadline c (Some (oonet.now w + 10 * oonet.Second))] in
        match oonet.writeOutcome w1 c (frame query) with
        | Some e =>
            trySync dl ctx query w
            = ((None, Some (errDNSOverTCPTLSRedial (ErrForeign e))),
               w1 ++ [oonet.EvWrite c (frame query) (Some e);
                      oonet.EvSetDeadline c None])
        | None =>
            forall e, snd (fst (trySync dl ctx query w)) = Some e ->
                      errorsAsRedial e = false
        end)
    /\ ((ctxErr ctx (snd (trySync dl ctx query w)) = None ->
         try dl ctx query w = trySync dl ctx query w)
        /\ (forall e,
              ctxErr ctx (snd (trySync dl ctx query w)) = Some e ->
              fst (try dl ctx query w) = (None, Some (ErrForeign e))
              /\ errorsAsRedial (ErrForeign e) = false)
        /\ (forall q, isInt32 (users dl) ->
                      roundTrip dl ctx (Some q) w = do dl ctx (Some q) w))
    /\ (let '(e0, dl1, w1) := maybeDial dl ctx w in
        match e0 with
        | Some e => do dl ctx query w = ((None, Some e), dl1, w1)
        | None =>
            let first := try dl1 ctx query w1 in
            match snd (fst first) with
            | None => do dl ctx query w = (fst first, dl1, snd first)
            | Some e =>
                if errorsAsRedial e then
                  exists c,
                    conn dl1 = Some c
                    /\ let w2 := snd first ++ [oonet.EvClose c] in
                       let res := dial dl1 ctx "tcp" (address dl1) w2 in
                       let w3 := w2 ++ [oonet.EvDial "tcp" (address dl1) res] in
                       match res with
                       | inr de =>
                           do dl ctx query w
                           = ((None, Some (ErrForeign de)), setConn dl1 None, w3)
                       | inl c' =>
                           let dl2 := setConn dl1 (Some c') in
                           do dl ctx query w
                           = (fst (try dl2 ctx query w3), dl2,
                              snd (try dl2 ctx query w3))
                       end
                else do dl ctx query w = ((None, Some e), dl1, snd first)
            end
        end)
    /\ ((forall c e,
           conn dl = Some c -> len query <= MaxUint16 ->
           let w1 := w ++ [oonet.EvSetDeadline c
                             (Some (oonet.now w + 10 * oonet.Second))] in
           oonet.writeOutcome w1 c (frame query) = Some e ->
           let w2 := w1 ++ [oonet.EvWrite c (frame query) (Some e);
                            oonet.EvSetDeadline c None] in
           ctxErr ctx w2 = None ->
           let w3 := w2 ++ [oonet.EvClose c] in
           let res := dial dl ctx "tcp" (address dl) w3 in
           let w4 := w3 ++ [oonet.EvDial "tcp" (address dl) res] in
           match res with
           | inr de =>
               do dl ctx query w
               = ((None, Some (ErrForeign de)), setConn dl None, w4)
           | inl c' =>
               let dl2 := setConn dl (Some c') in
               let w5 := w4 ++ [oonet.EvSetDeadline c'
                                  (Some (oonet.now w4 + 10 * oonet.Second))] in
               snd (fst (do dl ctx query w)) = dl2
               /\ (ctxErr ctx (snd (trySync dl2 ctx query w4)) = None ->
                   fst (fst (do dl ctx query w)) = fst (trySync dl2 ctx query w4)
                   /\ exists evs,
                       snd (do dl ctx query w)
                       = w5 ++ oonet.EvWrite c' (frame query)
                                 (oonet.writeOutcome w5 c' (frame query)) :: evs
                       /\ writesIn evs = []
                       /\ dialsIn evs = 0%nat /\ closesIn evs = 0%nat)
           end)
        /\ (forall c,
              conn dl = Some c -> len query <= MaxUint16 ->
              oonet.writeOutcome
                (w ++ [oonet.EvSetDeadline c
                         (Some (oonet.now w + 10 * oonet.Second))])
                c (frame query) = None ->
              ctxErr ctx (snd (trySync dl ctx query w)) = None ->
              do dl ctx query w
              = (fst (trySync dl ctx query w), dl, snd (trySync dl ctx query w))
              /\ exists evs,
                  snd (do dl ctx query w) = w ++ evs
                  /\ writesIn evs = [frame query]
                  /\ dialsIn evs = 0%nat /\ closesIn evs = 0%nat))
    /\ (exists evs k,
          snd (do dl ctx query w) = w ++ evs
          /\ (dialsIn evs <= 2)%nat
          /\ (k <= 2)%nat /\ writesIn evs = repeat (frame query) k)
    /\ ((forall (S : Type) (c : oonet.DNSCodec) (t : oonet.dnsTransport S)
           padding hostname qtype p (s : S) (j : list Mark),
           (sentIn (snd (snd (oonet.dnsGenericResolver.doLookupHost
                                (resolverOver c padding (journaled t))
                                ctx hostname qtype p (s, j))))
            <= sentIn j + 1)%nat)
        /\ (forall (S : Type) (henv : oonet.HTTPEnv S) (calls : S -> nat)
              (r : oonet.DNSOverHTTPSResolver.T S),
              (forall req s0,
                  calls (snd (oonet.Do (oonet.DNSOverHTTPSResolver.client r) req s0))
                  = Datatypes.S (calls s0)) ->
              (forall line s0, calls (oonet.logPrintf line s0) = calls s0) ->
              (forall req s0 resp s1,
                  oonet.Do (oonet.DNSOverHTTPSResolver.client r) req s0
                  = (inl resp, s1) ->
                  forall s2,
                    calls (snd (oonet.ReadAll resp s2)) = calls s2
                    /\ calls (oonet.CloseBody resp s2) = calls s2) ->
              forall c q s0,
                (calls (snd (oonet.DNSOverHTTPSResolver.roundTrip r c q s0))
                 <= calls s0 + 1)%nat)
        /\ (forall (S : Type) (lib : netxlite.Lib) (nenv : netxlite.Env S)
              (calls : S -> nat) (logger : netxlite.Logger S)
              (resolver : netxlite.Resolver S),
              (forall f a s0, calls (netxlite.Debugf logger f a s0) = calls s0) ->
              (forall c h s0,
                  calls (snd (netxlite.LookupHost resolver c h s0))
                  = Datatypes.S (calls s0)) ->
              forall c h s0,
                (calls (snd (netxlite.LookupHost
                               (netxlite.WrapResolver logger resolver) c h s0))
                 <= calls s0 + 1)%nat)
        /\ (forall (S : Type) (lib : netxlite.Lib) (nenv : netxlite.Env S)
              (calls : S -> nat) (cfg : netxlite.resolverSystemT S),
              (forall c h s0,
                  calls (snd (netxlite.lookupHost cfg c h s0))
                  = Datatypes.S (calls s0)) ->
              forall c h s0,
                calls (snd (netxlite.LookupHost (netxlite.resolverSystem cfg) c h s0))
                = Datatypes.S (calls s0))
        /\ (forall (S : Type) (lib : netxlite.Lib) (nenv : netxlite.Env S)
              (calls : S -> nat) (logger : netxlite.Logger S),
              (forall f a s0, calls (netxlite.Debugf logger f a s0) = calls s0) ->
              (forall c h s0,
                  calls (snd (netxlite.stdlibLookupHost c h s0))
                  = Datatypes.S (calls s0)) ->
              forall c h s0,
                (calls (snd (netxlite.LookupHost
                               (netxlite.legacy.NewResolverSystem logger) c h s0))
                 <= calls s0 + 1)%nat)
        /\ (forall (S : Type) (calls : S -> nat)
              (dflt u : oonet.DNSUnderlyingResolver S),
              (forall c h s0, calls (snd (u c h s0)) = Datatypes.S (calls s0)) ->
              forall c h s0,
                calls (snd (oonet.DNSResolver.LookupHost dflt
                              {| oonet.DNSResolver.UnderlyingResolver := Some u |}
                              c h s0))
                = Datatypes.S (calls s0))).
  Proof.
    assert (P1 : forall c,
               conn dl = Some c -> len query <= MaxUint16 ->
               let w1 := w ++ [oonet.EvSetDeadline c
                                 (Some (oonet.now w + 10 * oonet.Second))] in
               match oonet.writeOutcome w1 c (frame query) with
               | Some e =>
                   trySync dl ctx query w
                   = ((None, Some (errDNSOverTCPTLSRedial (ErrForeign e))),
                      w1 ++ [oonet.EvWrite c (frame query) (Some e);
                             oonet.EvSetDeadline c None])
               | None =>
                   forall e, snd (fst (trySync dl ctx query w)) = Some e ->
                             errorsAsRedial e = false
               end).
    { intros c Hc Hlen w1.
      pose proof (trySync_on_connection dl ctx query w c Hc Hlen) as S.
      cbv zeta in S. fold w1 in S.
      destruct (oonet.writeOutcome w1 c (frame query)) as [e|]; [exact S|].
      intros e He.
      attempt_cases S; rewrite S in He; try discriminate;
        injection He as <-; reflexivity. }
    split; [exact P1|].
    split.
    { destruct (try_after_trySync dl ctx query w) as [E1 E2].
      split; [|split].
      - intros H. rewrite H in E2.
        destruct (try dl ctx query w) as [o1 w1], (trySync dl ctx query w) as [o2 w2].
        cbn [fst snd] in *. congruence.
      - intros e H. rewrite H in E2. split; [exact E2|reflexivity].
      - intros q H. unfold roundTrip. rewrite (users_restored dl H). reflexivity. }
    split; [apply do_structure|].
    split.
    { split.
      - intros c e Hc Hlen w1 Hw w2 Hctx w3 res w4.
        pose proof (P1 c Hc Hlen) as T1. cbv zeta in T1. fold w1 in T1.
        rewrite Hw in T1. fold w2 in T1.
        assert (T2 : try dl ctx query w
                     = ((None, Some (errDNSOverTCPTLSRedial (ErrForeign e))), w2)).
        { unfold try. rewrite T1. now rewrite Hctx. }
        assert (D : do dl ctx query w
                    = match res with
                      | inr de => ((None, Some (ErrForeign de)), setConn dl None, w4)
                      | inl c' =>
                          (fst (try (setConn dl (Some c')) ctx query w4),
                           setConn dl (Some c'),
                           snd (try (setConn dl (Some c')) ctx query w4))
                      end).
        { unfold do, maybeDial. rewrite Hc, T2. cbn [errorsAsRedial negb].
          unfold forceDial, oonet.dnsOverTCPTLSResolver.Close. rewrite Hc.
          cbn [setConn address dial conn]. fold w3. fold res. fold w4.
          destruct res as [c'|de]; [|reflexivity].
          change (setConn (setConn dl None) (Some c'))
            with (setConn dl (Some c')).
          now destruct (try (setConn dl (Some c')) ctx query w4). }
        destruct res as [c'|de]; [|exact D].
        cbv zeta. set (dl2 := setConn dl (Some c')) in *.
        set (w5 := w4 ++ [oonet.EvSetDeadline c'
                            (Some (oonet.now w4 + 10 * oonet.Second))]).
        destruct (try_after_trySync dl2 ctx query w4) as [E1 E2].
        rewrite D. cbn [fst snd]. split; [reflexivity|].
        intros H. split; [now rewrite E2, H|].
        rewrite E1.
        pose proof (trySync_on_connection dl2 ctx query w4 c' eq_refl Hlen) as S.
        cbv zeta in S. fold w5 in S.
        attempt_cases S; rewrite S; cbn [snd]; rewrite <- ?app_assoc; cbn [app];
          eexists; (split; [reflexivity|]); repeat split.
      - intros c Hc Hlen Hw Hctx.
        pose proof (trySync_on_connection dl ctx query w c Hc Hlen) as S.
        cbv zeta in S. rewrite Hw in S.
        pose proof (P1 c Hc Hlen) as T1. cbv zeta in T1. rewrite Hw in T1.
        destruct (trySync_quiet dl ctx query w) as (ev0 & _ & _ & _ & _ & _ & Q6).
        assert (E : do dl ctx query w
                    = (fst (trySync dl ctx query w), dl,
                       snd (trySync dl ctx query w))).
        { unfold do, maybeDial. rewrite Hc. unfold try.
          destruct (trySync dl ctx query w) as [[reply [e|]] w1];
            cbn [fst snd] in *; rewrite Hctx; [|reflexivity].
          rewrite (T1 e eq_refl). cbn [negb]. now rewrite (Q6 e eq_refl). }
        split; [exact E|].
        rewrite E. cbn [snd].
        attempt_cases S; rewrite S; cbn [snd]; rewrite <- ?app_assoc; cbn [app];
          eexists; (split; [reflexivity|]); repeat split. }
    split; [apply do_events|].
    split; [|split; [|split; [|split; [|split]]]].
    - intros S c t padding hostname qtype p s j.
      rewrite doLookupHost_journaled. cbn [snd]. unfold marks.
      assert (A : forall l1 l2, sentIn (l1 ++ l2) = (sentIn l1 + sentIn l2)%nat).
      { induction l1 as [|m tl IH]; intros l2; [reflexivity|].
        destruct m; cbn [app sentIn]; rewrite IH; reflexivity. }
      rewrite A.
      destruct (oonet.EncodeLookupHostRequest c ctx hostname qtype p) as [q [e|]];
        cbn [sentIn]; lia.
    - intros S henv calls r HDo Hlog Hbody c q s0.
      unfold oonet.DNSOverHTTPSResolver.roundTrip.
      destruct (oonet.NewRequestWithContext c "POST" _ q) as [req0|e];
        [|cbn [snd]; lia].
      match goal with
      | |- context [oonet.Do _ ?req s0] =>
          pose proof (HDo req s0) as H1; pose proof (Hbody req s0) as H2;
          destruct (oonet.Do (oonet.DNSOverHTTPSResolver.client r) req s0)
            as [[resp|e] s1]
      end; cbn [snd] in *; [|lia].
      specialize (H2 resp s1 eq_refl).
      destruct (negb (oonet.StatusCode resp =? 200)).
      { cbn [snd]. rewrite (proj2 (H2 s1)). lia. }
      destruct (negb (String.eqb _ "application/dns-message")).
      + destruct (oonet.ReadAll resp _) as [out s3] eqn:R. cbn [snd].
        rewrite (proj2 (H2 s3)).
        pose proof (proj1 (H2 (oonet.logPrintf
                                 "dns: the server did not set the right content type"
                                 s1))) as H3.
        rewrite R in H3. cbn [snd] in H3. rewrite H3, Hlog. lia.
      + destruct (oonet.ReadAll resp s1) as [out s3] eqn:R. cbn [snd].
        rewrite (proj2 (H2 s3)).
        pose proof (proj1 (H2 s1)) as H3.
        rewrite R in H3. cbn [snd] in H3. rewrite H3. lia.
    - intros S lib nenv calls logger resolver Hlog Hres c h s0.
      unfold netxlite.WrapResolver.
      cbn [netxlite.LookupHost netxlite.resolverIDNA].
      destruct (netxlite.ToASCII h) as [host|e]; [|cbn [snd]; lia].
      cbn [netxlite.LookupHost netxlite.resolverLogger netxlite.Network
             netxlite.Address netxlite.resolverShortCircuitIPAddr
             netxlite.resolverErrWrapper].
      destruct (netxlite.ParseIP host).
      + cbn [snd]. rewrite !Hlog. lia.
      + match goal with
        | |- context [netxlite.LookupHost resolver c host ?s1] =>
            pose proof (Hres c host s1) as H1;
            destruct (netxlite.LookupHost resolver c host s1) as [[addrs [e|]] s2]
        end; cbn [snd] in *; rewrite Hlog, H1, Hlog; lia.
    - intros S lib nenv calls cfg Hl c h s0.
      cbn [netxlite.LookupHost netxlite.resolverSystem].
      match goal with
      | |- context [netxlite.lookupHost cfg ?c1 h s0] =>
          pose proof (Hl c1 h s0) as H1;
          destruct (netxlite.lookupHost cfg c1 h s0) as [[addrs err] s1];
          cbn [snd] in H1;
          destruct (netxlite.ctxDone c1 s1); [exact H1|];
          destruct err; exact H1
      end.
    - intros S lib nenv calls logger Hlog Hstd c h s0.
      unfold netxlite.legacy.NewResolverSystem.
      cbn [netxlite.LookupHost netxlite.resolverIDNA].
      destruct (netxlite.ToASCII h) as [host|e]; [|cbn [snd]; lia].
      cbn [netxlite.LookupHost netxlite.legacy.resolverLogger
             netxlite.resolverShortCircuitIPAddr netxlite.resolverErrWrapper].
      destruct (netxlite.ParseIP host).
      + cbn [snd]. rewrite !Hlog. lia.
      + cbn [netxlite.LookupHost netxlite.resolverSystem].
        unfold netxlite.lookupHost. cbn [netxlite.testableLookupHost].
        match goal with
        | |- context [netxlite.stdlibLookupHost ?c1 host ?s1] =>
            pose proof (Hstd c1 host s1) as H1;
            destruct (netxlite.stdlibLookupHost c1 host s1) as [[addrs err] s2];
            cbn [snd] in H1;
            destruct (netxlite.ctxDone c1 s2);
              [|destruct err]; cbn [snd]; rewrite Hlog, H1, Hlog; lia
        end.
    - intros S calls dflt u Hu c h s0.
      unfold oonet.DNSResolver.LookupHost, oonet.DNSResolver.underlyingResolver.
      cbn [oonet.DNSResolver.UnderlyingResolver].
      pose proof (Hu c h s0) as H1.
      destruct (u c h s0) as [[addrs err] s1]. exact H1.
  Qed.

End Connections.

Lemma attempt_reads_witness :
  exists c hi lo,
    oonet.dnsOverTCPTLSResolver.conn reference.dotResolver = Some c
    /\ len reference.shortQuery <= MaxUint16
    /\ length (@nil byte) = Z.to_nat (Z.lor (Z.shiftl hi 8) lo)
    /\ [oonet.EvSetDeadline 7%nat (Some 10000000000);
        oonet.EvWrite 7%nat [0; 4; 222; 173; 190; 239] None;
        oonet.EvReadFull 7%nat 2%nat (inl [0; 0]);
        oonet.EvReadFull 7%nat 0%nat (inl []);
        oonet.EvSetDeadline 7%nat None]
       = [] ++ [oonet.EvSetDeadline c (Some (oonet.now (NetEnv := reference.quietNet) [] + 10 * oonet.Second));
                oonet.EvWrite c (oonet.dnsOverTCPTLSResolver.frame reference.shortQuery) None;
                oonet.EvReadFull c 2 (inl [hi; lo]);
                oonet.EvReadFull c (length (@nil byte)) (inl []);
                oonet.EvSetDeadline c None].
Proof.
  apply (attempt_reads_announced_length (env := reference.quietNet)
           reference.dotResolver Background reference.shortQuery []).
  vm_compute. reflexivity.
Defined.

Lemma attempt_clears_deadline_witness :
  exists mid,
    snd (oonet.dnsOverTCPTLSResolver.trySync (env := reference.flakyNet)
           reference.dotResolver Background reference.shortQuery [])
    = [] ++ [oonet.EvSetDeadline 7%nat
               (Some (oonet.now (NetEnv := reference.flakyNet) [] + 10 * oonet.Second))]
         ++ mid ++ [oonet.EvSetDeadline 7%nat None]
    /\ forallb (ioOn 7%nat) mid = true.
Proof.
  apply (attempt_clears_deadline (env := reference.flakyNet)
           reference.dotResolver Background reference.shortQuery [] 7%nat).
  - reflexivity.
  - vm_compute. discriminate.
Defined.

Lemma working_connection_witness :
  let run := oonet.dnsOverTCPTLSResolver.do (env := reference.quietNet)
               reference.dotResolver Background reference.shortQuery [] in
  exists evs,
    snd run = [] ++ evs /\ dialsIn evs = 0%nat /\ closesIn evs = 0%nat.
Proof.
  exact (proj2 (working_connection_is_reused (env := reference.quietNet)
                  reference.dotResolver Background reference.shortQuery []
                  7%nat eq_refl eq_refl)).
Defined.

Lemma first_use_witness :
  oonet.dnsOverTCPTLSResolver.conn reference.coldResolver = None
  /\ fst (fst (oonet.dnsOverTCPTLSResolver.do (env := reference.quietNet)
                 reference.coldResolver Background reference.shortQuery []))
     = (None, Some (ErrForeign "connection refused"))
  /\ snd (oonet.dnsOverTCPTLSResolver.do (env := reference.quietNet)
            reference.coldResolver Background reference.shortQuery [])
     = [oonet.EvDial "tcp" "dns.google:853" (inr "connection refused")].
Proof.
  split; [reflexivity|].
  pose proof (proj2 (first_use_dials_first (env := reference.quietNet)
                       reference.coldResolver Background reference.shortQuery []
                       eq_refl) "connection refused" eq_refl) as H.
  rewrite H. split; reflexivity.
Defined.

Lemma round_trip_configuration_witness :
  isInt32 (oonet.dnsOverTCPTLSResolver.users reference.dotResolver)
  /\ oonet.dnsOverTCPTLSResolver.address
       (snd (fst (oonet.dnsOverTCPTLSResolver.roundTrip (env := reference.flakyNet)
                    reference.dotResolver Background reference.shortQuery [])))
     = "dns.google:853".
Proof.
  assert (H : isInt32 (oonet.dnsOverTCPTLSResolver.users reference.dotResolver))
    by (unfold isInt32; cbn; lia).
  split; [exact H|].
  exact (proj1 (round_trip_keeps_configuration (env := reference.flakyNet)
                  reference.dotResolver Background reference.shortQuery [] H)).
Defined.

Lemma round_trip_balance_witness :
  isInt32 (oonet.dnsOverTCPTLSResolver.users reference.dotResolver)
  /\ exists evs,
      snd (oonet.dnsOverTCPTLSResolver.roundTrip (env := reference.flakyNet)
             reference.dotResolver Background reference.shortQuery [])
      = [] ++ evs
      /\ (opensIn evs + held reference.dotResolver
          = closesIn evs
            + held (snd (fst (oonet.dnsOverTCPTLSResolver.roundTrip
                                (env := reference.flakyNet)
                                reference.dotResolver Background
                                reference.shortQuery []))))%nat.
Proof.
  assert (H : isInt32 (oonet.dnsOverTCPTLSResolver.users reference.dotResolver))
    by (unfold isInt32; cbn; lia).
  split; [exact H|].
  exact (round_trip_balances_connections (env := reference.flakyNet)
           reference.dotResolver Background reference.shortQuery [] H).
Defined.

Lemma close_idle_twice_witness :
  isInt32 (oonet.dnsOverTCPTLSResolver.users reference.dotResolver)
  /\ snd (oonet.dnsOverTCPTLSResolver.CloseIdleConnections (env := reference.quietNet)
            (fst (oonet.dnsOverTCPTLSResolver.CloseIdleConnections
                    (env := reference.quietNet) reference.dotResolver []))
            (snd (oonet.dnsOverTCPTLSResolver.CloseIdleConnections
                    (env := reference.quietNet) reference.dotResolver [])))
     = [oonet.EvClose 7%nat].
Proof.
  assert (H : isInt32 (oonet.dnsOverTCPTLSResolver.users reference.dotResolver))
    by (unfold isInt32; cbn; lia).
  split; [exact H|].
  rewrite (close_idle_is_idempotent (env := reference.quietNet)
             reference.dotResolver [] H).
  reflexivity.
Defined.

Lemma redial_witness :
  oonet.dnsOverTCPTLSResolver.conn reference.dotResolver = Some 7%nat
  /\ len reference.shortQuery <= MaxUint16
  /\ oonet.dnsOverTCPTLSResolver.trySync (env := reference.flakyNet)
       reference.dotResolver Background reference.shortQuery []
     = ((None, Some (errDNSOverTCPTLSRedial (ErrForeign "write: broken pipe"))),
        [oonet.EvSetDeadline 7%nat (Some 10000000000);
         oonet.EvWrite 7%nat [0; 4; 222; 173; 190; 239] (Some "write: broken pipe");
         oonet.EvSetDeadline 7%nat None])
  /\ oonet.dnsOverTCPTLSResolver.conn
       (snd (fst (oonet.dnsOverTCPTLSResolver.do (env := reference.flakyNet)
                    reference.dotResolver Background reference.shortQuery [])))
     = Some 4%nat
  /\ (exists evs,
      snd (oonet.dnsOverTCPTLSResolver.do (env := reference.flakyNet)
             reference.dotResolver Background reference.shortQuery [])
      = [oonet.EvSetDeadline 7%nat (Some 10000000000);
         oonet.EvWrite 7%nat [0; 4; 222; 173; 190; 239] (Some "write: broken pipe");
         oonet.EvSetDeadline 7%nat None;
         oonet.EvClose 7%nat;
         oonet.EvDial "tcp" "dns.google:853" (inl 4%nat);
         oonet.EvSetDeadline 4%nat (Some 10000000005);
         oonet.EvWrite 4%nat [0; 4; 222; 173; 190; 239] None] ++ evs
      /\ writesIn evs = [] /\ dialsIn evs = 0%nat /\ closesIn evs = 0%nat)
  /\ (length (reference.requests
                (snd (oonet.DNSOverHTTPSResolver.roundTrip
                        (env := reference.exchangeEnv) (reference.dohResolver 200)
                        Background reference.shortQuery reference.noExchange)))
      <= 0 + 1)%nat
  /\ (length (reference.asked
                (snd (netxlite.LookupHost
                        (netxlite.WrapResolver (lib := reference.netxliteLib)
                           (env := reference.journalEnv)
                           reference.journalLogger reference.fixedResolver)
                        Background "example.com" reference.emptyJournal)))
      <= 0 + 1)%nat.
Proof.
  assert (L : len reference.shortQuery <= MaxUint16) by (vm_compute; discriminate).
  pose proof (redial_retries_once (env := reference.flakyNet)
                reference.dotResolver Background reference.shortQuery [])
    as (P1 & _ & _ & (P4 & _) & _ & (_ & P6 & P7 & _)).
  split; [reflexivity|]. split; [exact L|].
  split; [exact (P1 7%nat eq_refl L)|].
  pose proof (P4 7%nat "write: broken pipe" eq_refl L eq_refl eq_refl)
    as (Q1 & Q2).
  destruct (Q2 eq_refl) as (_ & evs & Q3 & Q4).
  split; [rewrite Q1; reflexivity|].
  split; [exists evs; split; [exact Q3|exact Q4]|].
  split.
  - apply (P6 reference.Exchange reference.exchangeEnv
              (fun x => length (reference.requests x))
              (reference.dohResolver 200)).
    + intros req s0. cbn. rewrite length_app. cbn. lia.
    + intros line s0. reflexivity.
    + intros req s0 resp s1 H s2. cbn in H. injection H as <- _.
      split; reflexivity.
  - apply (P7 reference.Journal reference.netxliteLib reference.journalEnv
              (fun j => length (reference.asked j))
              reference.journalLogger reference.fixedResolver).
    + intros f a s0. reflexivity.
    + intros c h s0. cbn. rewrite length_app. cbn. lia.
Defined.

(** ** The generic resolver over the miekg codec *)

Section GenericMiekg.
  Context {S : Type} {lib : dns.Lib}.

Lemma miekg_decode_nonempty ctx qtype data :
    snd (oonet.dnsMiekgCodec.DecodeLookupHostResponse ctx qtype data) = None ->
    fst (oonet.dnsMiekgCodec.DecodeLookupHostResponse ctx qtype data) <> [].
  Proof.
    unfold oonet.dnsMiekgCodec.DecodeLookupHostResponse.
    destruct (dns.Unpack (bytesOf data)) as [reply|e]; [|discriminate].
    destruct (dns.Rcode reply =? dns.RcodeNameError); [discriminate|].
    destruct (dns.Rcode reply =? dns.RcodeServerFailure); [discriminate|].
    destruct (dns.Rcode reply =? dns.RcodeSuccess); [|discriminate].
    destruct (fold_left _ (dns.Answer reply) []) as [|x l]; [discriminate|].
    cbn [length]. destruct (Z.of_nat (Datatypes.S (length l)) <=? 0); discriminate.
  Qed.

Lemma miekg_lookup_nonempty (t : oonet.dnsTransport S) padding ctx hostname qtype p s :
    let x := fst (oonet.dnsGenericResolver.doLookupHost
                    (resolverOver oonet.dnsMiekgCodec.new padding t)
                    ctx hostname qtype p s) in
    oonet.err x = None -> oonet.addrs x <> [].
  Proof.
    unfold oonet.dnsGenericResolver.doLookupHost, resolverOver.
    cbn [oonet.dnsGenericResolver.codec oonet.dnsGenericResolver.t
           oonet.dnsMiekgCodec.new oonet.EncodeLookupHostRequest
           oonet.DecodeLookupHostResponse].
    destruct (oonet.dnsMiekgCodec.EncodeLookupHostRequest ctx hostname qtype p)
      as [q [e|]]; [discriminate|].
    destruct (t ctx q s) as [[reply [e|]] s1]; [discriminate|].
    pose proof (miekg_decode_nonempty ctx qtype reply) as N.
    destruct (oonet.dnsMiekgCodec.DecodeLookupHostResponse ctx qtype reply)
      as [a e]. cbn [fst snd oonet.err oonet.addrs] in *. exact N.
  Qed.

  (** X10. With the miekg codec a lookup succeeds exactly when one of its two
      queries does, and then with at least one address, those of the queries
      that succeeded; it fails exactly when both fail, and then with the
      error of the A query: the resolver's own "no answer" error is never
      needed. *)
Theorem lookup_succeeds_iff_a_query_succeeds
    (t : oonet.dnsTransport S) padding ctx hostname s :
    let r := resolverOver oonet.dnsMiekgCodec.new padding t in
    let a := oonet.dnsGenericResolver.doLookupHost r ctx hostname dns.TypeA padding s in
    let b := oonet.dnsGenericResolver.doLookupHost r ctx hostname dns.TypeAAAA
               padding (snd a) in
    let out := fst (oonet.dnsGenericResolver.LookupHost r ctx hostname s) in
    (snd out = None <-> oonet.err (fst a) = None \/ oonet.err (fst b) = None)
    /\ (snd out = None ->
        fst out = answered (fst a) ++ answered (fst b) /\ fst out <> [])
    /\ (forall e, snd out = Some e ->
                  oonet.err (fst a) = Some e /\ oonet.err (fst b) <> None).
  Proof.
    intros r a b out. subst out. rewrite LookupHost_merge.
    cbn [oonet.dnsGenericResolver.padding r resolverOver]. fold r a b.
    pose proof (miekg_lookup_nonempty t padding ctx hostname dns.TypeA padding s) as NA.
    pose proof (miekg_lookup_nonempty t padding ctx hostname dns.TypeAAAA padding
                  (snd a)) as NB.
    pose proof (doLookupHost_failed r ctx hostname dns.TypeA padding s) as FA.
    pose proof (doLookupHost_failed r ctx hostname dns.TypeAAAA padding (snd a)) as FB.
    cbv zeta in NA, NB. fold r in NA, NB. fold a in NA, FA. fold b in NB, FB.
    assert (Q : silentOnFailure (oonet.dnsGenericResolver.codec r))
      by apply miekg_silentOnFailure.
    unfold answered.
    destruct (oonet.err (fst a)) as [ea|] eqn:Ea,
             (oonet.err (fst b)) as [eb|] eqn:Eb; cbn [fst snd].
    - split; [split; [discriminate|intros [H|H]; discriminate]|].
      split; [discriminate|]. intros e H. injection H as <-.
      split; [reflexivity|discriminate].
    - specialize (NB eq_refl). rewrite (FA ea Q eq_refl). cbn [app].
      destruct (oonet.addrs (fst b)) as [|x l]; [contradiction|]. cbn [fst snd].
      split; [split; auto|]. split; [|discriminate].
      intros _. split; [reflexivity|discriminate].
    - specialize (NA eq_refl). rewrite (FB eb Q eq_refl), app_nil_r.
      destruct (oonet.addrs (fst a)) as [|x l]; [contradiction|]. cbn [fst snd].
      split; [split; auto|]. split; [|discriminate].
      intros _. split; [reflexivity|discriminate].
    - specialize (NA eq_refl).
      destruct (oonet.addrs (fst a)) as [|x l]; [contradiction|].
      cbn [app fst snd].
      split; [split; auto|]. split; [|discriminate].
      intros _. split; [reflexivity|discriminate].
  Qed.

Lemma encode_refused ctx hostname qtype padding :
    dns.packDomainName (dns.Fqdn hostname) = None ->
    oonet.dnsMiekgCodec.EncodeLookupHostRequest ctx hostname qtype padding
    = (None, Some (ErrForeign "dns: bad rdata")).
  Proof.
    intros H. unfold oonet.dnsMiekgCodec.EncodeLookupHostRequest, dns.Pack.
    assert (Q : dns.Question_ (oonet.dnsMiekgCodec.query hostname qtype padding)
                = [dns.mkQuestion (dns.Fqdn hostname) qtype dns.ClassINET]
                /\ dns.Rcode (oonet.dnsMiekgCodec.query hostname qtype padding) = 0).
    { unfold oonet.dnsMiekgCodec.query. destruct padding; split; reflexivity. }
    destruct Q as [Q1 Q2]. rewrite Q1, Q2.
    cbn [dns.packAll]. unfold dns.packQuestion. cbn [dns.Name]. rewrite H.
    reflexivity.
  Qed.

  (** X11. A host name that the library cannot put on the wire is refused before
      any round trip: the lookup fails with the library's error and the
      transport is never used, so the state is as it was. *)
Theorem unencodable_name_causes_no_traffic
    (t : oonet.dnsTransport S) padding ctx hostname s :
    dns.packDomainName (dns.Fqdn hostname) = None ->
    oonet.dnsGenericResolver.LookupHost
      (resolverOver oonet.dnsMiekgCodec.new padding t) ctx hostname s
    = (([], Some (ErrForeign "dns: bad rdata")), s).
  Proof.
    intros H.
    unfold oonet.dnsGenericResolver.LookupHost,
      oonet.dnsGenericResolver.doLookupHost, resolverOver.
    cbn [oonet.dnsGenericResolver.codec oonet.dnsGenericResolver.padding
           oonet.dnsMiekgCodec.new oonet.EncodeLookupHostRequest].
    rewrite !encode_refused by exact H. reflexivity.
  Qed.

  (** What a lookup does to the state it does through the round trips of its
      transport: a relation that holds across every round trip, and is
      reflexive and transitive, holds across the lookup. *)
Lemma LookupHost_steps (R : S -> S -> Prop) (r : oonet.dnsGenericResolver.T S) :
    (forall s, R s s) ->
    (forall s1 s2 s3, R s1 s2 -> R s2 s3 -> R s1 s3) ->
    (forall ctx q s, R s (snd (oonet.dnsGenericResolver.t r ctx q s))) ->
    forall ctx hostname s,
      R s (snd (oonet.dnsGenericResolver.LookupHost r ctx hostname s)).
  Proof.
    intros Hrefl Htrans Hstep ctx hostname s.
    assert (D : forall qtype p s0,
               R s0 (snd (oonet.dnsGenericResolver.doLookupHost r ctx hostname
                            qtype p s0))).
    { intros qtype p s0. unfold oonet.dnsGenericResolver.doLookupHost.
      destruct (oonet.EncodeLookupHostRequest _ ctx hostname qtype p) as [q [e|]];
        [apply Hrefl|].
      specialize (Hstep ctx q s0).
      destruct (oonet.dnsGenericResolver.t r ctx q s0) as [[reply [e|]] s1];
        cbn [snd] in *; [exact Hstep|].
      now destruct (oonet.DecodeLookupHostResponse _ ctx qtype reply). }
    rewrite LookupHost_merge. cbn [snd].
    eapply Htrans; apply D.
  Qed.

End GenericMiekg.

Section GenericMiekgRuns.
  #[local] Existing Instance reference.dnsLib.

Lemma lookup_merge_witness :
  silentOnFailure reference.muteCodec
  /\ oonet.dnsGenericResolver.LookupHost
       (resolverOver reference.muteCodec true reference.warmingUp)
       Background "example.com" 0%nat
     = (([], Some ErrDNSNoAsnwerFromDNSServer), 2%nat).
Proof.
  assert (H : silentOnFailure reference.muteCodec)
    by (intros ctx qtype data e; cbn; discriminate).
  split; [exact H|].
  rewrite (proj1 (proj2 (lookup_merges_A_before_AAAA reference.muteCodec
                           reference.warmingUp true Background "example.com"
                           0%nat)) H).
  reflexivity.
Defined.

Lemma lookup_succeeds_witness :
  let r := resolverOver oonet.dnsMiekgCodec.new true reference.warmingUp in
  snd (fst (oonet.dnsGenericResolver.LookupHost r Background "example.com" 0%nat))
  = None
  /\ fst (fst (oonet.dnsGenericResolver.LookupHost r Background "example.com" 0%nat))
     = answered (fst (oonet.dnsGenericResolver.doLookupHost
                        r Background "example.com" dns.TypeA true 0%nat))
       ++ answered (fst (oonet.dnsGenericResolver.doLookupHost
                           r Background "example.com" dns.TypeAAAA true
                           (snd (oonet.dnsGenericResolver.doLookupHost
                                   r Background "example.com" dns.TypeA true
                                   0%nat)))).
Proof.
  intros r.
  assert (E : snd (fst (oonet.dnsGenericResolver.LookupHost
                          r Background "example.com" 0%nat)) = None)
    by (vm_compute; reflexivity).
  split; [exact E|].
  exact (proj1 (proj1 (proj2 (lookup_succeeds_iff_a_query_succeeds
                                reference.warmingUp true
                                Background "example.com" 0%nat)) E)).
Defined.

Lemma unencodable_name_witness :
  dns.packDomainName (dns.Fqdn "exa..mple.com") = None
  /\ oonet.dnsGenericResolver.LookupHost
       (resolverOver oonet.dnsMiekgCodec.new true reference.warmingUp)
       Background "exa..mple.com" 0%nat
     = (([], Some (ErrForeign "dns: bad rdata")), 0%nat).
Proof.
  assert (H : dns.packDomainName (dns.Fqdn "exa..mple.com") = None)
    by (vm_compute; reflexivity).
  split; [exact H|].
  exact (unencodable_name_causes_no_traffic
           reference.warmingUp true Background "exa..mple.com" 0%nat H).
Defined.

End GenericMiekgRuns.

(** ** The DNS-over-TLS resolver *)

Section OverTLS.
  Context {lib : dns.Lib} {env : oonet.NetEnv}.
  Variable dialTLSContext :
    list string -> Context -> string -> string -> oonet.World -> oonet.Conn + string.

  #[local] Abbreviation DoT := oonet.DNSOverTLSResolver.T.
  #[local] Abbreviation reso := oonet.DNSOverTLSResolver.reso.
  #[local] Abbreviation inner := (oonet.DNSOverTLSResolver.inner dialTLSContext).
  #[local] Abbreviation LookupHostTLS :=
    (oonet.DNSOverTLSResolver.LookupHost dialTLSContext).
  #[local] Abbreviation users := oonet.dnsOverTCPTLSResolver.users.
  #[local] Abbreviation conn := oonet.dnsOverTCPTLSResolver.conn.

  (** A lookup through the TCP/TLS resolver changes nothing of it but its
      connection, and loses no connection. *)
Lemma TCPTLS_LookupHost_keeps (r : oonet.dnsOverTCPTLSResolver.T) ctx hostname w :
    isInt32 (users r) ->
    let s' := snd (oonet.dnsOverTCPTLSResolver.LookupHost r ctx hostname w) in
    sameConfiguration r (fst s') /\ balanced r w (fst s') (snd s').
  Proof.
    intros H.
    set (R := fun s s' : oonet.dnsOverTCPTLSResolver.T * oonet.World =>
                isInt32 (users (fst s)) ->
                sameConfiguration (fst s) (fst s')
                /\ balanced (fst s) (snd s) (fst s') (snd s')).
    assert (G : R (r, w) (snd (oonet.dnsOverTCPTLSResolver.LookupHost r ctx hostname w))).
    { unfold oonet.dnsOverTCPTLSResolver.LookupHost.
      apply (LookupHost_steps R).
      - intros s _. split; [apply sameConfiguration_refl|apply balanced_refl].
      - intros s1 s2 s3 A B H1.
        destruct (A H1) as [A1 A2].
        assert (H2 : isInt32 (users (fst s2))).
        { destruct A1 as (_ & _ & _ & _ & U). now rewrite U. }
        destruct (B H2) as [B1 B2].
        split; [eapply sameConfiguration_trans; eauto
               |eapply balanced_trans; eauto].
      - intros c q s H1.
        cbn [oonet.dnsGenericResolver.t].
        unfold oonet.dnsOverTCPTLSResolver.transport.
        pose proof (roundTrip_keeps (fst s) c q (snd s) H1) as K.
        destruct (oonet.dnsOverTCPTLSResolver.roundTrip (fst s) c q (snd s))
          as [[out r1] w1]. exact K. }
    exact (G H).
  Qed.

  (** X12. The first lookup through a DNS-over-TLS resolver creates the resolver
      it works with, once: no connection yet, the address, the codec and the
      dialer of the DNS-over-TLS resolver (or their defaults: the miekg codec,
      a dialer with the ALPN [dot]), padding on. The lookup leaves that
      resolver in place, with this configuration, and the three public fields
      as they were. *)
Theorem first_lookup_sets_up_resolver (r : DoT) ctx hostname w :
    reso r = None ->
    let r' := fst (snd (LookupHostTLS r ctx hostname w)) in
    oonet.DNSOverTLSResolver.Address r' = oonet.DNSOverTLSResolver.Address r
    /\ oonet.DNSOverTLSResolver.Codec r' = oonet.DNSOverTLSResolver.Codec r
    /\ oonet.DNSOverTLSResolver.Dialer r' = oonet.DNSOverTLSResolver.Dialer r
    /\ exists x,
        reso r' = Some x
        /\ oonet.dnsOverTCPTLSResolver.address x = oonet.DNSOverTLSResolver.Address r
        /\ oonet.dnsOverTCPTLSResolver.codec x
           = match oonet.DNSOverTLSResolver.Codec r with
             | Some c => c
             | None => oonet.dnsMiekgCodec.new
             end
        /\ oonet.dnsOverTCPTLSResolver.dial x
           = match oonet.DNSOverTLSResolver.Dialer r with
             | Some d => d
             | None => dialTLSContext ["dot"]
             end
        /\ oonet.dnsOverTCPTLSResolver.padding x = true
        /\ users x = 0.
  Proof.
    intros Hr r'. subst r'. unfold oonet.DNSOverTLSResolver.LookupHost.
    assert (I : isInt32 (users (inner r))).
    { unfold oonet.DNSOverTLSResolver.inner. rewrite Hr. unfold isInt32. cbn. lia. }
    pose proof (TCPTLS_LookupHost_keeps (inner r) ctx hostname w I) as K.
    cbv zeta in K.
    destruct (oonet.dnsOverTCPTLSResolver.LookupHost (inner r) ctx hostname w)
      as [out [x w1]]. cbn [fst snd] in *.
    repeat split. exists x. split; [reflexivity|].
    destruct K as [(A1 & A2 & A3 & A4 & A5) _].
    unfold oonet.DNSOverTLSResolver.inner in A1, A2, A3, A4, A5.
    rewrite Hr in A1, A2, A3, A4, A5. cbn in A1, A2, A3, A4, A5.
    repeat split; assumption.
  Qed.

  #[local] Abbreviation reached := reachedFrom.

Lemma lookup_reached w0 (r : DoT) ctx hostname w :
    reached w0 (r, w) -> reached w0 (snd (LookupHostTLS r ctx hostname w)).
  Proof.
    unfold reached. cbn [fst snd]. intros H.
    unfold oonet.DNSOverTLSResolver.LookupHost.
    assert (I : users (inner r) = 0
                /\ exists evs, w = w0 ++ evs
                               /\ (opensIn evs = closesIn evs + held (inner r))%nat).
    { unfold oonet.DNSOverTLSResolver.inner.
      destruct (reso r) as [x|]; [exact H|].
      split; [reflexivity|]. exists []. subst w. now rewrite app_nil_r. }
    destruct I as (U & evs & -> & B).
    assert (I : isInt32 (users (inner r))) by (rewrite U; unfold isInt32; lia).
    pose proof (TCPTLS_LookupHost_keeps (inner r) ctx hostname (w0 ++ evs) I) as K.
    cbv zeta in K.
    destruct (oonet.dnsOverTCPTLSResolver.LookupHost (inner r) ctx hostname _)
      as [out [x w1]]. cbn [fst snd oonet.DNSOverTLSResolver.reso] in *.
    destruct K as [(_ & _ & _ & _ & A5) (ev1 & -> & B1)].
    split; [congruence|].
    exists (evs ++ ev1). rewrite <- app_assoc, opensIn_app, closesIn_app.
    split; [reflexivity|lia].
  Qed.

Lemma lookups_reached w0 l : forall s,
    reached w0 s -> reached w0 (lookups dialTLSContext l s).
  Proof.
    induction l as [|q tl IH]; intros s H; [exact H|].
    unfold lookups. cbn [fold_left]. apply IH.
    destruct s as [r w]. now apply lookup_reached.
  Qed.

  (** X13. However many lookups went through a DNS-over-TLS resolver, and however
      they ended, [CloseIdleConnections] afterwards leaves it without a
      connection, and every connection that was opened since the resolver
      was new has been closed. Before the first lookup it does nothing. *)
Theorem close_releases_every_connection (r : DoT) l w :
    reso r = None ->
    let s1 := lookups dialTLSContext l (r, w) in
    let s2 := oonet.DNSOverTLSResolver.CloseIdleConnections (fst s1) (snd s1) in
    (forall x, reso (fst s2) = Some x -> conn x = None)
    /\ (exists evs, snd s2 = w ++ evs /\ opensIn evs = closesIn evs)
    /\ oonet.DNSOverTLSResolver.CloseIdleConnections r w = (r, w).
  Proof.
    intros Hr s1 s2.
    assert (H : reached w s1).
    { apply lookups_reached. unfold reached. cbn [fst snd]. now rewrite Hr. }
    split; [|split].
    3:{ unfold oonet.DNSOverTLSResolver.CloseIdleConnections. now rewrite Hr. }
    all: subst s2; unfold oonet.DNSOverTLSResolver.CloseIdleConnections;
      unfold reached in H; destruct (reso (fst s1)) as [x|] eqn:Hx.
    - destruct H as (U & _).
      unfold oonet.dnsOverTCPTLSResolver.CloseIdleConnections,
        oonet.dnsOverTCPTLSResolver.roundTrip.
      rewrite users_restored by (rewrite U; unfold isInt32; lia).
      unfold oonet.dnsOverTCPTLSResolver.rtriplocked. rewrite U.
      destruct (conn x) as [c|] eqn:Hc; cbn [fst snd Z.eqb];
        intros y Hy; injection Hy as <-; [reflexivity|exact Hc].
    - cbn [fst]. intros y Hy. congruence.
    - destruct H as (U & evs & E & B).
      unfold oonet.dnsOverTCPTLSResolver.CloseIdleConnections,
        oonet.dnsOverTCPTLSResolver.roundTrip.
      rewrite users_restored by (rewrite U; unfold isInt32; lia).
      unfold oonet.dnsOverTCPTLSResolver.rtriplocked,
        oonet.dnsOverTCPTLSResolver.Close. rewrite U.
      unfold held in B.
      destruct (conn x) as [c|] eqn:Hc; cbn [fst snd Z.eqb].
      + exists (evs ++ [oonet.EvClose c]).
        rewrite E, <- app_assoc, opensIn_app, closesIn_app. cbn. split; [reflexivity|lia].
      + exists evs. split; [exact E|lia].
    - cbn [snd]. exists []. rewrite H, app_nil_r. split; reflexivity.
  Qed.

End OverTLS.

(** A new resolver, one lookup on the quiet network (a dial, then the two
    queries on the one connection), and the connection is closed. *)
Example lookup_and_close_over_tls :
  let s1 := oonet.DNSOverTLSResolver.LookupHost (lib := reference.dnsLib)
              (env := reference.quietNet) (fun _ => reference.dialRefused)
              reference.freshDoT Background "example.com" [] in
  let s2 := oonet.DNSOverTLSResolver.CloseIdleConnections (env := reference.quietNet)
              (fst (snd s1)) (snd (snd s1)) in
  map (fun e => match e with
                | oonet.EvDial _ a (inl c) => ("dial " ++ a)%string
                | oonet.EvDial _ a (inr _) => "dial failed"
                | oonet.EvClose _ => "close"
                | oonet.EvSetDeadline _ _ => "deadline"
                | oonet.EvWrite _ _ _ => "write"
                | oonet.EvReadFull _ _ _ => "read"
                end) (snd s2)
  = ["dial dns.google:853";
     "deadline"; "write"; "read"; "read"; "deadline";
     "deadline"; "write"; "read"; "read"; "deadline";
     "close"].
Proof. vm_compute. reflexivity. Qed.

Lemma first_lookup_witness :
  oonet.DNSOverTLSResolver.reso reference.freshDoT = None
  /\ exists x,
      oonet.DNSOverTLSResolver.reso
        (fst (snd (oonet.DNSOverTLSResolver.LookupHost (lib := reference.dnsLib)
                     (env := reference.quietNet) (fun _ => reference.dialRefused)
                     reference.freshDoT Background "example.com" [])))
      = Some x
      /\ oonet.dnsOverTCPTLSResolver.address x = "dns.google:853"
      /\ oonet.dnsOverTCPTLSResolver.padding x = true.
Proof.
  split; [reflexivity|].
  destruct (first_lookup_sets_up_resolver (lib := reference.dnsLib)
              (env := reference.quietNet) (fun _ => reference.dialRefused)
              reference.freshDoT Background "example.com" [] eq_refl)
    as (_ & _ & _ & x & H1 & H2 & _ & _ & H5 & _).
  exists x. repeat split; assumption.
Defined.

Lemma close_releases_witness :
  oonet.DNSOverTLSResolver.reso reference.freshDoT = None
  /\ exists evs,
      snd (oonet.DNSOverTLSResolver.CloseIdleConnections (env := reference.quietNet)
             (fst (lookups (lib := reference.dnsLib) (env := reference.quietNet)
                     (fun _ => reference.dialRefused)
                     [(Background, "example.com"); (Background, "example.org")]
                     (reference.freshDoT, [])))
             (snd (lookups (lib := reference.dnsLib) (env := reference.quietNet)
                     (fun _ => reference.dialRefused)
                     [(Background, "example.com"); (Background, "example.org")]
                     (reference.freshDoT, []))))
      = [] ++ evs
      /\ opensIn evs = closesIn evs.
Proof.
  split; [reflexivity|].
  exact (proj1 (proj2 (close_releases_every_connection (lib := reference.dnsLib)
                         (env := reference.quietNet) (fun _ => reference.dialRefused)
                         reference.freshDoT
                         [(Background, "example.com"); (Background, "example.org")]
                         [] eq_refl))).
Defined.

(** ** The DNS-over-HTTPS resolver *)

Section OverHTTPS.
  Context {S : Type} {env : oonet.HTTPEnv S}.

  #[local] Abbreviation DoH := (oonet.DNSOverHTTPSResolver.T S).

Lemma headerLookup_filter h key key' :
    key' <> key ->
    oonet.headerLookup
      (filter (fun kv : string * string => negb (String.eqb (fst kv) key)) h) key'
    = oonet.headerLookup h key'.
  Proof.
    intros N. induction h as [|[k v] tl IH]; [reflexivity|].
    cbn [filter fst oonet.headerLookup].
    destruct (String.eqb k key) eqn:E; cbn [negb].
    - apply String.eqb_eq in E. subst k.
      replace (String.eqb key key') with false; [exact IH|].
      symmetry. apply String.eqb_neq. congruence.
    - cbn [oonet.headerLookup]. now rewrite IH.
  Qed.

Lemma headerGet_set h key value :
    oonet.headerGet (oonet.headerSet h key value) key = value.
  Proof.
    unfold oonet.headerGet, oonet.headerSet. cbn [oonet.headerLookup].
    now rewrite String.eqb_refl.
  Qed.

Lemma headerGet_set_other h key value key' :
    oonet.CanonicalMIMEHeaderKey key' <> oonet.CanonicalMIMEHeaderKey key ->
    oonet.headerGet (oonet.headerSet h key value) key' = oonet.headerGet h key'.
  Proof.
    intros N. unfold oonet.headerGet, oonet.headerSet. cbn [oonet.headerLookup].
    replace (String.eqb (oonet.CanonicalMIMEHeaderKey key)
               (oonet.CanonicalMIMEHeaderKey key')) with false
      by (symmetry; apply String.eqb_neq; congruence).
    now apply headerLookup_filter.
  Qed.

  (** X14. One round trip over HTTPS. The request is the one that
      [http.NewRequestWithContext] made, with two headers set: the content
      type, always, and the user agent when the resolver has one (otherwise
      it is left as it was); no other header is touched, under whatever
      capitalisation it is asked for. An error of the client is the result, as
      it is. A response whose status is not 200 gives
      [ErrDNSServerTemporarilyMisbehaving]: its body is closed and not read.
      With status 200 the result is what reading the body to the end gives,
      and the body is closed after that; a content type other than
      [application/dns-message] is logged and changes nothing else. *)
Theorem round_trip_over_https (r : DoH) ctx query s req0 :
    oonet.NewRequestWithContext ctx "POST" (oonet.DNSOverHTTPSResolver.URL r) query
    = inl req0 ->
    exists req,
      (oonet.Method req = oonet.Method req0
       /\ oonet.URL req = oonet.URL req0
       /\ oonet.Body req = oonet.Body req0
       /\ oonet.reqCtx req = oonet.reqCtx req0)
      /\ oonet.headerGet (oonet.Header req) "Content-Type" = "application/dns-message"
      /\ oonet.headerGet (oonet.Header req) "User-Agent"
         = (if String.eqb (oonet.DNSOverHTTPSResolver.UserAgent r) ""
            then oonet.headerGet (oonet.Header req0) "User-Agent"
            else oonet.DNSOverHTTPSResolver.UserAgent r)
      /\ (forall key,
            oonet.CanonicalMIMEHeaderKey key <> "Content-Type" ->
            oonet.CanonicalMIMEHeaderKey key <> "User-Agent" ->
            oonet.headerGet (oonet.Header req) key
            = oonet.headerGet (oonet.Header req0) key)
      /\ match oonet.Do (oonet.DNSOverHTTPSResolver.client r) req s with
         | (inr e, s1) =>
             oonet.DNSOverHTTPSResolver.roundTrip r ctx query s = ((None, Some e), s1)
         | (inl resp, s1) =>
             if oonet.StatusCode resp =? 200 then
               let s2 :=
                 if String.eqb (oonet.headerGet (oonet.RespHeader resp) "Content-Type")
                      "application/dns-message"
                 then s1
                 else oonet.logPrintf
                        "dns: the server did not set the right content type" s1 in
               oonet.DNSOverHTTPSResolver.roundTrip r ctx query s
               = (fst (oonet.ReadAll resp s2),
                  oonet.CloseBody resp (snd (oonet.ReadAll resp s2)))
             else
               oonet.DNSOverHTTPSResolver.roundTrip r ctx query s
               = ((None, Some ErrDNSServerTemporarilyMisbehaving),
                  oonet.CloseBody resp s1)
         end.
  Proof.
    intros H0. unfold oonet.DNSOverHTTPSResolver.roundTrip. rewrite H0.
    set (req1 := if negb (String.eqb (oonet.DNSOverHTTPSResolver.UserAgent r) "")
                 then oonet.setHeader req0 "user-agent"
                        (oonet.DNSOverHTTPSResolver.UserAgent r)
                 else req0).
    set (req := oonet.setHeader req1 "content-type" "application/dns-message").
    exists req.
    assert (K1 : oonet.CanonicalMIMEHeaderKey "content-type" = "Content-Type")
      by reflexivity.
    assert (K2 : oonet.CanonicalMIMEHeaderKey "user-agent" = "User-Agent")
      by reflexivity.
    assert (K3 : oonet.CanonicalMIMEHeaderKey "Content-Type" = "Content-Type")
      by reflexivity.
    assert (K4 : oonet.CanonicalMIMEHeaderKey "User-Agent" = "User-Agent")
      by reflexivity.
    assert (G : forall h v, oonet.headerGet (oonet.headerSet h "content-type" v)
                              "Content-Type" = v).
    { intros h v. unfold oonet.headerGet, oonet.headerSet. rewrite K1, K3.
      cbn [oonet.headerLookup]. now rewrite String.eqb_refl. }
    assert (G' : forall h v, oonet.headerGet (oonet.headerSet h "user-agent" v)
                               "User-Agent" = v).
    { intros h v. unfold oonet.headerGet, oonet.headerSet. rewrite K2, K4.
      cbn [oonet.headerLookup]. now rewrite String.eqb_refl. }
    split; [|split; [|split; [|split]]].
    - subst req req1.
      destruct (negb (String.eqb (oonet.DNSOverHTTPSResolver.UserAgent r) ""));
        repeat split.
    - subst req. cbn [oonet.setHeader oonet.Header]. apply G.
    - subst req. cbn [oonet.setHeader oonet.Header].
      rewrite headerGet_set_other by (rewrite K1, K4; discriminate).
      subst req1.
      destruct (String.eqb (oonet.DNSOverHTTPSResolver.UserAgent r) "");
        cbn [negb]; [reflexivity|].
      cbn [oonet.setHeader oonet.Header]. apply G'.
    - intros key N1 N2. subst req. cbn [oonet.setHeader oonet.Header].
      rewrite headerGet_set_other by (rewrite K1; exact N1).
      subst req1.
      destruct (negb (String.eqb (oonet.DNSOverHTTPSResolver.UserAgent r) ""));
        [|reflexivity].
      cbn [oonet.setHeader oonet.Header].
      now rewrite headerGet_set_other by (rewrite K2; exact N2).
    - destruct (oonet.Do (oonet.DNSOverHTTPSResolver.client r) req s)
        as [[resp|e] s1]; [|reflexivity].
      destruct (oonet.StatusCode resp =? 200); cbn [negb]; [|reflexivity].
      change (oonet.headerGet (oonet.RespHeader resp) "content-type")
        with (oonet.headerGet (oonet.RespHeader resp) "Content-Type").
      destruct (String.eqb (oonet.headerGet (oonet.RespHeader resp) "Content-Type")
                  "application/dns-message"); cbn [negb]; cbv zeta;
        now destruct (oonet.ReadAll resp _).
  Qed.

Lemma roundTrip_http_error (r : DoH) ctx query s :
    (forall c q, exists req0,
        oonet.NewRequestWithContext c "POST" (oonet.DNSOverHTTPSResolver.URL r) q
        = inl req0) ->
    (forall req s0, exists resp s1,
        oonet.Do (oonet.DNSOverHTTPSResolver.client r) req s0 = (inl resp, s1)
        /\ oonet.StatusCode resp <> 200) ->
    fst (oonet.DNSOverHTTPSResolver.roundTrip r ctx query s)
    = (None, Some ErrDNSServerTemporarilyMisbehaving).
  Proof.
    intros HN HD. unfold oonet.DNSOverHTTPSResolver.roundTrip.
    destruct (HN ctx query) as [req0 ->].
    match goal with
    | |- context [oonet.Do _ ?req s] =>
        destruct (HD req s) as (resp & s1 & -> & N)
    end.
    apply Z.eqb_neq in N. now rewrite N.
  Qed.

  (** X15. A server that answers every request with a status other than 200 makes
      every lookup of a name that can be encoded fail with
      [ErrDNSServerTemporarilyMisbehaving], whatever the bodies of its
      responses say. *)
Theorem lookup_fails_on_http_errors {lib : dns.Lib} (r : DoH) ctx hostname s :
    (forall qtype,
        snd (oonet.EncodeLookupHostRequest (oonet.DNSOverHTTPSResolver.codec r)
               ctx hostname qtype true) = None) ->
    (forall c q, exists req0,
        oonet.NewRequestWithContext c "POST" (oonet.DNSOverHTTPSResolver.URL r) q
        = inl req0) ->
    (forall req s0, exists resp s1,
        oonet.Do (oonet.DNSOverHTTPSResolver.client r) req s0 = (inl resp, s1)
        /\ oonet.StatusCode resp <> 200) ->
    fst (oonet.DNSOverHTTPSResolver.LookupHost r ctx hostname s)
    = ([], Some ErrDNSServerTemporarilyMisbehaving).
  Proof.
    intros HE HN HD. unfold oonet.DNSOverHTTPSResolver.LookupHost.
    rewrite LookupHost_merge. cbn [fst oonet.dnsGenericResolver.padding].
    assert (D : forall qtype s0,
               fst (oonet.dnsGenericResolver.doLookupHost
                      {| oonet.dnsGenericResolver.codec :=
                           oonet.DNSOverHTTPSResolver.codec r;
                         oonet.dnsGenericResolver.padding := true;
                         oonet.dnsGenericResolver.t :=
                           oonet.DNSOverHTTPSResolver.roundTrip r |}
                      ctx hostname qtype true s0)
               = oonet.mkResult [] (Some ErrDNSServerTemporarilyMisbehaving)).
    { intros qtype s0. unfold oonet.dnsGenericResolver.doLookupHost.
      cbn [oonet.dnsGenericResolver.codec oonet.dnsGenericResolver.t].
      specialize (HE qtype).
      destruct (oonet.EncodeLookupHostRequest _ ctx hostname qtype true)
        as [q [e|]]; [discriminate|].
      pose proof (roundTrip_http_error r ctx q s0 HN HD) as R.
      destruct (oonet.DNSOverHTTPSResolver.roundTrip r ctx q s0) as [out s1].
      cbn [fst] in R. subst out. reflexivity. }
    rewrite !D. reflexivity.
  Qed.

End OverHTTPS.

Section OverHTTPSRuns.
  #[local] Existing Instance reference.dnsLib.
  #[local] Existing Instance reference.exchangeEnv.

  (** A round trip against a server that answers 200 with the wrong content
      type: one request, the body read and closed, one line logged. *)
Example round_trip_wrong_content_type :
    let run := oonet.DNSOverHTTPSResolver.roundTrip (reference.dohResolver 200)
                 Background reference.shortQuery reference.noExchange in
    fst run = (Some [60; 104; 49; 62], None)
    /\ map oonet.Header (reference.requests (snd run))
       = [[("Content-Type", "application/dns-message");
           ("User-Agent", "miniooni/0.1.0")]]
    /\ reference.lines (snd run)
       = ["dns: the server did not set the right content type"]
    /\ reference.bodiesRead (snd run) = 1%nat
    /\ reference.bodiesClosed (snd run) = 1%nat.
  Proof. repeat split; vm_compute; reflexivity. Qed.

Lemma round_trip_over_https_witness :
    exists req,
      oonet.headerGet (oonet.Header req) "Content-Type" = "application/dns-message"
      /\ oonet.headerGet (oonet.Header req) "User-Agent" = "miniooni/0.1.0"
      /\ oonet.DNSOverHTTPSResolver.roundTrip (reference.dohResolver 503)
           Background reference.shortQuery reference.noExchange
         = ((None, Some ErrDNSServerTemporarilyMisbehaving),
            reference.mkExchange [req] [] 0 1).
  Proof.
    assert (E : oonet.NewRequestWithContext (S := reference.Exchange) Background
                  "POST"
                  (oonet.DNSOverHTTPSResolver.URL (reference.dohResolver 503))
                  reference.shortQuery
                = inl {| oonet.Method := "POST";
                         oonet.URL := "https://dns.google/dns-query";
                         oonet.Body := reference.shortQuery;
                         oonet.Header := [];
                         oonet.reqCtx := Background |}) by reflexivity.
    destruct (round_trip_over_https (reference.dohResolver 503) Background
                reference.shortQuery reference.noExchange _ E)
      as (req & _ & H1 & H2 & _ & H3).
    exists req. split; [exact H1|]. split; [exact H2|]. exact H3.
  Defined.

Lemma lookup_fails_on_http_errors_witness :
    fst (oonet.DNSOverHTTPSResolver.LookupHost (reference.dohResolver 503)
           Background "example.com" reference.noExchange)
    = ([], Some ErrDNSServerTemporarilyMisbehaving).
  Proof.
    apply lookup_fails_on_http_errors.
    - intros qtype. vm_compute. reflexivity.
    - intros c q. eexists. reflexivity.
    - intros req s0. eexists _, _. split; [reflexivity|]. discriminate.
  Defined.

End OverHTTPSRuns.

(** ** The decorators: identity and HTTPS lookups *)

Section DecoratorsMore.
  Context {S : Type} {lib : netxlite.Lib} {env : netxlite.Env S}.

  (** X16. The decorators pass on what the resolver says about itself, and its
      [CloseIdleConnections]: wrapping changes neither. The resolver of
      [NewResolverStdlib], and that of [NewResolverSystem], is the system
      resolver under the wrapping: its network is [system], its address is
      empty, closing its idle connections does nothing, and the logger
      announces a lookup of [host] as [resolve[A,AAAA] host with system ()]. *)
Theorem wrapping_keeps_identity (logger : netxlite.Logger S)
    (resolver : netxlite.Resolver S) :
    (netxlite.Network (netxlite.WrapResolver logger resolver)
     = netxlite.Network resolver
     /\ netxlite.Address (netxlite.WrapResolver logger resolver)
        = netxlite.Address resolver
     /\ netxlite.CloseIdleConnections (netxlite.WrapResolver logger resolver)
        = netxlite.CloseIdleConnections resolver)
    /\ (netxlite.Network (netxlite.NewResolverStdlib logger) = "system"
        /\ netxlite.Address (netxlite.NewResolverStdlib logger) = ""
        /\ (forall s, netxlite.CloseIdleConnections
                        (netxlite.NewResolverStdlib logger) s = s)
        /\ forall host,
            netxlite.Sprintf "resolve[A,AAAA] %s with %s (%s)"
              [host; netxlite.Network (netxlite.NewResolverStdlib logger);
               netxlite.Address (netxlite.NewResolverStdlib logger)]
            = String.append "resolve[A,AAAA] "
                (String.append host " with system ()"))
    /\ (netxlite.Network (netxlite.legacy.NewResolverSystem logger) = "system"
        /\ netxlite.Address (netxlite.legacy.NewResolverSystem logger) = ""
        /\ forall s, netxlite.CloseIdleConnections
                       (netxlite.legacy.NewResolverSystem logger) s = s).
  Proof.
    repeat split.
  Qed.

  (** X17. An HTTPS lookup of a literal IP address through the chain of
      [WrapResolver] never reaches the resolver: the result is a service with
      no ALPN and that one address, filed under IPv6 when the string has a
      colon and under IPv4 otherwise, and the state changes by the two lines
      of the logger and by nothing else. *)
Theorem https_lookup_of_ip_literal (logger : netxlite.Logger S)
    (resolver : netxlite.Resolver S) (inner : netxlite.LookupHTTPSFn S) ctx ip s :
    netxlite.ParseIP ip = true ->
    netxlite.ToASCII ip = inl ip ->
    let described :=
      netxlite.Sprintf "resolve[HTTPS] %s with %s (%s)"
        [ip; netxlite.Network resolver; netxlite.Address resolver] in
    let v4 := if netxlite.isIPv6 ip then [] else [ip] in
    let v6 := if netxlite.isIPv6 ip then [ip] else [] in
    let s1 := netxlite.Debugf logger "%s..." [netxlite.ArgString described] s in
    netxlite.WrapResolver_LookupHTTPS logger resolver inner ctx ip s
    = ((Some {| netxlite.ALPN := []; netxlite.IPv4 := v4; netxlite.IPv6 := v6 |},
        None),
       netxlite.Debugf logger "%s... %+v %+v %+v in %s"
         [netxlite.ArgString described; netxlite.ArgAddrs [];
          netxlite.ArgAddrs v4; netxlite.ArgAddrs v6; netxlite.ArgDuration 0] s1).
  Proof.
    intros Hip Hascii described v4 v6 s1.
    unfold netxlite.WrapResolver_LookupHTTPS, netxlite.resolverIDNA_LookupHTTPS.
    rewrite Hascii.
    unfold netxlite.resolverLogger_LookupHTTPS,
      netxlite.resolverShortCircuitIPAddr_LookupHTTPS.
    cbn [netxlite.Network netxlite.Address netxlite.resolverShortCircuitIPAddr
           netxlite.resolverErrWrapper].
    rewrite Hip. fold described. fold s1. subst v4 v6.
    destruct (netxlite.isIPv6 ip);
      cbn [netxlite.ALPN netxlite.IPv4 netxlite.IPv6 app];
      rewrite Z.sub_diag; reflexivity.
  Qed.

  (** X18. The system resolver and the null resolver have no HTTPS lookup to
      offer: through the chain of [WrapResolver], for a host name that is
      not a literal IP address, the first fails with [ErrNoDNSTransport] and
      the second with [ErrNoResolver], each wrapped as a failure of the
      resolve operation. *)
Theorem https_lookup_needs_a_transport (logger : netxlite.Logger S)
    (cfg : netxlite.resolverSystemT S) ctx hostname host s :
    netxlite.ToASCII hostname = inl host ->
    netxlite.ParseIP host = false ->
    fst (netxlite.WrapResolver_LookupHTTPS logger (netxlite.resolverSystem cfg)
           netxlite.resolverSystem_LookupHTTPS ctx hostname s)
    = (None, Some (ErrWrapper (netxlite.classifyResolverError ErrNoDNSTransport)
                     "resolve" ErrNoDNSTransport))
    /\ fst (netxlite.WrapResolver_LookupHTTPS logger netxlite.nullResolver
              netxlite.nullResolver_LookupHTTPS ctx hostname s)
       = (None, Some (ErrWrapper (netxlite.classifyResolverError ErrNoResolver)
                        "resolve" ErrNoResolver)).
  Proof.
    intros Hascii Hip.
    unfold netxlite.WrapResolver_LookupHTTPS, netxlite.resolverIDNA_LookupHTTPS.
    rewrite Hascii.
    unfold netxlite.resolverLogger_LookupHTTPS,
      netxlite.resolverShortCircuitIPAddr_LookupHTTPS,
      netxlite.resolverErrWrapper_LookupHTTPS,
      netxlite.resolverSystem_LookupHTTPS, netxlite.nullResolver_LookupHTTPS.
    rewrite Hip. split; reflexivity.
  Qed.

  (** X19. When the resolver underneath keeps to the contract of
      [LookupHTTPS] (it never returns neither a service nor an error), an
      HTTPS lookup through the chain of [WrapResolver] returns a service and
      no error, or an error and no service: a service that the resolver
      returns next to an error is dropped by the error wrapper. *)
Theorem https_lookup_returns_service_or_error (logger : netxlite.Logger S)
    (resolver : netxlite.Resolver S) (inner : netxlite.LookupHTTPSFn S)
    ctx hostname s :
    (forall c h s0, fst (inner c h s0) <> (None, None)) ->
    let out := fst (netxlite.WrapResolver_LookupHTTPS logger resolver inner
                      ctx hostname s) in
    (exists svc, out = (Some svc, None)) \/ (exists e, out = (None, Some e)).
  Proof.
    intros Hinner. cbv zeta.
    unfold netxlite.WrapResolver_LookupHTTPS, netxlite.resolverIDNA_LookupHTTPS.
    destruct (netxlite.ToASCII hostname) as [host|e]; [|right; eexists; reflexivity].
    unfold netxlite.resolverLogger_LookupHTTPS,
      netxlite.resolverShortCircuitIPAddr_LookupHTTPS,
      netxlite.resolverErrWrapper_LookupHTTPS.
    destruct (netxlite.ParseIP host).
    - left. eexists. reflexivity.
    - match goal with
      | |- context [inner ctx host ?s1] =>
          pose proof (Hinner ctx host s1) as N;
          destruct (inner ctx host s1) as [[[svc|] [e|]] s2]
      end; cbn [fst] in *.
      + right. eexists. reflexivity.
      + left. eexists. reflexivity.
      + right. eexists. reflexivity.
      + contradiction.
  Qed.

End DecoratorsMore.

Section DecoratorsMoreRuns.
  #[local] Existing Instance reference.netxliteLib.
  #[local] Existing Instance reference.journalEnv.

Lemma https_ip_literal_witness :
    netxlite.ParseIP "1.1.1.1" = true
    /\ netxlite.ToASCII "1.1.1.1" = inl "1.1.1.1"
    /\ fst (netxlite.WrapResolver_LookupHTTPS reference.journalLogger
              reference.fixedResolver netxlite.nullResolver_LookupHTTPS
              Background "1.1.1.1" reference.emptyJournal)
       = (Some {| netxlite.ALPN := []; netxlite.IPv4 := ["1.1.1.1"];
                  netxlite.IPv6 := [] |}, None).
  Proof.
    assert (P : netxlite.ParseIP "1.1.1.1" = true) by reflexivity.
    assert (A : netxlite.ToASCII "1.1.1.1" = inl "1.1.1.1") by reflexivity.
    split; [exact P|]. split; [exact A|].
    rewrite (https_lookup_of_ip_literal reference.journalLogger
               reference.fixedResolver netxlite.nullResolver_LookupHTTPS
               Background "1.1.1.1" reference.emptyJournal P A).
    reflexivity.
  Defined.

Lemma https_needs_transport_witness :
    netxlite.ToASCII "example.com" = inl "example.com"
    /\ netxlite.ParseIP "example.com" = false
    /\ fst (netxlite.WrapResolver_LookupHTTPS reference.journalLogger
              (netxlite.resolverSystem
                 {| netxlite.testableTimeout := 0;
                    netxlite.testableLookupHost := None |})
              netxlite.resolverSystem_LookupHTTPS
              Background "example.com" reference.emptyJournal)
       = (None, Some (ErrWrapper (netxlite.classifyResolverError ErrNoDNSTransport)
                        "resolve" ErrNoDNSTransport)).
  Proof.
    split; [reflexivity|]. split; [reflexivity|].
    exact (proj1 (https_lookup_needs_a_transport reference.journalLogger
                    {| netxlite.testableTimeout := 0;
                       netxlite.testableLookupHost := None |}
                    Background "example.com" "example.com"
                    reference.emptyJournal eq_refl eq_refl)).
  Defined.

Lemma https_service_or_error_witness :
    (forall c h s0,
        fst (netxlite.nullResolver_LookupHTTPS (S := reference.Journal) c h s0)
        <> (None, None))
    /\ ((exists svc,
           fst (netxlite.WrapResolver_LookupHTTPS reference.journalLogger
                  reference.fixedResolver netxlite.nullResolver_LookupHTTPS
                  Background "example.com" reference.emptyJournal)
           = (Some svc, None))
        \/ (exists e,
              fst (netxlite.WrapResolver_LookupHTTPS reference.journalLogger
                     reference.fixedResolver netxlite.nullResolver_LookupHTTPS
                     Background "example.com" reference.emptyJournal)
              = (None, Some e))).
  Proof.
    assert (H : forall c h s0,
               fst (netxlite.nullResolver_LookupHTTPS (S := reference.Journal) c h s0)
               <> (None, None)) by (intros c h s0; discriminate).
    split; [exact H|].
    exact (https_lookup_returns_service_or_error reference.journalLogger
             reference.fixedResolver netxlite.nullResolver_LookupHTTPS
             Background "example.com" reference.emptyJournal H).
  Defined.

End DecoratorsMoreRuns.

(** ** The codec: the header of a query, other query types *)

Section CodecMore.
  Context {lib : dns.Lib}.

  (** X20. The header of every query the codec builds: the identifier the library
      drew (in sixteen bits), recursion desired and no other flag or code,
      one question, no answer and no authority record, and one additional
      record exactly when the query is padded. Without padding the query is
      that header and the one question in class IN, and nothing behind it. *)
Theorem query_asks_for_recursion_only ctx domain qtype :
    (forall padding,
        dns.packMsgHdr (oonet.dnsMiekgCodec.query domain qtype padding)
        = dns.packUint16 (toUint16 (dns.randomId domain qtype))
            ++ [1; 0; 0; 1; 0; 0; 0; 0; 0; if padding : bool then 1 else 0])
    /\ oonet.dnsMiekgCodec.EncodeLookupHostRequest ctx domain qtype false
       = match dns.packDomainName (dns.Fqdn domain) with
         | Some name =>
             (Some (dns.packUint16 (toUint16 (dns.randomId domain qtype))
                      ++ [1; 0; 0; 1; 0; 0; 0; 0; 0; 0]
                      ++ name ++ dns.packUint16 qtype ++ [0; 1]), None)
         | None => (None, Some (ErrForeign "dns: bad rdata"))
         end.
  Proof.
    split.
    - intros [|]; [|reflexivity].
      unfold oonet.dnsMiekgCodec.query.
      set (q0 := dns.mkMsg _ _ _ _ _ _ _ _ _ _ _ _ _ _ _).
      destruct (Extra_pad q0 eq_refl) as (n & E & _).
      unfold dns.packMsgHdr. rewrite E. reflexivity.
    - unfold oonet.dnsMiekgCodec.EncodeLookupHostRequest, dns.Pack,
        oonet.dnsMiekgCodec.query.
      cbn [dns.Rcode dns.Question_ dns.Answer dns.Ns dns.Extra dns.packAll
             Z.ltb Z.compare orb].
      unfold dns.packQuestion. cbn [dns.Name dns.Qtype dns.Qclass].
      destruct (dns.packDomainName (dns.Fqdn domain)) as [name|]; [|reflexivity].
      cbn [app]. rewrite app_nil_r, <- !app_assoc. reflexivity.
  Qed.

  (** X21. The decoder knows the two address types only: asked for any other
      query type it never returns an address, and a reply that is a success
      on the wire comes out as "no answer", whatever records it holds. *)
Theorem decode_knows_addresses_only ctx qtype data :
    qtype <> dns.TypeA ->
    qtype <> dns.TypeAAAA ->
    fst (oonet.dnsMiekgCodec.DecodeLookupHostResponse ctx qtype data) = []
    /\ snd (oonet.dnsMiekgCodec.DecodeLookupHostResponse ctx qtype data) <> None
    /\ (forall reply,
          dns.Unpack (bytesOf data) = inl reply ->
          dns.Rcode reply = dns.RcodeSuccess ->
          oonet.dnsMiekgCodec.DecodeLookupHostResponse ctx qtype data
          = ([], Some ErrDNSNoAsnwerFromDNSServer)).
  Proof.
    intros NA NAAAA.
    assert (R : forall answer, requestedAddresses qtype answer = []).
    { intros answer. unfold requestedAddresses.
      induction answer as [|rr tl IH]; [reflexivity|].
      cbn [filter]. replace (isRequested qtype rr) with false; [exact IH|].
      symmetry. destruct rr; cbn [isRequested]; try reflexivity;
        apply Z.eqb_neq; assumption. }
    unfold oonet.dnsMiekgCodec.DecodeLookupHostResponse.
    destruct (dns.Unpack (bytesOf data)) as [reply|e].
    2:{ repeat split; try discriminate. }
    rewrite collect_requested, R. cbn [app length Z.of_nat Z.leb Z.compare].
    destruct (dns.Rcode reply =? dns.RcodeNameError) eqn:E1.
    { repeat split; try discriminate.
      intros reply' H S. injection H as <-. rewrite S in E1. discriminate. }
    destruct (dns.Rcode reply =? dns.RcodeServerFailure) eqn:E2.
    { repeat split; try discriminate.
      intros reply' H S. injection H as <-. rewrite S in E2. discriminate. }
    destruct (dns.Rcode reply =? dns.RcodeSuccess) eqn:E3;
      repeat split; try discriminate.
    intros reply' H S. injection H as <-. rewrite S in E3. discriminate.
  Qed.

End CodecMore.

Section CodecMoreRuns.
  #[local] Existing Instance reference.dnsLib.

Lemma decode_knows_addresses_only_witness :
    15 <> dns.TypeA
    /\ 15 <> dns.TypeAAAA
    /\ oonet.dnsMiekgCodec.DecodeLookupHostResponse Background 15
         (fst (dns.Pack (reference.sampleReply dns.RcodeSuccess)))
       = ([], Some ErrDNSNoAsnwerFromDNSServer).
  Proof.
    assert (A : 15 <> dns.TypeA) by discriminate.
    assert (B : 15 <> dns.TypeAAAA) by discriminate.
    split; [exact A|]. split; [exact B|].
    refine (proj2 (proj2 (decode_knows_addresses_only Background 15
                            (fst (dns.Pack (reference.sampleReply dns.RcodeSuccess)))
                            A B))
              (reference.sampleReply dns.RcodeSuccess) _ eq_refl).
    vm_compute. reflexivity.
  Defined.

End CodecMoreRuns.

(** ** The resolver of the standard library *)

Section Stdlib.
  Context {S : Type} {lib : netxlite.Lib} {env : netxlite.Env S}.

  (** X22. What [NewResolverStdlib] does with a host name that is no literal IP
      address: after the first line of the logger it asks the standard
      library, with the ASCII form of the name and under the caller's context
      cut to fifteen seconds. When that context is done its error is the
      result; otherwise the result is the error of the standard library or
      its addresses. Either error reaches the caller wrapped as a failure of
      the resolve operation. *)
Theorem stdlib_lookup_runs_under_timeout (logger : netxlite.Logger S)
    ctx hostname host s :
    netxlite.ToASCII hostname = inl host ->
    netxlite.ParseIP host = false ->
    let s1 := netxlite.Debugf logger "%s..."
                [netxlite.ArgString
                   (String.append "resolve[A,AAAA] "
                      (String.append host " with system ()"))] s in
    let limited := WithTimeout ctx (15 * oonet.Second) in
    let asked := netxlite.stdlibLookupHost limited host s1 in
    fst (netxlite.LookupHost (netxlite.NewResolverStdlib logger) ctx hostname s)
    = match netxlite.ctxDone limited (snd asked) with
      | Some e =>
          ([], Some (ErrWrapper (netxlite.classifyResolverError (ErrForeign e))
                       "resolve" (ErrForeign e)))
      | None =>
          match snd (fst asked) with
          | Some e =>
              ([], Some (ErrWrapper (netxlite.classifyResolverError e) "resolve" e))
          | None => (fst (fst asked), None)
          end
      end.
  Proof.
    intros Hascii Hip s1 limited asked.
    unfold netxlite.NewResolverStdlib, netxlite.WrapResolver.
    cbn [netxlite.LookupHost netxlite.resolverIDNA]. rewrite Hascii.
    cbn [netxlite.LookupHost netxlite.resolverLogger netxlite.Network
           netxlite.Address netxlite.resolverShortCircuitIPAddr
           netxlite.resolverErrWrapper netxlite.resolverSystem].
    rewrite Hip.
    change (netxlite.Sprintf "resolve[A,AAAA] %s with %s (%s)" [host; "system"; ""])
      with (String.append "resolve[A,AAAA] " (String.append host " with system ()")).
    fold s1.
    unfold netxlite.timeout, netxlite.lookupHost.
    cbn [netxlite.testableTimeout netxlite.testableLookupHost Z.ltb Z.compare].
    fold limited. fold asked.
    destruct asked as [[addrs err] s2]. cbn [fst snd].
    destruct (netxlite.ctxDone limited s2) as [e|]; [reflexivity|].
    destruct err as [e|]; reflexivity.
  Qed.

End Stdlib.

Section StdlibRuns.
  #[local] Existing Instance reference.netxliteLib.
  #[local] Existing Instance reference.journalEnv.

Lemma stdlib_lookup_witness :
    netxlite.ToASCII "example.com" = inl "example.com"
    /\ netxlite.ParseIP "example.com" = false
    /\ fst (netxlite.LookupHost (netxlite.NewResolverStdlib reference.journalLogger)
              Background "example.com" reference.emptyJournal)
       = ([], Some (ErrWrapper "dns_nxdomain_error" "resolve"
                      (ErrForeign "lookup: no such host"))).
  Proof.
    assert (A : netxlite.ToASCII "example.com" = inl "example.com") by reflexivity.
    assert (P : netxlite.ParseIP "example.com" = false) by reflexivity.
    split; [exact A|]. split; [exact P|].
    rewrite (stdlib_lookup_runs_under_timeout reference.journalLogger
               Background "example.com" "example.com" reference.emptyJournal A P).
    reflexivity.
  Defined.

End StdlibRuns.
